(** * pycryptosat: clause marshalling and solution enumeration

    A shallow embedding of [python/src/pycryptosat.cpp], the Python front end
    of CryptoMiniSat.  The C++ functions are written as Rocq functions that
    pass the solver object and the interpreter's error indicator explicitly.

    Conventions
    - a [long] is a [Z] in the LP64 range, an [int] a [Z] in the 32-bit range;
    - a [PyObject*] is a value of [PyObject]; the null pointer is [NULL];
    - a function that reports failure by its return value and the error
      indicator returns both: the indicator is [Some e] when exception [e]
      is pending and [None] when it is clear;
    - the SAT engine (class [SATSolver] of cryptominisat5) is not part of
      the front end; module [SATSolver] models it from its contract and
      takes the search itself as a parameter. *)

From Stdlib Require Import ZArith List Bool Lia Ascii.
From stdpp Require Import base option list.
Import ListNotations.
Local Open Scope Z_scope.

(** ** Machine integers *)

Module Limits.
(** [std::numeric_limits<int>::max()] and [min()]. *)
Definition INT_MAX : Z := 2147483647.
Definition INT_MIN : Z := -2147483648.
(** Range of [long] on an LP64 platform. *)
Definition LONG_MAX : Z := 9223372036854775807.
Definition LONG_MIN : Z := -9223372036854775808.
(** C++ integer division truncates towards zero: [Z.quot]. *)
Definition lit_max : Z := Z.quot INT_MAX 2.
Definition lit_min : Z := Z.quot INT_MIN 2.
End Limits.
Import Limits.

(** ** Python values seen by the front end *)

Inductive PyExc :=
| PyExc_TypeError
| PyExc_ValueError
| PyExc_OverflowError
| PyExc_SystemError.

(** [PyArray] is an [array.array]: it is the only modelled object that has
    the attributes [buffer_info], [typecode] and [itemsize].  [PyTuple] and
    [PyList] stand for every finite sequence; [PyOther] for an object that
    is neither an integer nor iterable. *)
#[warnings="-register-all"]
Inductive PyObject :=
| NULL
| Py_None
| Py_True
| Py_False
| PyLong (z : Z)
| PyTuple (items : list PyObject)
| PyList (items : list PyObject)
| PyArray (typecode : ascii) (itemsize : Z) (data : list Z)
| PyOther.

(** [IS_INT(x)], that is [PyLong_Check]: [bool] is a subclass of [int]. *)
Definition IS_INT (x : PyObject) : bool :=
  match x with
  | PyLong _ | Py_True | Py_False => true
  | _ => false
  end.

(** The mathematical value of an integer object. *)
Definition int_value (x : PyObject) : Z :=
  match x with
  | PyLong z => z
  | Py_True => 1
  | _ => 0
  end.

(** [PyLong_AsLong] of the C API: the value when it fits a [long],
    otherwise [-1] with [OverflowError] raised. *)
Definition PyLong_AsLong (x : PyObject) : Z * option PyExc :=
  let z := int_value x in
  if (LONG_MIN <=? z) && (z <=? LONG_MAX) then (z, None)
  else (-1, Some PyExc_OverflowError).

(** [PyObject_GetIter] followed by [PyIter_Next] until exhaustion: the items
    of an iterable, [None] for an object that is not iterable. *)
Definition PyObject_GetIter (x : PyObject) : option (list PyObject) :=
  match x with
  | PyTuple items | PyList items => Some items
  | PyArray _ _ data => Some (map PyLong data)
  | _ => None
  end.

(** [PyErr_Occurred()]. *)
Definition PyErr_Occurred (pending : option PyExc) : bool :=
  match pending with
  | Some _ => true
  | None => false
  end.

(** The error indicator after a callee ran: an exception it raised replaces
    the pending one. *)
Definition raised (callee pending : option PyExc) : option PyExc :=
  match callee with
  | Some e => Some e
  | None => pending
  end.

(** ** The engine's data *)

Inductive lbool := l_True | l_False | l_Undef.

Definition lbool_eqb (a b : lbool) : bool :=
  match a, b with
  | l_True, l_True | l_False, l_False | l_Undef, l_Undef => true
  | _, _ => false
  end.

(** [Lit(var, sign)]: [sign = true] is the negated literal. *)
Record Lit := mkLit { var : Z; sign : bool }.

(** ** Literal codec *)

(** [convert_lit_to_sign_and_var]: the first component is [None] when the
    function returns 0 and [Some (var, sign)] when it returns 1; the second
    is the exception the call raised, if any.  The result of [PyLong_AsLong]
    is used without a test of the error indicator, as in the source. *)
Definition convert_lit_to_sign_and_var (lit : PyObject)
  : option (Z * bool) * option PyExc :=
  if negb (IS_INT lit) then (None, Some PyExc_TypeError)
  else
    let '(val, overflow) := PyLong_AsLong lit in
    if val =? 0 then (None, Some PyExc_ValueError)
    else if (val >? lit_max) || (val <? lit_min)
    then (None, Some PyExc_ValueError)
    else (Some (Z.abs val - 1, val <? 0), overflow).

(** The signed integer of an engine literal, as [get_next_small_clause]
    computes it: [var + 1], multiplied by [-1] when the sign is set. *)
Definition lit_to_long (l : Lit) : Z :=
  let ll := var l + 1 in
  if sign l then ll * -1 else ll.

(** ** The engine *)

Module SATSolver.

(** The engine calls the front end makes, with their arguments. *)
Inductive call :=
| call_new_var
| call_new_vars (n : Z)
| call_add_clause (lits : list Lit)
| call_add_xor_clause (vars : list Z) (rhs : bool)
| call_solve (assumptions : list Lit)
| call_start_getting_small_clauses (max_len max_glue : Z)
| call_get_next_small_clause
| call_end_getting_small_clauses.

(** Modelled from the spec: the state of the external engine (class
    [SATSolver], absent from the front end's source): the size of the
    variable space, the committed clauses and XOR clauses in commit order,
    the model of the last solve and the cursor of the learnt-clause
    stream.  [calls] records every call made on the instance, oldest
    first. *)
Record t := mk {
  nVars : Z;
  clauses : list (list Lit);
  xor_clauses : list (list Z * bool);
  get_model : list lbool;
  small_clauses : list (list Lit);
  calls : list call
}.

(** Modelled from the spec: [new SATSolver], an engine with no variable. *)
Definition init : t := mk 0 [] [] [] [] [].

(** Appends a call to the record of calls. *)
Definition log (c : call) (e : t) : t :=
  mk (nVars e) (clauses e) (xor_clauses e) (get_model e) (small_clauses e)
     (calls e ++ [c]).

(** Modelled from the spec: [new_vars(k)] allocates [k] variables. *)
Definition new_vars (n : Z) (e : t) : t :=
  log (call_new_vars n)
    (mk (nVars e + n) (clauses e) (xor_clauses e) (get_model e)
        (small_clauses e) (calls e)).

(** Modelled from the spec: [new_var()] allocates one variable. *)
Definition new_var (e : t) : t :=
  log call_new_var
    (mk (nVars e + 1) (clauses e) (xor_clauses e) (get_model e)
        (small_clauses e) (calls e)).

(** Modelled from the spec: [add_clause(literals)] commits the clause. *)
Definition add_clause (lits : list Lit) (e : t) : t :=
  log (call_add_clause lits)
    (mk (nVars e) (clauses e ++ [lits]) (xor_clauses e) (get_model e)
        (small_clauses e) (calls e)).

(** Modelled from the spec: [add_xor_clause(vars, rhs)] commits the XOR
    constraint. *)
Definition add_xor_clause (vars : list Z) (rhs : bool) (e : t) : t :=
  log (call_add_xor_clause vars rhs)
    (mk (nVars e) (clauses e) (xor_clauses e ++ [(vars, rhs)]) (get_model e)
        (small_clauses e) (calls e)).

(** Modelled from the spec: the search of the engine, an opaque
    collaborator: from the variable count, the committed clauses and XOR
    clauses and the assumptions of one call to the three-valued answer and
    the model. *)
Definition search_t : Type :=
  Z -> list (list Lit) -> list (list Z * bool) -> list Lit ->
  lbool * list lbool.

(** Modelled from the spec: the learnt clauses the engine streams for a
    maximal length and glue. *)
Definition learnt_t : Type :=
  Z -> list (list Lit) -> list (list Z * bool) -> Z -> Z -> list (list Lit).

(** Modelled from the spec: [solve(assumptions)], a blocking call that
    answers satisfiable, unsatisfiable or unknown and leaves the model in
    the engine.  The assumptions are an argument of this call only:
    nothing of them is stored. *)
Definition solve (search : search_t) (assumptions : list Lit) (e : t)
  : lbool * t :=
  let '(res, m) :=
    search (nVars e) (clauses e) (xor_clauses e) assumptions in
  (res, log (call_solve assumptions)
          (mk (nVars e) (clauses e) (xor_clauses e) m (small_clauses e)
              (calls e))).

(** Modelled from the spec: [start_getting_small_clauses(max_len,
    max_glue)] opens the learnt-clause stream; the cursor is kept by the
    engine. *)
Definition start_getting_small_clauses (learnt : learnt_t)
    (max_len max_glue : Z) (e : t) : t :=
  log (call_start_getting_small_clauses max_len max_glue)
    (mk (nVars e) (clauses e) (xor_clauses e) (get_model e)
        (learnt (nVars e) (clauses e) (xor_clauses e) max_len max_glue)
        (calls e)).

(** Modelled from the spec: [get_next_small_clause(out)] yields the next
    clause of the stream, or reports that none is left. *)
Definition get_next_small_clause (e : t) : option (list Lit) * t :=
  match small_clauses e with
  | [] => (None, log call_get_next_small_clause e)
  | c :: rest =>
    (Some c, log call_get_next_small_clause
               (mk (nVars e) (clauses e) (xor_clauses e) (get_model e) rest
                   (calls e)))
  end.

(** Modelled from the spec: [end_getting_small_clauses()] closes the
    stream. *)
Definition end_getting_small_clauses (e : t) : t :=
  log call_end_getting_small_clauses
    (mk (nVars e) (clauses e) (xor_clauses e) (get_model e) [] (calls e)).

(** Modelled from the spec: [nClauses()], the number of committed
    clauses. *)
Definition nClauses (e : t) : Z := Z.of_nat (length (clauses e)).

(** The value of variable [v] in a model.  The front end reads
    [get_model()[v]] only for [v < nVars()]; a model holds one value per
    variable, and a read past its end is taken as unassigned. *)
Definition value (m : list lbool) (v : Z) : lbool :=
  nth (Z.to_nat v) m l_Undef.

(** A literal is true in a model when its variable has the value its
    sign asks for. *)
Definition lit_true (m : list lbool) (l : Lit) : bool :=
  lbool_eqb (value m (var l)) (if sign l then l_False else l_True).

Definition clause_true (m : list lbool) (c : list Lit) : bool :=
  existsb (lit_true m) c.

(** Modelled from the spec: a model is valid after a satisfiable answer.
    It has one value per variable and makes every committed clause and
    every assumption of the call true. *)
Definition sound (search : search_t) : Prop :=
  forall n cls xs assumptions m,
    search n cls xs assumptions = (l_True, m) ->
    length m = Z.to_nat n /\
    forallb (clause_true m) cls = true /\
    forallb (lit_true m) assumptions = true.

(** Modelled from the spec: unknown is answered only when a time or
    conflict limit is reached; an engine without limits always decides. *)
Definition decides (search : search_t) : Prop :=
  forall n cls xs assumptions,
    fst (search n cls xs assumptions) <> l_Undef.

End SATSolver.

(** ** The solver object *)

(** [struct Solver]: the engine and the scratch vector of literals. *)
Record Solver := mkSolver {
  cmsat : SATSolver.t;
  tmp_cl_lits : list Lit
}.

Definition set_cmsat (e : SATSolver.t) (self : Solver) : Solver :=
  mkSolver e (tmp_cl_lits self).

Definition set_tmp_cl_lits (lits : list Lit) (self : Solver) : Solver :=
  mkSolver (cmsat self) lits.

(** [lits.empty()]. *)
Definition empty (lits : list Lit) : bool :=
  match lits with
  | [] => true
  | _ :: _ => false
  end.

(** ** Clause ingestion *)

(** The [while] loop of [parse_clause] over the items the iterator yields.
    The result is: whether the loop ran to the end, the literals pushed,
    [max_var], and the error indicator. *)
Fixpoint parse_clause_items (items : list PyObject) (lits : list Lit)
    (max_var : Z) (pending : option PyExc)
  : bool * list Lit * Z * option PyExc :=
  match items with
  | [] => (true, lits, max_var, pending)
  | lit :: items =>
    match convert_lit_to_sign_and_var lit with
    | (None, e) => (false, lits, max_var, raised e pending)
    | (Some (var, sign), e) =>
      parse_clause_items items (lits ++ [mkLit var sign])
        (Z.max var max_var) (raised e pending)
    end
  end.

(** [parse_clause(self, clause, lits)]: the return value (1 as [true]), the
    solver, the vector [lits] and the error indicator. *)
Definition parse_clause (self : Solver) (clause : PyObject) (lits : list Lit)
  : bool * Solver * list Lit * option PyExc :=
  match PyObject_GetIter clause with
  | None => (false, self, lits, Some PyExc_TypeError)
  | Some items =>
    let '(ret, lits, max_var, pending) :=
      parse_clause_items items lits 0 None in
    if negb ret then (false, self, lits, pending)
    else
      let self :=
        if negb (empty lits) && (max_var >=? SATSolver.nVars (cmsat self))
        then set_cmsat
               (SATSolver.new_vars
                  (max_var - SATSolver.nVars (cmsat self) + 1) (cmsat self))
               self
        else self in
      match pending with
      | Some e => (false, self, lits, Some e)
      | None => (true, self, lits, None)
      end
  end.

(** [_add_clause(self, clause)].  [parse_clause] fills [self->tmp_cl_lits]
    through the reference it is given.  [PySequence_Size] only sizes the
    reservation: it succeeds on the sequences modelled here, and where it
    fails [PyObject_GetIter] fails too and raises the same TypeError. *)
Definition _add_clause (self : Solver) (clause : PyObject)
  : bool * Solver * option PyExc :=
  let self := set_tmp_cl_lits [] self in
  let '(ret, self, lits, err) := parse_clause self clause (tmp_cl_lits self) in
  let self := set_tmp_cl_lits lits self in
  if negb ret then (false, self, err)
  else (true, set_cmsat (SATSolver.add_clause (tmp_cl_lits self) (cmsat self))
                self, err).

(** The method [add_clause(clause)]. *)
Definition add_clause (self : Solver) (clause : PyObject)
  : PyObject * option PyExc * Solver :=
  let '(ret, self, err) := _add_clause self clause in
  if negb ret then (NULL, err, self) else (Py_None, err, self).

(** The inner [for] loop of [_add_clauses_from_array].  The position [k]
    is kept as the elements from [array[k]] on: [k < array_length] holds
    when they are not exhausted and [val] is the first of them.  The
    element the source reads one past the end is never inspected, since
    [k < array_length] is tested before [val].  The result is: whether the
    range test passed, the remaining elements, [lits] and [max_var]. *)
Fixpoint array_clause (rest : list Z) (lits : list Lit) (max_var : Z)
  : bool * list Z * list Lit * Z :=
  match rest with
  | [] => (true, rest, lits, max_var)
  | val :: rest' =>
    if val =? 0 then (true, rest, lits, max_var)
    else if (val >? lit_max) || (val <? lit_min)
    then (false, rest, lits, max_var)
    else
      let sign := val <? 0 in
      let var := Z.abs val - 1 in
      array_clause rest' (lits ++ [mkLit var sign]) (Z.max var max_var)
  end.

(** The outer [for] loop of [_add_clauses_from_array]; [None] when the fuel
    runs out before the loop ends. *)
Fixpoint array_clauses (fuel : nat) (rest : list Z) (self : Solver)
  : option (bool * Solver * option PyExc) :=
  match rest with
  | [] => Some (true, self, None)
  | _ :: _ =>
    match fuel with
    | O => None
    | S fuel =>
      let '(ok, rest, lits, max_var) := array_clause rest [] 0 in
      let self := set_tmp_cl_lits lits self in
      if negb ok then Some (false, self, Some PyExc_ValueError)
      else
        let self :=
          if negb (empty lits) then
            let e := cmsat self in
            let e :=
              if max_var >=? SATSolver.nVars e
              then SATSolver.new_vars (max_var - SATSolver.nVars e + 1) e
              else e in
            set_cmsat (SATSolver.add_clause lits e) self
          else self in
        array_clauses fuel (tail rest) self
    end
  end.

(** [_add_clauses_from_array(self, array_length, array)], the same for the
    three element types.  Every iteration of the outer loop advances [k],
    so [array_length] iterations are enough. *)
Definition _add_clauses_from_array (self : Solver) (array : list Z)
  : option (bool * Solver * option PyExc) :=
  let array_length := length array in
  if (array_length =? 0)%nat then Some (true, self, None)
  else if negb (nth (array_length - 1) array 0 =? 0)
  then Some (false, self, Some PyExc_ValueError)
  else array_clauses array_length array self.

(** [_check_array_typecode] on the one-character type code of an array. *)
Definition _check_array_typecode (typecode : ascii) : bool :=
  (Ascii.eqb typecode "i" || Ascii.eqb typecode "l" || Ascii.eqb typecode "q")%char.

(** [add_clauses_array] with [_add_clauses_from_buffer_info]:
    [sizeof(int) = 4], [sizeof(long) = sizeof(long long) = 8]. *)
Definition add_clauses_array (self : Solver) (typecode : ascii)
    (itemsize : Z) (data : list Z)
  : option (bool * Solver * option PyExc) :=
  if negb (_check_array_typecode typecode)
  then Some (false, self, Some PyExc_ValueError)
  else if itemsize <? 0 then Some (false, self, Some PyExc_ValueError)
  else if (itemsize =? 4) || (itemsize =? 8)
  then _add_clauses_from_array self data
  else Some (false, self, Some PyExc_ValueError).

(** The [while] loop of [add_clauses] over the clauses of an iterable.  A
    call of [_add_clause] that returns 1 leaves the error indicator clear,
    so the test of [PyErr_Occurred] after the loop passes. *)
Fixpoint add_clauses_items (items : list PyObject) (self : Solver)
  : PyObject * option PyExc * Solver :=
  match items with
  | [] => (Py_None, None, self)
  | clause :: items =>
    let '(ret, self, err) := _add_clause self clause in
    if negb ret then (NULL, err, self)
    else add_clauses_items items self
  end.

(** The method [add_clauses(clauses, max_var=0)]. *)
Definition add_clauses (self : Solver) (clauses : PyObject) (max_var : Z)
  : option (PyObject * option PyExc * Solver) :=
  let self :=
    if max_var >? SATSolver.nVars (cmsat self)
    then set_cmsat
           (SATSolver.new_vars (max_var - SATSolver.nVars (cmsat self))
              (cmsat self)) self
    else self in
  match clauses with
  | PyArray typecode itemsize data =>
    match add_clauses_array self typecode itemsize data with
    | None => None
    | Some (ret, self, err) =>
      if negb ret || PyErr_Occurred err then Some (NULL, err, self)
      else Some (Py_None, err, self)
    end
  | _ =>
    match PyObject_GetIter clauses with
    | None => Some (NULL, Some PyExc_TypeError, self)
    | Some items => Some (add_clauses_items items self)
    end
  end.

(** ** XOR clause ingestion *)

(** The [while] loop of [parse_xor_clause]: [new_var()] is called once for
    every index from [nVars()] to [var]. *)
Fixpoint parse_xor_clause_items (items : list PyObject) (self : Solver)
    (vars : list Z) (pending : option PyExc)
  : bool * Solver * list Z * option PyExc :=
  match items with
  | [] => (true, self, vars, pending)
  | lit :: items =>
    match convert_lit_to_sign_and_var lit with
    | (None, e) => (false, self, vars, raised e pending)
    | (Some (var, sign), e) =>
      if sign then (false, self, vars, Some PyExc_ValueError)
      else
        let e' := cmsat self in
        let self :=
          if var >=? SATSolver.nVars e'
          then set_cmsat
                 (Nat.iter (Z.to_nat (var - SATSolver.nVars e' + 1))
                    SATSolver.new_var e') self
          else self in
        parse_xor_clause_items items self (vars ++ [var]) (raised e pending)
    end
  end.

Definition parse_xor_clause (self : Solver) (clause : PyObject)
    (vars : list Z) : bool * Solver * list Z * option PyExc :=
  match PyObject_GetIter clause with
  | None => (false, self, vars, Some PyExc_TypeError)
  | Some items =>
    let '(ret, self, vars, pending) :=
      parse_xor_clause_items items self vars None in
    if negb ret then (false, self, vars, pending)
    else if PyErr_Occurred pending then (false, self, vars, pending)
    else (true, self, vars, pending)
  end.

(** The method [add_xor_clause(xor_clause, rhs)]. *)
Definition add_xor_clause (self : Solver) (clause rhs : PyObject)
  : PyObject * option PyExc * Solver :=
  match rhs with
  | Py_True | Py_False =>
    let real_rhs := match rhs with Py_True => true | _ => false end in
    let '(ret, self, vars, err) := parse_xor_clause self clause [] in
    if negb ret then (NULL, err, self)
    else (Py_None, err,
          set_cmsat (SATSolver.add_xor_clause vars real_rhs (cmsat self)) self)
  | _ => (NULL, Some PyExc_TypeError, self)
  end.

(** ** Solution extraction *)

(** [get_model()[i]]. *)
Definition model_at (model : list lbool) (i : nat) : lbool :=
  nth i model l_Undef.

(** [get_solution(cmsat)]: a tuple of [nVars() + 1] slots, [None] in slot 0
    and the value of variable [i] in slot [i + 1]. *)
Definition get_solution (cmsat : SATSolver.t) : PyObject :=
  let max_idx := Z.to_nat (SATSolver.nVars cmsat) in
  let tuple := replicate (max_idx + 1) NULL in
  let tuple := <[0%nat := Py_None]> tuple in
  PyTuple
    (fold_left
       (fun tuple i =>
          let v := model_at (SATSolver.get_model cmsat) i in
          let py_value :=
            match v with
            | l_True => Py_True
            | l_False => Py_False
            | l_Undef => Py_None
            end in
          <[(i + 1)%nat := py_value]> tuple)
       (seq 0 max_idx) tuple).

(** [get_raw_solution(cmsat)]: a tuple of [nVars()] slots; slot [var] is
    set to the signed literal of an assigned variable and is not written
    for an unassigned one, which leaves the null pointer [PyTuple_New] put
    there. *)
Definition get_raw_solution (cmsat : SATSolver.t) : PyObject :=
  let max_idx := Z.to_nat (SATSolver.nVars cmsat) in
  let tuple := replicate max_idx NULL in
  let model := SATSolver.get_model cmsat in
  PyTuple
    (fold_left
       (fun tuple var =>
          if negb (lbool_eqb (model_at model var) l_Undef) then
            let sign := if lbool_eqb (model_at model var) l_True then 1 else -1 in
            let py_value := PyLong ((Z.of_nat var + 1) * sign) in
            <[var := py_value]> tuple
          else tuple)
       (seq 0 max_idx) tuple).

(** The methods [nb_vars()] and [nb_clauses()]. *)
Definition nb_vars (self : Solver) : PyObject * option PyExc * Solver :=
  (PyLong (SATSolver.nVars (cmsat self)), None, self).

Definition nb_clauses (self : Solver) : PyObject * option PyExc * Solver :=
  (PyLong (SATSolver.nClauses (cmsat self)), None, self).

(** ** Solving *)

(** The [while] loop of [parse_assumption_lits]. *)
Fixpoint parse_assumption_items (items : list PyObject) (cmsat : SATSolver.t)
    (assumption_lits : list Lit) (pending : option PyExc)
  : bool * list Lit * option PyExc :=
  match items with
  | [] => (true, assumption_lits, pending)
  | lit :: items =>
    match convert_lit_to_sign_and_var lit with
    | (None, e) => (false, assumption_lits, raised e pending)
    | (Some (var, sign), e) =>
      if var >=? SATSolver.nVars cmsat
      then (false, assumption_lits, Some PyExc_ValueError)
      else
        parse_assumption_items items cmsat
          (assumption_lits ++ [mkLit var sign]) (raised e pending)
    end
  end.

(** [parse_assumption_lits(assumptions, cmsat, assumption_lits)]. *)
Definition parse_assumption_lits (assumptions : PyObject)
    (cmsat : SATSolver.t) (assumption_lits : list Lit)
  : bool * list Lit * option PyExc :=
  match PyObject_GetIter assumptions with
  | None => (false, assumption_lits, Some PyExc_TypeError)
  | Some items =>
    let '(ret, assumption_lits, pending) :=
      parse_assumption_items items cmsat assumption_lits None in
    if negb ret then (false, assumption_lits, pending)
    else if PyErr_Occurred pending then (false, assumption_lits, pending)
    else (true, assumption_lits, pending)
  end.

(** The ban clause of [msolve_selected]: for every selected literal whose
    sign is false, in order, [Lit(var, model[var] == l_True)].  The
    assertion [var <= nVars()] of the source holds, [parse_clause] having
    grown the variable space over the selection. *)
Definition ban_solution (var_lits : list Lit) (model : list lbool)
  : list Lit :=
  fold_left
    (fun ban l =>
       if negb (sign l)
       then ban ++ [mkLit (var l)
                      (lbool_eqb (SATSolver.value model (var l)) l_True)]
       else ban)
    var_lits [].

Section Frontend.

Variable search : SATSolver.search_t.
Variable learnt : SATSolver.learnt_t.

(** The method [solve(assumptions=None)]; [assumptions] is [NULL] when
    the caller gives none.  The engine's answer has three values, so the
    branch for any other value does not arise. *)
Definition solve (self : Solver) (assumptions : PyObject)
  : PyObject * option PyExc * Solver :=
  let '(ret, assumption_lits, err) :=
    match assumptions with
    | NULL => (true, [], None)
    | _ => parse_assumption_lits assumptions (cmsat self) []
    end in
  if negb ret then (NULL, err, self)
  else
    let '(res, e) := SATSolver.solve search assumption_lits (cmsat self) in
    let self := set_cmsat e self in
    match res with
    | l_True => (PyTuple [Py_True; get_solution e], err, self)
    | l_False => (PyTuple [Py_False; Py_None], err, self)
    | l_Undef => (PyTuple [Py_None; Py_None], err, self)
    end.

(** The method [is_satisfiable()]. *)
Definition is_satisfiable (self : Solver)
  : PyObject * option PyExc * Solver :=
  let '(res, e) := SATSolver.solve search [] (cmsat self) in
  let self := set_cmsat e self in
  match res with
  | l_True => (Py_True, None, self)
  | l_False => (Py_False, None, self)
  | l_Undef => (Py_None, None, self)
  end.

(** The [while] loop of [msolve_selected]; [None] when the fuel runs out
    before the loop ends. *)
Fixpoint msolve_loop (fuel : nat) (raw_solutions_activated : bool)
    (var_lits : list Lit) (max_nr_of_solutions : Z)
    (current_nr_of_solutions : Z) (res : lbool)
    (solutions : list PyObject) (self : Solver)
  : option (PyObject * option PyExc * Solver) :=
  if (current_nr_of_solutions <? max_nr_of_solutions) && lbool_eqb res l_True
  then
    match fuel with
    | O => None
    | S fuel =>
      let '(res, e) := SATSolver.solve search [] (cmsat self) in
      let current_nr_of_solutions := current_nr_of_solutions + 1 in
      match res with
      | l_True =>
        let solution :=
          if negb raw_solutions_activated then get_solution e
          else get_raw_solution e in
        let solutions := solutions ++ [solution] in
        let e :=
          if current_nr_of_solutions <? max_nr_of_solutions
          then SATSolver.add_clause
                 (ban_solution var_lits (SATSolver.get_model e)) e
          else e in
        msolve_loop fuel raw_solutions_activated var_lits
          max_nr_of_solutions current_nr_of_solutions res solutions
          (set_cmsat e self)
      | l_False => Some (PyList solutions, None, set_cmsat e self)
      | l_Undef => Some (NULL, Some PyExc_SystemError, set_cmsat e self)
      end
    end
  else Some (PyList solutions, None, self).

(** The method [msolve_selected(max_nr_of_solutions, var_selected, raw)].
    The counter grows by one in every iteration and the loop stops when
    it reaches [max_nr_of_solutions], which bounds the iterations. *)
Definition msolve_selected (self : Solver) (max_nr_of_solutions : Z)
    (var_selected : PyObject) (raw_solutions_activated : bool)
  : option (PyObject * option PyExc * Solver) :=
  let '(ret, self, var_lits, err) := parse_clause self var_selected [] in
  if negb ret then Some (NULL, err, self)
  else
    msolve_loop (Z.to_nat max_nr_of_solutions) raw_solutions_activated
      var_lits max_nr_of_solutions 0 l_True [] self.

(** ** Learnt-clause stream *)

Definition start_getting_small_clauses (self : Solver)
    (max_len max_glue : Z) : PyObject * option PyExc * Solver :=
  (Py_None, None,
   set_cmsat
     (SATSolver.start_getting_small_clauses learnt max_len max_glue
        (cmsat self)) self).

Definition get_next_small_clause (self : Solver)
  : PyObject * option PyExc * Solver :=
  let '(ret, e) := SATSolver.get_next_small_clause (cmsat self) in
  match ret with
  | None => (Py_None, None, set_cmsat e self)
  | Some lits =>
    (PyList (map (fun l => PyLong (lit_to_long l)) lits), None,
     set_cmsat e self)
  end.

Definition end_getting_small_clauses (self : Solver)
  : PyObject * option PyExc * Solver :=
  (Py_None, None,
   set_cmsat (SATSolver.end_getting_small_clauses (cmsat self)) self).

(** ** The methods of the solver object *)

(** The entries of [Solver_methods] with their parsed arguments. *)
Inductive method :=
| method_solve (assumptions : PyObject)
| method_add_clause (clause : PyObject)
| method_add_clauses (clauses : PyObject) (max_var : Z)
| method_add_xor_clause (xor_clause rhs : PyObject)
| method_nb_vars
| method_nb_clauses
| method_msolve_selected (max_nr_of_solutions : Z)
    (var_selected : PyObject) (raw : bool)
| method_is_satisfiable
| method_start_getting_small_clauses (max_len max_glue : Z)
| method_get_next_small_clause
| method_end_getting_small_clauses.

Definition call_method (m : method) (self : Solver)
  : option (PyObject * option PyExc * Solver) :=
  match m with
  | method_solve assumptions => Some (solve self assumptions)
  | method_add_clause clause => Some (add_clause self clause)
  | method_add_clauses clauses max_var => add_clauses self clauses max_var
  | method_add_xor_clause clause rhs => Some (add_xor_clause self clause rhs)
  | method_nb_vars => Some (nb_vars self)
  | method_nb_clauses => Some (nb_clauses self)
  | method_msolve_selected n sel raw => msolve_selected self n sel raw
  | method_is_satisfiable => Some (is_satisfiable self)
  | method_start_getting_small_clauses max_len max_glue =>
    Some (start_getting_small_clauses self max_len max_glue)
  | method_get_next_small_clause => Some (get_next_small_clause self)
  | method_end_getting_small_clauses => Some (end_getting_small_clauses self)
  end.

(** A run of method calls on one solver object, whatever each returns or
    raises. *)
Fixpoint call_methods (ms : list method) (self : Solver) : option Solver :=
  match ms with
  | [] => Some self
  | m :: ms =>
    match call_method m self with
    | None => None
    | Some (_, _, self) => call_methods ms self
    end
  end.

End Frontend.

(** ** A reference engine

    An exhaustive search over the assignments of the variables.  It is one
    engine that meets the contract [SATSolver.sound] and always decides;
    the theorems below hold for every such engine and are instantiated
    with this one on concrete inputs. *)

Module Reference.

(** All assignments of [n] variables. *)
Fixpoint assignments (n : nat) : list (list lbool) :=
  match n with
  | O => [[]]
  | S n => flat_map (fun m => [l_False :: m; l_True :: m]) (assignments n)
  end.

Definition xor_true (m : list lbool) (x : list Z * bool) : bool :=
  Bool.eqb
    (fold_left xorb
       (map (fun v => lbool_eqb (SATSolver.value m v) l_True) (fst x)) false)
    (snd x).

Definition search : SATSolver.search_t :=
  fun n cls xs assumptions =>
    match
      find (fun m =>
              forallb (SATSolver.clause_true m) cls
              && forallb (xor_true m) xs
              && forallb (SATSolver.lit_true m) assumptions)
           (assignments (Z.to_nat n))
    with
    | Some m => (l_True, m)
    | None => (l_False, [])
    end.

(** No learnt clause is streamed. *)
Definition learnt : SATSolver.learnt_t := fun _ _ _ _ _ => [].

End Reference.

(** ** Vocabulary of the statements *)

(** A literal of the data model, within the range the codec accepts. *)
Definition valid_lit (v : Z) : Prop := v <> 0 /\ lit_min <= v <= lit_max.

(** The engine literal of a valid signed integer. *)
Definition decode (v : Z) : Lit := mkLit (Z.abs v - 1) (v <? 0).

(** [max_var] after the loop of [parse_clause]: it starts at 0 and takes
    [std::max(var, max_var)] for every literal. *)
Definition max_var_of (lits : list Lit) : Z :=
  fold_left (fun max_var l => Z.max (var l) max_var) lits 0.

(** The growth step of [parse_clause] for the literals it decoded: when
    there is a literal and [max_var] is not below [nVars()], one call of
    [new_vars] for the deficit. *)
Definition ensure_vars (lits : list Lit) (e : SATSolver.t) : SATSolver.t :=
  if negb (empty lits) && (max_var_of lits >=? SATSolver.nVars e)
  then SATSolver.new_vars (max_var_of lits - SATSolver.nVars e + 1) e
  else e.

(** A flat buffer: every run of literals followed by the separator 0. *)
Definition flat_buffer (runs : list (list Z)) : list Z :=
  concat (map (fun run => run ++ [0]) runs).

(** What one run of a flat buffer commits: nothing when it has no literal,
    otherwise the growth step and the clause. *)
Definition commit_run (e : SATSolver.t) (run : list Z) : SATSolver.t :=
  match run with
  | [] => e
  | _ :: _ =>
    SATSolver.add_clause (map decode run) (ensure_vars (map decode run) e)
  end.

Definition nonempty_run (run : list Z) : bool :=
  match run with
  | [] => false
  | _ :: _ => true
  end.

(** Two engines that agree on everything committed and differ at most in
    the size of the variable space, the second having at least [mv]
    variables. *)
Definition same_but_vars (mv : Z) (e0 e1 : SATSolver.t) : Prop :=
  SATSolver.nVars e1 = Z.max (SATSolver.nVars e0) mv /\
  SATSolver.clauses e1 = SATSolver.clauses e0 /\
  SATSolver.xor_clauses e1 = SATSolver.xor_clauses e0 /\
  SATSolver.get_model e1 = SATSolver.get_model e0 /\
  SATSolver.small_clauses e1 = SATSolver.small_clauses e0.

Definition same_but_vars_solver (mv : Z) (s0 s1 : Solver) : Prop :=
  same_but_vars mv (cmsat s0) (cmsat s1) /\
  tmp_cl_lits s1 = tmp_cl_lits s0.

(** The object a dense solution holds for a value, and the one a raw
    solution holds for variable [var]: the null pointer when the variable
    is unassigned. *)
Definition dense_value (v : lbool) : PyObject :=
  match v with
  | l_True => Py_True
  | l_False => Py_False
  | l_Undef => Py_None
  end.

Definition raw_value (var : nat) (v : lbool) : PyObject :=
  match v with
  | l_True => PyLong (Z.of_nat var + 1)
  | l_False => PyLong (- (Z.of_nat var + 1))
  | l_Undef => NULL
  end.

(** The slot of a returned solution that belongs to the one-based variable
    [v]: index [v] of a dense tuple, index [v - 1] of a raw one. *)
Definition solution_slot (raw : bool) (solution : PyObject) (v : Z)
  : option PyObject :=
  match solution with
  | PyTuple items => nth_error items (Z.to_nat (if raw then v - 1 else v))
  | _ => None
  end.

(** The solution [msolve_selected] appends for a model, in the format the
    caller asked for. *)
Definition render_solution (raw : bool) (e : SATSolver.t) : PyObject :=
  if negb raw then get_solution e else get_raw_solution e.

(** Two models give different values to a variable that the selection
    [vs] names by a positive literal. *)
Definition differs_on (vs : list Z) (m1 m2 : list lbool) : Prop :=
  exists v, In v vs /\ 0 < v /\
    SATSolver.value m1 (v - 1) <> SATSolver.value m2 (v - 1).

(** The literal on the one-based variable [v] that is false when the
    variable has the value [b]. *)
Definition falsifying_lit (v : Z) (b : lbool) : Lit :=
  mkLit (v - 1) (lbool_eqb b l_True).

(** The slots of a tuple object. *)
Definition tuple_items (t : PyObject) : list PyObject :=
  match t with
  | PyTuple items => items
  | _ => []
  end.

(** [extends e e']: the variable space of [e'] is at least that of [e], and
    the committed clauses and the recorded calls of [e] are a prefix of
    those of [e']. *)
Definition extends (e e' : SATSolver.t) : Prop :=
  SATSolver.nVars e <= SATSolver.nVars e' /\
  SATSolver.clauses e `prefix_of` SATSolver.clauses e' /\
  SATSolver.calls e `prefix_of` SATSolver.calls e'.

(** The Python list of the integers of a clause. *)
Definition py_clause (c : list Z) : PyObject := PyList (map PyLong c).

(** The growth step of [parse_xor_clause] for one variable: when [var] is
    not below [nVars()], one [new_var()] per index from [nVars()] to
    [var]. *)
Definition xor_grow_var (e : SATSolver.t) (var : Z) : SATSolver.t :=
  if var >=? SATSolver.nVars e
  then Nat.iter (Z.to_nat (var - SATSolver.nVars e + 1)) SATSolver.new_var e
  else e.

(** The engine after [parse_xor_clause] went over the positive literals
    [vs]. *)
Definition xor_grow (vs : list Z) (e : SATSolver.t) : SATSolver.t :=
  fold_left (fun e v => xor_grow_var e (v - 1)) vs e.

(** A literal the XOR path accepts: positive and within the codec range. *)
Definition valid_var (v : Z) : Prop := 0 < v <= lit_max.

(** The solver after [add_clause] on a clause of valid literals. *)
Definition added (self : Solver) (c : list Z) : Solver :=
  mkSolver (SATSolver.add_clause (map decode c)
              (ensure_vars (map decode c) (cmsat self)))
           (map decode c).

(** * Properties *)

(** ** Literal codec *)

Lemma lit_max_eq : lit_max = 1073741823.
Proof. reflexivity. Qed.

Lemma lit_min_eq : lit_min = -1073741824.
Proof. reflexivity. Qed.

(** Closes [Forall valid_lit] goals over explicit literals. *)
Ltac valid_lits :=
  repeat match goal with
         | |- Forall _ _ => constructor
         | |- valid_lit _ => split; [lia | rewrite lit_min_eq, lit_max_eq; lia]
         end.

Lemma PyLong_AsLong_fits (v : Z) :
  LONG_MIN <= v <= LONG_MAX -> PyLong_AsLong (PyLong v) = (v, None).
Proof.
  intros Hv. unfold PyLong_AsLong; simpl.
  destruct (Z.leb_spec LONG_MIN v), (Z.leb_spec v LONG_MAX); simpl;
    first [reflexivity | lia].
Qed.

(** Decoding a literal in the accepted range. *)
Lemma convert_lit_ok (v : Z) :
  v <> 0 -> lit_min <= v <= lit_max ->
  convert_lit_to_sign_and_var (PyLong v) = (Some (Z.abs v - 1, v <? 0), None).
Proof.
  intros Hnz Hr. unfold convert_lit_to_sign_and_var; simpl.
  rewrite PyLong_AsLong_fits by (rewrite lit_min_eq, lit_max_eq in Hr;
                                 unfold LONG_MIN, LONG_MAX; lia).
  destruct (Z.eqb_spec v 0); [contradiction |].
  destruct (Z.gtb_spec v lit_max); [lia |].
  destruct (Z.ltb_spec v lit_min); [lia |].
  reflexivity.
Qed.

(** Re-encoding a decoded literal gives the integer back. *)
Lemma lit_to_long_decode (v : Z) :
  v <> 0 -> lit_to_long (mkLit (Z.abs v - 1) (v <? 0)) = v.
Proof.
  intros Hnz. unfold lit_to_long; simpl.
  destruct (Z.ltb_spec v 0); lia.
Qed.

(** A decoded variable index is never negative and stays below 2^30. *)
Lemma convert_lit_var_range (lit : PyObject) (v : Z) (s : bool)
    (e : option PyExc) :
  convert_lit_to_sign_and_var lit = (Some (v, s), e) ->
  0 <= v <= lit_max.
Proof.
  unfold convert_lit_to_sign_and_var.
  destruct (IS_INT lit); simpl; [| discriminate].
  destruct (PyLong_AsLong lit) as [val o].
  destruct (Z.eqb_spec val 0); [discriminate |].
  destruct (Z.gtb_spec val lit_max); simpl; [discriminate |].
  destruct (Z.ltb_spec val lit_min); simpl; [discriminate |].
  intros [= <- <- <-]. rewrite lit_min_eq, lit_max_eq in *. lia.
Qed.

(** An integer that does not fit a [long]: [PyLong_AsLong] gives [-1] and
    raises OverflowError, and the codec, which does not look at the error
    indicator, returns 1 with the literal [-1] decoded. *)
Lemma convert_lit_overflow (v : Z) :
  v < LONG_MIN \/ LONG_MAX < v ->
  convert_lit_to_sign_and_var (PyLong v)
  = (Some (0, true), Some PyExc_OverflowError).
Proof.
  intros Hv. unfold convert_lit_to_sign_and_var, PyLong_AsLong; simpl.
  destruct (Z.leb_spec LONG_MIN v), (Z.leb_spec v LONG_MAX); simpl;
    first [reflexivity | lia].
Qed.

(** C6, as stated, fails at [v = INT_MIN/2 = -1073741824]: its magnitude
    exceeds [INT_MAX/2], yet the codec accepts it, because the lower bound
    the source tests is [INT_MIN/2] and not [-(INT_MAX/2)]. *)
Lemma C6_counterexample :
  Z.abs (-1073741824) > Z.quot INT_MAX 2 /\
  convert_lit_to_sign_and_var (PyLong (-1073741824))
  = (Some (1073741823, true), None).
Proof. split; reflexivity. Qed.

(** C6 (amended): decoding a non-integer raises TypeError; decoding 0
    raises ValueError; decoding a [long] above [INT_MAX/2] or below
    [INT_MIN/2] raises ValueError; every non-zero [v] with
    [INT_MIN/2 <= v <= INT_MAX/2] decodes to variable [|v| - 1] with
    polarity [v < 0], and re-encoding that pair gives [v] back. *)
Theorem C6_literal_codec (x : PyObject) (v : Z) :
  (IS_INT x = false ->
   convert_lit_to_sign_and_var x = (None, Some PyExc_TypeError)) /\
  convert_lit_to_sign_and_var (PyLong 0) = (None, Some PyExc_ValueError) /\
  (LONG_MIN <= v <= LONG_MAX -> v > lit_max \/ v < lit_min ->
   convert_lit_to_sign_and_var (PyLong v) = (None, Some PyExc_ValueError)) /\
  (v <> 0 -> lit_min <= v <= lit_max ->
   convert_lit_to_sign_and_var (PyLong v) = (Some (Z.abs v - 1, v <? 0), None)
   /\ lit_to_long (mkLit (Z.abs v - 1) (v <? 0)) = v).
Proof.
  split; [| split; [| split]].
  - intros Hx. unfold convert_lit_to_sign_and_var. rewrite Hx. reflexivity.
  - reflexivity.
  - intros Hlong Hout. unfold convert_lit_to_sign_and_var; simpl.
    rewrite PyLong_AsLong_fits by assumption.
    rewrite lit_min_eq, lit_max_eq in Hout.
    destruct (Z.eqb_spec v 0); [reflexivity |].
    destruct (Z.gtb_spec v lit_max); simpl; [reflexivity |].
    destruct (Z.ltb_spec v lit_min); simpl; [reflexivity |].
    rewrite lit_min_eq, lit_max_eq in *. lia.
  - intros Hnz Hr. split.
    + apply convert_lit_ok; assumption.
    + apply lit_to_long_decode; assumption.
Qed.

Lemma C6_literal_codec_witness :
  convert_lit_to_sign_and_var PyOther = (None, Some PyExc_TypeError) /\
  convert_lit_to_sign_and_var (PyLong 1073741824)
  = (None, Some PyExc_ValueError) /\
  convert_lit_to_sign_and_var (PyLong (-1073741824))
  = (Some (1073741823, true), None) /\
  lit_to_long (mkLit 1073741823 true) = -1073741824.
Proof.
  split; [| split].
  - apply (proj1 (C6_literal_codec PyOther 0)). reflexivity.
  - apply (proj1 (proj2 (proj2 (C6_literal_codec PyOther 1073741824)))).
    + unfold LONG_MIN, LONG_MAX. lia.
    + left. rewrite lit_max_eq. lia.
  - apply (proj2 (proj2 (proj2 (C6_literal_codec PyOther (-1073741824))))).
    + lia.
    + rewrite lit_min_eq, lit_max_eq. lia.
Defined.

(** ** The engine only ever grows *)

Lemma extends_refl e : extends e e.
Proof. repeat split; [lia | reflexivity | reflexivity]. Qed.

Lemma extends_trans e1 e2 e3 : extends e1 e2 -> extends e2 e3 -> extends e1 e3.
Proof.
  intros (Hn & Hc & Hl) (Hn' & Hc' & Hl'). repeat split.
  - lia.
  - etrans; eassumption.
  - etrans; eassumption.
Qed.

Lemma extends_new_vars n e : 0 <= n -> extends e (SATSolver.new_vars n e).
Proof.
  intros Hn. repeat split; simpl; [lia | reflexivity | apply prefix_app_r; reflexivity].
Qed.

Lemma extends_new_var e : extends e (SATSolver.new_var e).
Proof.
  repeat split; simpl; [lia | reflexivity | apply prefix_app_r; reflexivity].
Qed.

Lemma extends_iter_new_var n e : extends e (Nat.iter n SATSolver.new_var e).
Proof.
  induction n as [| n IH]; simpl.
  - apply extends_refl.
  - eapply extends_trans; [exact IH | apply extends_new_var].
Qed.

Lemma extends_add_clause lits e : extends e (SATSolver.add_clause lits e).
Proof.
  repeat split; simpl; [lia | |]; apply prefix_app_r; reflexivity.
Qed.

Lemma extends_add_xor_clause vars rhs e :
  extends e (SATSolver.add_xor_clause vars rhs e).
Proof.
  repeat split; simpl; [lia | reflexivity | apply prefix_app_r; reflexivity].
Qed.

Lemma extends_solve search assumptions e res e' :
  SATSolver.solve search assumptions e = (res, e') -> extends e e'.
Proof.
  unfold SATSolver.solve.
  destruct (search _ _ _ _) as [r m]. intros [= <- <-].
  repeat split; simpl; [lia | reflexivity | apply prefix_app_r; reflexivity].
Qed.

Lemma solve_nVars search assumptions e res e' :
  SATSolver.solve search assumptions e = (res, e') ->
  SATSolver.nVars e' = SATSolver.nVars e /\
  SATSolver.clauses e' = SATSolver.clauses e /\
  SATSolver.xor_clauses e' = SATSolver.xor_clauses e /\
  SATSolver.calls e' = SATSolver.calls e ++ [SATSolver.call_solve assumptions].
Proof.
  unfold SATSolver.solve.
  destruct (search _ _ _ _) as [r m]. intros [= <- <-]. simpl. auto.
Qed.

Lemma extends_parse_clause self clause lits ret self' lits' err :
  parse_clause self clause lits = (ret, self', lits', err) ->
  extends (cmsat self) (cmsat self').
Proof.
  unfold parse_clause.
  destruct (PyObject_GetIter clause) as [items |];
    [| intros [= _ <- _ _]; apply extends_refl].
  destruct (parse_clause_items items lits 0 None) as [[[r ls] mv] p].
  destruct r; simpl; [| intros [= _ <- _ _]; apply extends_refl].
  destruct (negb (empty ls) && (mv >=? SATSolver.nVars (cmsat self))) eqn:Hg.
  - apply andb_prop in Hg as [_ Hge]. apply Z.geb_le in Hge.
    destruct p; intros [= _ <- _ _]; simpl; apply extends_new_vars; lia.
  - destruct p; intros [= _ <- _ _]; apply extends_refl.
Qed.

Lemma extends__add_clause self clause ret self' err :
  _add_clause self clause = (ret, self', err) ->
  extends (cmsat self) (cmsat self').
Proof.
  unfold _add_clause.
  destruct (parse_clause _ _ _) as [[[r s] ls] e] eqn:Hp.
  apply extends_parse_clause in Hp. simpl in Hp.
  destruct r; simpl; intros [= _ <- _]; simpl; [| exact Hp].
  eapply extends_trans; [exact Hp | apply extends_add_clause].
Qed.

Lemma extends_add_clause_method self clause r err self' :
  add_clause self clause = (r, err, self') ->
  extends (cmsat self) (cmsat self').
Proof.
  unfold add_clause.
  destruct (_add_clause self clause) as [[ret s] e] eqn:Ha.
  apply extends__add_clause in Ha.
  destruct ret; simpl; intros [= _ _ <-]; exact Ha.
Qed.

Lemma extends_array_clauses fuel : forall rest self ret self' err,
  array_clauses fuel rest self = Some (ret, self', err) ->
  extends (cmsat self) (cmsat self').
Proof.
  induction fuel as [| fuel IH]; intros rest self ret self' err.
  - destruct rest; simpl; [| discriminate].
    intros [= _ <- _]. apply extends_refl.
  - destruct rest as [| val rest]; [simpl; intros [= _ <- _]; apply extends_refl |].
    cbn [array_clauses].
    destruct (array_clause (val :: rest) [] 0) as [[[ok rest'] lits] mv].
    destruct ok; simpl; [| intros [= _ <- _]; apply extends_refl].
    intros H. apply IH in H. eapply extends_trans; [| exact H].
    destruct (empty lits); simpl; [apply extends_refl |].
    destruct (Z.geb_spec mv (SATSolver.nVars (cmsat self))).
    + eapply extends_trans; [| apply extends_add_clause].
      apply extends_new_vars; lia.
    + apply extends_add_clause.
Qed.

Lemma extends_add_clauses_items items : forall self r err self',
  add_clauses_items items self = (r, err, self') ->
  extends (cmsat self) (cmsat self').
Proof.
  induction items as [| clause items IH]; intros self r err self'; simpl.
  - intros [= _ _ <-]. apply extends_refl.
  - destruct (_add_clause self clause) as [[ret s] e] eqn:Ha.
    apply extends__add_clause in Ha.
    destruct ret; simpl.
    + intros H. apply IH in H. eapply extends_trans; eassumption.
    + intros [= _ _ <-]. exact Ha.
Qed.

Lemma extends_add_clauses self clauses max_var r err self' :
  add_clauses self clauses max_var = Some (r, err, self') ->
  extends (cmsat self) (cmsat self').
Proof.
  unfold add_clauses.
  set (self0 := if max_var >? SATSolver.nVars (cmsat self) then _ else self).
  assert (H0 : extends (cmsat self) (cmsat self0)).
  { subst self0. destruct (Z.gtb_spec max_var (SATSolver.nVars (cmsat self))).
    - simpl. apply extends_new_vars. lia.
    - apply extends_refl. }
  clearbody self0. intros H. eapply extends_trans; [exact H0 |]. clear H0.
  assert (Hit : forall items, PyObject_GetIter clauses = Some items ->
            Some (add_clauses_items items self0) = Some (r, err, self') ->
            extends (cmsat self0) (cmsat self')).
  { intros items _ [= Hi]. eapply extends_add_clauses_items; exact Hi. }
  destruct clauses; simpl in H;
    try (injection H as _ _ <-; apply extends_refl);
    try (eapply Hit; [reflexivity | exact H]).
  clear Hit. unfold add_clauses_array in H.
  destruct (_check_array_typecode typecode); simpl in H;
    [| injection H as _ _ <-; apply extends_refl].
  destruct (itemsize <? 0); [injection H as _ _ <-; apply extends_refl |].
  destruct ((itemsize =? 4) || (itemsize =? 8));
    [| injection H as _ _ <-; apply extends_refl].
  unfold _add_clauses_from_array in H.
  destruct (length data =? 0)%nat; [injection H as _ _ <-; apply extends_refl |].
  destruct (negb _); [injection H as _ _ <-; apply extends_refl |].
  destruct (array_clauses _ _ _) as [[[ret s] e] |] eqn:Ha; [| discriminate].
  apply extends_array_clauses in Ha.
  destruct (negb ret || PyErr_Occurred e); injection H as _ _ <-; exact Ha.
Qed.

Lemma extends_parse_xor_clause_items items : forall self vars pending ret self' vars' err,
  parse_xor_clause_items items self vars pending = (ret, self', vars', err) ->
  extends (cmsat self) (cmsat self').
Proof.
  induction items as [| lit items IH]; intros self vars pending ret self' vars' err;
    simpl.
  - intros [= _ <- _ _]. apply extends_refl.
  - destruct (convert_lit_to_sign_and_var lit) as [[[v s] |] e];
      [| intros [= _ <- _ _]; apply extends_refl].
    destruct s; [intros [= _ <- _ _]; apply extends_refl |].
    intros H. apply IH in H. eapply extends_trans; [| exact H].
    destruct (v >=? SATSolver.nVars (cmsat self)); simpl.
    + apply extends_iter_new_var.
    + apply extends_refl.
Qed.

Lemma extends_add_xor_clause_method self clause rhs r err self' :
  add_xor_clause self clause rhs = (r, err, self') ->
  extends (cmsat self) (cmsat self').
Proof.
  assert (Hp : forall ret s vars e,
            parse_xor_clause self clause [] = (ret, s, vars, e) ->
            extends (cmsat self) (cmsat s)).
  { unfold parse_xor_clause. intros ret s vars e.
    destruct (PyObject_GetIter clause) as [items |];
      [| intros [= _ <- _ _]; apply extends_refl].
    destruct (parse_xor_clause_items items self [] None) as [[[r0 s0] v0] p0] eqn:Hi.
    apply extends_parse_xor_clause_items in Hi.
    destruct r0; simpl; [| intros [= _ <- _ _]; exact Hi].
    destruct (PyErr_Occurred p0); intros [= _ <- _ _]; exact Hi. }
  unfold add_xor_clause.
  destruct (parse_xor_clause self clause []) as [[[ret s] vars] e].
  specialize (Hp _ _ _ _ eq_refl). rename Hp into Hx.
  destruct rhs; try (intros [= _ _ <-]; apply extends_refl);
    destruct ret; simpl; intros [= _ _ <-]; simpl; try exact Hx;
    (eapply extends_trans; [exact Hx | apply extends_add_xor_clause]).
Qed.

Section FrontendFrame.

Variable search : SATSolver.search_t.
Variable learnt : SATSolver.learnt_t.

Lemma extends_solve_method self assumptions r err self' :
  solve search self assumptions = (r, err, self') ->
  extends (cmsat self) (cmsat self').
Proof.
  unfold solve.
  destruct (match assumptions with NULL => _ | _ => _ end) as [[ret ls] e].
  destruct ret; simpl; [| intros [= _ _ <-]; apply extends_refl].
  destruct (SATSolver.solve search ls (cmsat self)) as [res e'] eqn:Hs.
  apply extends_solve in Hs.
  destruct res; intros [= _ _ <-]; exact Hs.
Qed.

Lemma extends_is_satisfiable self r err self' :
  is_satisfiable search self = (r, err, self') ->
  extends (cmsat self) (cmsat self').
Proof.
  unfold is_satisfiable.
  destruct (SATSolver.solve search [] (cmsat self)) as [res e'] eqn:Hs.
  apply extends_solve in Hs.
  destruct res; intros [= _ _ <-]; exact Hs.
Qed.

Lemma extends_msolve_loop fuel : forall raw var_lits n cur res sols self r err self',
  msolve_loop search fuel raw var_lits n cur res sols self = Some (r, err, self') ->
  extends (cmsat self) (cmsat self').
Proof.
  induction fuel as [| fuel IH]; intros raw var_lits n cur res sols self r err self';
    simpl.
  - destruct ((cur <? n) && lbool_eqb res l_True); [discriminate |].
    intros [= _ _ <-]. apply extends_refl.
  - destruct ((cur <? n) && lbool_eqb res l_True);
      [| intros [= _ _ <-]; apply extends_refl].
    destruct (SATSolver.solve search [] (cmsat self)) as [res' e'] eqn:Hs.
    apply extends_solve in Hs.
    destruct res'; try (intros [= _ _ <-]; exact Hs).
    intros H. apply IH in H. simpl in H.
    eapply extends_trans; [exact Hs |]. eapply extends_trans; [| exact H].
    destruct (cur + 1 <? n); [apply extends_add_clause | apply extends_refl].
Qed.

Lemma extends_msolve_selected self n sel raw r err self' :
  msolve_selected search self n sel raw = Some (r, err, self') ->
  extends (cmsat self) (cmsat self').
Proof.
  unfold msolve_selected.
  destruct (parse_clause self sel []) as [[[ret s] ls] e] eqn:Hp.
  apply extends_parse_clause in Hp.
  destruct ret; simpl; [| intros [= _ _ <-]; exact Hp].
  intros H. apply extends_msolve_loop in H.
  eapply extends_trans; eassumption.
Qed.

Lemma extends_call_method m self r err self' :
  call_method search learnt m self = Some (r, err, self') ->
  extends (cmsat self) (cmsat self').
Proof.
  destruct m; simpl.
  - intros [= H]. eapply extends_solve_method; exact H.
  - intros [= H]. eapply extends_add_clause_method; exact H.
  - apply extends_add_clauses.
  - intros [= H]. eapply extends_add_xor_clause_method; exact H.
  - intros [= _ _ <-]. apply extends_refl.
  - intros [= _ _ <-]. apply extends_refl.
  - apply extends_msolve_selected.
  - intros [= H]. eapply extends_is_satisfiable; exact H.
  - intros [= _ _ <-]. repeat split; simpl;
      [lia | reflexivity | apply prefix_app_r; reflexivity].
  - unfold get_next_small_clause, SATSolver.get_next_small_clause.
    destruct (SATSolver.small_clauses (cmsat self));
      intros [= _ _ <-]; repeat split; simpl;
      first [lia | reflexivity | apply prefix_app_r; reflexivity].
  - intros [= _ _ <-]. repeat split; simpl;
      [lia | reflexivity | apply prefix_app_r; reflexivity].
Qed.

Lemma extends_call_methods ms : forall self self',
  call_methods search learnt ms self = Some self' ->
  extends (cmsat self) (cmsat self').
Proof.
  induction ms as [| m ms IH]; intros self self'; simpl.
  - intros [= <-]. apply extends_refl.
  - destruct (call_method search learnt m self) as [[[r e] s] |] eqn:Hm;
      [| discriminate].
    apply extends_call_method in Hm. intros H. apply IH in H.
    eapply extends_trans; eassumption.
Qed.

End FrontendFrame.

(** ** The loops end within their fuel *)

Lemma array_clause_rest rest : forall lits mv ok rest' lits' mv',
  array_clause rest lits mv = (ok, rest', lits', mv') ->
  (length rest' <= length rest)%nat.
Proof.
  induction rest as [| val rest IH]; intros lits mv ok rest' lits' mv'; simpl.
  - intros [= _ <- _ _]. simpl. lia.
  - destruct (val =? 0); [intros [= _ <- _ _]; simpl; lia |].
    destruct ((val >? lit_max) || (val <? lit_min));
      [intros [= _ <- _ _]; simpl; lia |].
    intros H. apply IH in H. lia.
Qed.

Lemma array_clause_advances val rest lits mv ok rest' lits' mv' :
  array_clause (val :: rest) lits mv = (ok, rest', lits', mv') ->
  (length (tail rest') <= length rest)%nat.
Proof.
  simpl. destruct (val =? 0); [intros [= _ <- _ _]; simpl; lia |].
  destruct ((val >? lit_max) || (val <? lit_min));
    [intros [= _ <- _ _]; simpl; lia |].
  intros H. apply array_clause_rest in H.
  destruct rest'; simpl in *; lia.
Qed.

Lemma array_clauses_total fuel : forall rest self,
  (length rest <= fuel)%nat -> is_Some (array_clauses fuel rest self).
Proof.
  induction fuel as [| fuel IH]; intros rest self Hlen.
  - destruct rest; simpl in *; [eexists; reflexivity | lia].
  - destruct rest as [| val rest]; [eexists; reflexivity |].
    cbn [array_clauses].
    destruct (array_clause (val :: rest) [] 0) as [[[ok rest'] lits] mv] eqn:Hc.
    apply array_clause_advances in Hc.
    destruct ok; simpl; [| eexists; reflexivity].
    apply IH. simpl in Hlen. lia.
Qed.

Lemma add_clauses_total self clauses max_var :
  is_Some (add_clauses self clauses max_var).
Proof.
  unfold add_clauses.
  set (self0 := if max_var >? SATSolver.nVars (cmsat self) then _ else self).
  clearbody self0.
  destruct clauses; simpl; try (eexists; reflexivity).
  unfold add_clauses_array.
  destruct (_check_array_typecode typecode); simpl; [| eexists; reflexivity].
  destruct (itemsize <? 0); [eexists; reflexivity |].
  destruct ((itemsize =? 4) || (itemsize =? 8)); [| eexists; reflexivity].
  unfold _add_clauses_from_array.
  destruct (length data =? 0)%nat; [eexists; reflexivity |].
  destruct (negb _); [eexists; reflexivity |].
  destruct (array_clauses_total (length data) data self0 (le_n _)) as [[[ret s] e] ->].
  destruct (negb ret || PyErr_Occurred e); eexists; reflexivity.
Qed.

Section FrontendTotal.

Variable search : SATSolver.search_t.
Variable learnt : SATSolver.learnt_t.

Lemma msolve_loop_total fuel : forall raw var_lits n cur res sols self,
  n - cur <= Z.of_nat fuel ->
  is_Some (msolve_loop search fuel raw var_lits n cur res sols self).
Proof.
  induction fuel as [| fuel IH]; intros raw var_lits n cur res sols self Hf;
    simpl.
  - destruct (Z.ltb_spec cur n); simpl; [lia | eexists; reflexivity].
  - destruct ((cur <? n) && lbool_eqb res l_True); [| eexists; reflexivity].
    destruct (SATSolver.solve search [] (cmsat self)) as [res' e'].
    destruct res'; try (eexists; reflexivity).
    apply IH. lia.
Qed.

Lemma msolve_selected_total self n sel raw :
  is_Some (msolve_selected search self n sel raw).
Proof.
  unfold msolve_selected.
  destruct (parse_clause self sel []) as [[[ret s] ls] e].
  destruct ret; simpl; [| eexists; reflexivity].
  apply msolve_loop_total. lia.
Qed.

Lemma call_method_total m self : is_Some (call_method search learnt m self).
Proof.
  destruct m; simpl; try (eexists; reflexivity).
  - apply add_clauses_total.
  - apply msolve_selected_total.
Qed.

Lemma call_methods_total ms : forall self,
  is_Some (call_methods search learnt ms self).
Proof.
  induction ms as [| m ms IH]; intros self; simpl; [eexists; reflexivity |].
  destruct (call_method_total m self) as [[[r e] s] ->]. apply IH.
Qed.

End FrontendTotal.

(** ** Parsing a clause of valid literals *)

Lemma fold_max_var_ge lits : forall m,
  m <= fold_left (fun max_var l => Z.max (var l) max_var) lits m /\
  (forall l, In l lits ->
     var l <= fold_left (fun max_var l => Z.max (var l) max_var) lits m).
Proof.
  induction lits as [| l0 lits IH]; intros m; simpl.
  - split; [lia | intros l []].
  - destruct (IH (Z.max (var l0) m)) as [Hm Hin]. split; [lia |].
    intros l [<- | Hl]; [lia | apply Hin, Hl].
Qed.

Lemma fold_max_var_attained lits : forall m,
  fold_left (fun max_var l => Z.max (var l) max_var) lits m = m \/
  exists l, In l lits /\
    fold_left (fun max_var l => Z.max (var l) max_var) lits m = var l.
Proof.
  induction lits as [| l0 lits IH]; intros m; simpl; [left; reflexivity |].
  destruct (IH (Z.max (var l0) m)) as [-> | (l & Hl & ->)].
  - destruct (Z.max_spec (var l0) m) as [[_ ->] | [_ ->]];
      [left; reflexivity | right; exists l0; auto].
  - right. exists l. auto.
Qed.

Lemma max_var_of_ge lits l : In l lits -> var l <= max_var_of lits.
Proof. apply (fold_max_var_ge lits 0). Qed.

Lemma max_var_of_nonneg lits : 0 <= max_var_of lits.
Proof. apply (fold_max_var_ge lits 0). Qed.

Lemma max_var_of_lt lits n :
  0 < n -> (forall l, In l lits -> var l < n) -> max_var_of lits < n.
Proof.
  intros Hn Hall. unfold max_var_of.
  destruct (fold_max_var_attained lits 0) as [-> | (l & Hl & ->)];
    [lia | apply Hall, Hl].
Qed.

Lemma decode_var_nonneg v : valid_lit v -> 0 <= var (decode v).
Proof. intros [Hnz _]. simpl. lia. Qed.

Lemma decode_var v : var (decode v) = Z.abs v - 1.
Proof. reflexivity. Qed.

Lemma parse_clause_items_valid vs : Forall valid_lit vs ->
  forall lits mv pending,
  parse_clause_items (map PyLong vs) lits mv pending
  = (true, lits ++ map decode vs,
     fold_left (fun max_var l => Z.max (var l) max_var) (map decode vs) mv,
     pending).
Proof.
  induction 1 as [| v vs [Hnz Hr] _ IH]; intros lits mv pending; simpl.
  - rewrite app_nil_r. reflexivity.
  - rewrite (convert_lit_ok v Hnz Hr). rewrite IH.
    rewrite <- app_assoc. reflexivity.
Qed.

Lemma parse_clause_valid self vs : Forall valid_lit vs ->
  parse_clause self (PyList (map PyLong vs)) []
  = (true, set_cmsat (ensure_vars (map decode vs) (cmsat self)) self,
     map decode vs, None).
Proof.
  intros Hv. unfold parse_clause. simpl.
  rewrite (parse_clause_items_valid vs Hv). simpl.
  unfold ensure_vars. fold (max_var_of (map decode vs)).
  destruct (negb (empty (map decode vs))
            && (max_var_of (map decode vs) >=? SATSolver.nVars (cmsat self)));
    [reflexivity |].
  destruct self; reflexivity.
Qed.

(** After the growth step every parsed variable is below [nVars()]. *)
Lemma ensure_vars_covers lits e l :
  In l lits -> var l < SATSolver.nVars (ensure_vars lits e).
Proof.
  intros Hl. unfold ensure_vars.
  pose proof (max_var_of_ge lits l Hl) as Hle.
  destruct lits as [| l0 lits]; [destruct Hl |]. simpl negb. simpl andb.
  destruct (Z.geb_spec (max_var_of (l0 :: lits)) (SATSolver.nVars e)); simpl; lia.
Qed.

Lemma ensure_vars_nVars lits e :
  SATSolver.nVars (ensure_vars lits e)
  = if negb (empty lits) then Z.max (SATSolver.nVars e) (max_var_of lits + 1)
    else SATSolver.nVars e.
Proof.
  unfold ensure_vars. destruct (empty lits); simpl; [reflexivity |].
  destruct (Z.geb_spec (max_var_of lits) (SATSolver.nVars e)); simpl; lia.
Qed.

Lemma _add_clause_valid self vs : Forall valid_lit vs ->
  _add_clause self (PyList (map PyLong vs))
  = (true,
     mkSolver (SATSolver.add_clause (map decode vs)
                 (ensure_vars (map decode vs) (cmsat self)))
              (map decode vs),
     None).
Proof.
  intros Hv. unfold _add_clause. simpl tmp_cl_lits.
  rewrite (parse_clause_valid _ vs Hv). reflexivity.
Qed.


(** ** Variable space *)

Lemma add_clause_valid self vs : Forall valid_lit vs ->
  add_clause self (PyList (map PyLong vs))
  = (Py_None, None,
     mkSolver (SATSolver.add_clause (map decode vs)
                 (ensure_vars (map decode vs) (cmsat self)))
              (map decode vs)).
Proof.
  intros Hv. unfold add_clause. rewrite (_add_clause_valid self vs Hv).
  reflexivity.
Qed.

(** C7: the variable space never shrinks over any run of method calls;
    after adding a clause of valid literals every referenced one-based
    variable is at most [nb_vars()]; when the largest referenced index [M]
    is not below the previous size [n], the call grows the space by
    exactly [M - n + 1] in a single [new_vars] call; and a clause that
    references only variables below [nb_vars()] leaves it unchanged. *)
Theorem C7_variable_space (search : SATSolver.search_t)
    (learnt : SATSolver.learnt_t) (ms : list method) (self : Solver)
    (vs : list Z) :
  (exists self',
     call_methods search learnt ms self = Some self' /\
     SATSolver.nVars (cmsat self) <= SATSolver.nVars (cmsat self')) /\
  (Forall valid_lit vs ->
   let M := max_var_of (map decode vs) in
   let n := SATSolver.nVars (cmsat self) in
   exists self',
     add_clause self (PyList (map PyLong vs)) = (Py_None, None, self') /\
     (forall v, In v vs -> Z.abs v - 1 <= M) /\
     (forall v, In v vs -> Z.abs v <= SATSolver.nVars (cmsat self')) /\
     (vs <> [] -> n <= M ->
      SATSolver.nVars (cmsat self') = n + (M - n + 1) /\
      SATSolver.calls (cmsat self')
      = SATSolver.calls (cmsat self)
        ++ [SATSolver.call_new_vars (M - n + 1);
            SATSolver.call_add_clause (map decode vs)]) /\
     ((forall v, In v vs -> Z.abs v <= n) ->
      SATSolver.nVars (cmsat self') = n /\
      SATSolver.calls (cmsat self')
      = SATSolver.calls (cmsat self)
        ++ [SATSolver.call_add_clause (map decode vs)])).
Proof.
  split.
  - destruct (call_methods_total search learnt ms self) as [self' Hrun].
    exists self'. split; [exact Hrun |].
    apply extends_call_methods in Hrun. apply Hrun.
  - intros Hv M n. eexists. split; [apply add_clause_valid, Hv |].
    assert (HM : forall v, In v vs -> Z.abs v - 1 <= M).
    { intros v Hin. rewrite <- decode_var.
      apply max_var_of_ge, in_map, Hin. }
    split; [exact HM |]. simpl cmsat. split; [| split].
    + intros v Hin. simpl.
      pose proof (ensure_vars_covers (map decode vs) (cmsat self) (decode v)
                    (in_map decode vs v Hin)) as Hc.
      rewrite decode_var in Hc. lia.
    + intros Hne Hle. unfold ensure_vars. fold M. fold n.
      destruct vs as [| v0 vs']; [contradiction |]. simpl map. simpl empty.
      simpl negb. simpl andb.
      destruct (Z.geb_spec M n); [| lia]. simpl.
      split; [reflexivity |]. rewrite <- app_assoc. reflexivity.
    + intros Hbelow. unfold ensure_vars. fold M. fold n.
      destruct vs as [| v0 vs']; [simpl; auto |].
      assert (Hlt : M < n).
      { apply max_var_of_lt.
        - pose proof (Hbelow v0 (or_introl eq_refl)).
          apply Forall_inv in Hv. destruct Hv. lia.
        - intros l Hl. apply in_map_iff in Hl as (v & <- & Hin).
          rewrite decode_var. specialize (Hbelow v Hin). lia. }
      simpl map. simpl empty. simpl negb. simpl andb.
      destruct (Z.geb_spec M n); [lia |]. simpl. auto.
Qed.

Lemma C7_variable_space_witness :
  exists self',
    add_clause (mkSolver SATSolver.init []) (PyList [PyLong 2; PyLong (-3)])
    = (Py_None, None, self') /\
    SATSolver.nVars (cmsat self') = 3 /\
    SATSolver.calls (cmsat self')
    = [SATSolver.call_new_vars 3;
       SATSolver.call_add_clause [mkLit 1 false; mkLit 2 true]].
Proof.
  destruct (proj2 (C7_variable_space Reference.search Reference.learnt []
                     (mkSolver SATSolver.init []) [2; -3]))
    as (self' & Hadd & _ & _ & Hgrow & _).
  - valid_lits.
  - exists self'. split; [exact Hadd |].
    destruct Hgrow as [Hn Hc]; [discriminate | vm_compute; discriminate |].
    split; [exact Hn | exact Hc].
Defined.

(** ** Enumeration grows the variable space *)

Lemma msolve_loop_nVars search fuel :
  forall raw var_lits n cur res sols self r err self',
  msolve_loop search fuel raw var_lits n cur res sols self = Some (r, err, self') ->
  SATSolver.nVars (cmsat self') = SATSolver.nVars (cmsat self).
Proof.
  induction fuel as [| fuel IH]; intros raw var_lits n cur res sols self r err self';
    simpl.
  - destruct ((cur <? n) && lbool_eqb res l_True); [discriminate |].
    intros [= _ _ <-]. reflexivity.
  - destruct ((cur <? n) && lbool_eqb res l_True);
      [| intros [= _ _ <-]; reflexivity].
    destruct (SATSolver.solve search [] (cmsat self)) as [res' e'] eqn:Hs.
    apply solve_nVars in Hs as (Hn & _).
    destruct res'; try (intros [= _ _ <-]; exact Hn).
    intros H. apply IH in H. rewrite H. simpl.
    destruct (cur + 1 <? n); simpl; exact Hn.
Qed.

(** C10: [msolve_selected] parses [var_selected] with [parse_clause].  When
    a selected literal [v] names a variable index at or above [nVars()],
    the call completes, its first engine call is [new_vars] for the
    deficit up to the largest selected index [M], every solve comes after
    it, and the variable space ends at [M + 1], whatever the number of
    solutions asked for. *)
Theorem C10_enumeration_grows_variable_space (search : SATSolver.search_t)
    (self : Solver) (max_nr_of_solutions : Z) (vs : list Z) (raw : bool)
    (v : Z) :
  Forall valid_lit vs ->
  In v vs ->
  SATSolver.nVars (cmsat self) <= Z.abs v - 1 ->
  let M := max_var_of (map decode vs) in
  let n := SATSolver.nVars (cmsat self) in
  exists r err self' later,
    msolve_selected search self max_nr_of_solutions
      (PyList (map PyLong vs)) raw = Some (r, err, self') /\
    SATSolver.calls (cmsat self')
    = SATSolver.calls (cmsat self)
      ++ SATSolver.call_new_vars (M - n + 1) :: later /\
    SATSolver.nVars (cmsat self') = M + 1 /\
    n < SATSolver.nVars (cmsat self') /\
    (forall w, In w vs -> Z.abs w <= SATSolver.nVars (cmsat self')).
Proof.
  intros Hv Hin Hout M n.
  assert (HM : n <= M).
  { pose proof (max_var_of_ge (map decode vs) (decode v) (in_map decode vs v Hin)) as H.
    rewrite decode_var in H. fold M in H. lia. }
  destruct (msolve_selected_total search self max_nr_of_solutions
              (PyList (map PyLong vs)) raw) as [[[r err] self'] Hm].
  exists r, err, self'. pose proof Hm as Hm'.
  unfold msolve_selected in Hm. rewrite (parse_clause_valid self vs Hv) in Hm.
  simpl in Hm.
  assert (Hgrown : ensure_vars (map decode vs) (cmsat self)
                   = SATSolver.new_vars (M - n + 1) (cmsat self)).
  { unfold ensure_vars. fold M. fold n.
    destruct vs as [| v0 vs']; [destruct Hin |]. simpl map. simpl empty.
    simpl negb. simpl andb. destruct (Z.geb_spec M n); [reflexivity | lia]. }
  rewrite Hgrown in Hm.
  pose proof (msolve_loop_nVars _ _ _ _ _ _ _ _ _ _ _ _ Hm) as Hn.
  apply extends_msolve_loop in Hm as (_ & _ & [later Hlater]).
  simpl in Hn, Hlater. fold n in Hn.
  exists later. split; [exact Hm' |]. split.
  - rewrite Hlater, <- app_assoc. reflexivity.
  - assert (Hn' : SATSolver.nVars (cmsat self') = M + 1) by lia.
    split; [exact Hn' |]. split; [lia |].
    intros w Hw.
    pose proof (max_var_of_ge (map decode vs) (decode w) (in_map decode vs w Hw)) as H.
    rewrite decode_var in H. fold M in H. lia.
Qed.

Lemma C10_enumeration_grows_variable_space_witness :
  exists r err self' later,
    msolve_selected Reference.search (mkSolver SATSolver.init []) 0
      (PyList (map PyLong [1; -4])) false = Some (r, err, self') /\
    SATSolver.calls (cmsat self')
    = SATSolver.calls SATSolver.init ++ SATSolver.call_new_vars 4 :: later /\
    SATSolver.nVars (cmsat self') = 4 /\
    0 < SATSolver.nVars (cmsat self') /\
    (forall w, In w [1; -4] -> Z.abs w <= SATSolver.nVars (cmsat self')).
Proof.
  apply (C10_enumeration_grows_variable_space Reference.search
           (mkSolver SATSolver.init []) 0 [1; -4] false (-4)).
  - valid_lits.
  - simpl. auto.
  - simpl. lia.
Defined.


(** ** Flat-buffer ingestion *)

Lemma array_clause_run run rest : Forall valid_lit run ->
  forall lits mv,
  array_clause (run ++ 0 :: rest) lits mv
  = (true, 0 :: rest, lits ++ map decode run,
     fold_left (fun max_var l => Z.max (var l) max_var) (map decode run) mv).
Proof.
  induction 1 as [| v run [Hnz Hr] _ IH]; intros lits mv.
  - simpl. rewrite app_nil_r. reflexivity.
  - cbn [app array_clause].
    destruct (Z.eqb_spec v 0); [contradiction |].
    destruct (Z.gtb_spec v lit_max); [lia |].
    destruct (Z.ltb_spec v lit_min); [lia |].
    cbn [orb]. rewrite IH. rewrite <- app_assoc. reflexivity.
Qed.

Lemma array_clauses_runs runs :
  Forall (Forall valid_lit) runs ->
  forall fuel self, (length runs <= fuel)%nat ->
  exists self',
    array_clauses fuel (flat_buffer runs) self = Some (true, self', None) /\
    cmsat self' = fold_left commit_run runs (cmsat self).
Proof.
  induction 1 as [| run runs Hrun _ IH]; intros fuel self Hfuel.
  - exists self. destruct fuel; split; reflexivity.
  - destruct fuel as [| fuel]; [simpl in Hfuel; lia |].
    unfold flat_buffer. cbn [map concat]. rewrite <- app_assoc.
    fold (flat_buffer runs). cbn [app].
    assert (Hne : exists x rest', run ++ 0 :: flat_buffer runs = x :: rest').
    { destruct run; simpl; eauto. }
    destruct Hne as (x & rest' & Hne).
    cbn [array_clauses]. rewrite Hne. rewrite <- Hne. clear x rest' Hne.
    rewrite (array_clause_run run (flat_buffer runs) Hrun [] 0).
    cbn [negb app tail].
    fold (max_var_of (map decode run)).
    match goal with
    | |- context [array_clauses fuel (flat_buffer runs) ?s] =>
      destruct (IH fuel s) as (self' & Hloop & Hcm)
    end.
    { simpl in Hfuel. lia. }
    exists self'. split; [exact Hloop |]. rewrite Hcm. cbn [fold_left].
    f_equal. destruct run as [| v run]; [reflexivity |].
    cbn [map empty negb]. cbn [set_cmsat set_tmp_cl_lits cmsat tmp_cl_lits].
    unfold commit_run, ensure_vars. cbn [map empty negb andb].
    destruct (max_var_of (decode v :: map decode run)
              >=? SATSolver.nVars (cmsat self)); reflexivity.
Qed.

Lemma flat_buffer_ends_with_zero runs :
  runs <> [] -> exists l, flat_buffer runs = l ++ [0].
Proof.
  induction runs as [| run runs IH]; [contradiction |]. intros _.
  unfold flat_buffer. cbn [map concat]. fold (flat_buffer runs).
  destruct runs as [| run' runs].
  - exists run. simpl. rewrite app_nil_r. reflexivity.
  - destruct IH as [l Hl]; [discriminate |]. rewrite Hl.
    exists ((run ++ [0]) ++ l). rewrite app_assoc. reflexivity.
Qed.

Lemma flat_buffer_length runs : (length runs <= length (flat_buffer runs))%nat.
Proof.
  induction runs as [| run runs IH]; simpl; [lia |].
  unfold flat_buffer in *. cbn [map concat]. rewrite !length_app. simpl. lia.
Qed.

Lemma commit_runs_clauses runs : forall e,
  SATSolver.clauses (fold_left commit_run runs e)
  = SATSolver.clauses e ++ map (map decode) (List.filter nonempty_run runs).
Proof.
  induction runs as [| run runs IH]; intros e; simpl.
  - rewrite app_nil_r. reflexivity.
  - rewrite IH. destruct run as [| v run]; [reflexivity |].
    cbn [commit_run nonempty_run map].
    unfold ensure_vars.
    destruct (negb _ && _); simpl; rewrite <- app_assoc; reflexivity.
Qed.

Lemma _add_clauses_from_array_runs self runs :
  Forall (Forall valid_lit) runs ->
  exists self',
    _add_clauses_from_array self (flat_buffer runs) = Some (true, self', None) /\
    cmsat self' = fold_left commit_run runs (cmsat self).
Proof.
  intros Hv. unfold _add_clauses_from_array.
  destruct runs as [| run runs]; [exists self; split; reflexivity |].
  destruct (flat_buffer_ends_with_zero (run :: runs)) as [l Hl]; [discriminate |].
  destruct (Nat.eqb_spec (length (flat_buffer (run :: runs))) 0) as [H0 | _].
  { rewrite Hl, length_app in H0. simpl in H0. lia. }
  replace (nth (length (flat_buffer (run :: runs)) - 1)
             (flat_buffer (run :: runs)) 0) with 0.
  - cbn [Z.eqb negb].
    apply array_clauses_runs; [exact Hv | apply flat_buffer_length].
  - rewrite Hl, length_app. cbn [length].
    replace (length l + 1 - 1)%nat with (length l) by lia.
    rewrite app_nth2 by lia. rewrite Nat.sub_diag. reflexivity.
Qed.

Lemma _add_clauses_from_array_unterminated self array :
  array <> [] -> nth (length array - 1) array 0 <> 0 ->
  _add_clauses_from_array self array
  = Some (false, self, Some PyExc_ValueError).
Proof.
  intros Hne Hlast. unfold _add_clauses_from_array.
  apply Z.eqb_neq in Hlast. rewrite Hlast.
  destruct array as [| x array]; [contradiction | reflexivity].
Qed.

Lemma _add_clauses_from_array_zeros self k :
  exists self',
    _add_clauses_from_array self (repeat 0 k) = Some (true, self', None) /\
    cmsat self' = cmsat self.
Proof.
  destruct (_add_clauses_from_array_runs self (repeat [] k)) as (self' & Hr & Hcm).
  { clear. induction k; simpl; constructor; auto. }
  exists self'. split.
  - rewrite <- Hr. f_equal. clear. induction k; simpl; [reflexivity |].
    unfold flat_buffer in *. simpl. f_equal. exact IHk.
  - rewrite Hcm. clear. generalize (cmsat self).
    induction k; intros e; simpl; [reflexivity | apply IHk].
Qed.

(** C3: a flat buffer made of runs of valid literals, each followed by 0,
    is ingested with one clause committed per non-empty run, in order; a
    run without literals commits nothing, so a buffer of separators alone
    leaves the engine untouched; [1, -2, 0, 3, 0] commits
    exactly the clauses [1, -2] and [3]; and a non-empty buffer whose last
    element is not 0 returns 0 with ValueError and leaves the solver as it
    was. *)
Theorem C3_flat_buffer_ingestion (self : Solver) (runs : list (list Z))
    (array : list Z) :
  (Forall (Forall valid_lit) runs ->
   exists self',
     _add_clauses_from_array self (flat_buffer runs) = Some (true, self', None) /\
     cmsat self' = fold_left commit_run runs (cmsat self) /\
     SATSolver.clauses (cmsat self')
     = SATSolver.clauses (cmsat self)
       ++ map (map decode) (List.filter nonempty_run runs)) /\
  (forall k, exists self',
     _add_clauses_from_array self (repeat 0 k) = Some (true, self', None) /\
     cmsat self' = cmsat self) /\
  (exists self',
     _add_clauses_from_array (mkSolver SATSolver.init []) [1; -2; 0; 3; 0]
     = Some (true, self', None) /\
     SATSolver.clauses (cmsat self')
     = [[mkLit 0 false; mkLit 1 true]; [mkLit 2 false]]) /\
  (array <> [] -> nth (length array - 1) array 0 <> 0 ->
   _add_clauses_from_array self array
   = Some (false, self, Some PyExc_ValueError)).
Proof.
  split; [| split; [| split]].
  - intros Hv.
    destruct (_add_clauses_from_array_runs self runs Hv) as (self' & Hr & Hcm).
    exists self'. split; [exact Hr |]. split; [exact Hcm |].
    rewrite Hcm. apply commit_runs_clauses.
  - apply _add_clauses_from_array_zeros.
  - eexists. split; vm_compute; reflexivity.
  - apply _add_clauses_from_array_unterminated.
Qed.

Lemma C3_flat_buffer_ingestion_witness :
  (exists self',
     _add_clauses_from_array (mkSolver SATSolver.init [])
       (flat_buffer [[]; [1; -2]; []; [3]]) = Some (true, self', None) /\
     cmsat self' = fold_left commit_run [[]; [1; -2]; []; [3]] SATSolver.init /\
     SATSolver.clauses (cmsat self')
     = [] ++ map (map decode) (List.filter nonempty_run [[]; [1; -2]; []; [3]])) /\
  _add_clauses_from_array (mkSolver SATSolver.init []) [1; -2; 3]
  = Some (false, mkSolver SATSolver.init [], Some PyExc_ValueError).
Proof.
  split.
  - apply (proj1 (C3_flat_buffer_ingestion (mkSolver SATSolver.init [])
                    [[]; [1; -2]; []; [3]] [])).
    valid_lits.
  - apply (proj2 (proj2 (proj2 (C3_flat_buffer_ingestion
                                  (mkSolver SATSolver.init []) [] [1; -2; 3])))).
    + discriminate.
    + simpl. lia.
Defined.


(** ** Pre-declared variable count *)

Lemma same_but_vars_grow mv e0 e1 (nonempty : bool) (M : Z) :
  same_but_vars mv e0 e1 ->
  same_but_vars mv
    (if nonempty && (M >=? SATSolver.nVars e0)
     then SATSolver.new_vars (M - SATSolver.nVars e0 + 1) e0 else e0)
    (if nonempty && (M >=? SATSolver.nVars e1)
     then SATSolver.new_vars (M - SATSolver.nVars e1 + 1) e1 else e1).
Proof.
  intros (Hn & Hc & Hx & Hm & Hs).
  destruct nonempty; simpl; [| repeat split; assumption].
  destruct (Z.geb_spec M (SATSolver.nVars e0)),
           (Z.geb_spec M (SATSolver.nVars e1));
    repeat split; simpl; try assumption; lia.
Qed.

Lemma same_but_vars_add_clause mv e0 e1 lits :
  same_but_vars mv e0 e1 ->
  same_but_vars mv (SATSolver.add_clause lits e0) (SATSolver.add_clause lits e1).
Proof.
  intros (Hn & Hc & Hx & Hm & Hs). repeat split; simpl; try assumption.
  rewrite Hc. reflexivity.
Qed.

Lemma parse_clause_same_but_vars mv s0 s1 clause lits ret s0' lits' err :
  same_but_vars_solver mv s0 s1 ->
  parse_clause s0 clause lits = (ret, s0', lits', err) ->
  exists s1',
    parse_clause s1 clause lits = (ret, s1', lits', err) /\
    same_but_vars_solver mv s0' s1'.
Proof.
  intros [He Ht]. unfold parse_clause.
  destruct (PyObject_GetIter clause) as [items |];
    [| intros [= <- <- <- <-]; exists s1; split; [reflexivity | split; assumption]].
  destruct (parse_clause_items items lits 0 None) as [[[r ls] M] p].
  destruct r; cbn [negb];
    [| intros [= <- <- <- <-]; exists s1; split; [reflexivity | split; assumption]].
  pose proof (same_but_vars_grow mv _ _ (negb (empty ls)) M He) as Hg.
  destruct (negb (empty ls) && (M >=? SATSolver.nVars (cmsat s0))),
           (negb (empty ls) && (M >=? SATSolver.nVars (cmsat s1)));
    destruct p; intros [= <- <- <- <-]; eexists; (split; [reflexivity |]);
    split; simpl; assumption.
Qed.

Lemma _add_clause_same_but_vars mv s0 s1 clause ret s0' err :
  same_but_vars_solver mv s0 s1 ->
  _add_clause s0 clause = (ret, s0', err) ->
  exists s1',
    _add_clause s1 clause = (ret, s1', err) /\
    same_but_vars_solver mv s0' s1'.
Proof.
  intros [He Ht]. unfold _add_clause. cbn [tmp_cl_lits set_tmp_cl_lits].
  destruct (parse_clause (set_tmp_cl_lits [] s0) clause [])
    as [[[r s] ls] e] eqn:Hp.
  eapply (parse_clause_same_but_vars mv _ (set_tmp_cl_lits [] s1)) in Hp
    as (s1' & -> & [He' Ht']); [| split; [exact He | reflexivity]].
  destruct r; cbn [negb]; intros [= <- <- <-]; eexists;
    (split; [reflexivity |]); split; simpl; try reflexivity; try assumption.
  apply same_but_vars_add_clause. exact He'.
Qed.

Lemma add_clauses_items_same_but_vars mv items : forall s0 s1 r err s0',
  same_but_vars_solver mv s0 s1 ->
  add_clauses_items items s0 = (r, err, s0') ->
  exists s1',
    add_clauses_items items s1 = (r, err, s1') /\
    same_but_vars_solver mv s0' s1'.
Proof.
  induction items as [| clause items IH]; intros s0 s1 r err s0' HR; simpl.
  - intros [= <- <- <-]. exists s1. split; [reflexivity | exact HR].
  - destruct (_add_clause s0 clause) as [[ret s] e] eqn:Ha.
    eapply _add_clause_same_but_vars in Ha as (s1' & -> & HR'); [| exact HR].
    destruct ret; cbn [negb].
    + intros H. eapply IH in H; [exact H | exact HR'].
    + intros [= <- <- <-]. exists s1'. split; [reflexivity | exact HR'].
Qed.

Lemma array_clauses_same_but_vars mv fuel : forall rest s0 s1 ret s0' err,
  same_but_vars_solver mv s0 s1 ->
  array_clauses fuel rest s0 = Some (ret, s0', err) ->
  exists s1',
    array_clauses fuel rest s1 = Some (ret, s1', err) /\
    same_but_vars_solver mv s0' s1'.
Proof.
  induction fuel as [| fuel IH]; intros rest s0 s1 ret s0' err HR.
  - destruct rest; simpl; [| discriminate].
    intros [= <- <- <-]. exists s1. split; [reflexivity | exact HR].
  - destruct rest as [| val rest].
    { simpl. intros [= <- <- <-]. exists s1. split; [reflexivity | exact HR]. }
    cbn [array_clauses].
    destruct (array_clause (val :: rest) [] 0) as [[[ok rest'] lits] M].
    destruct HR as [He Ht].
    destruct ok; cbn [negb].
    + intros H. eapply IH in H; [exact H |].
      destruct (empty lits); cbn [negb]; [split; simpl; [exact He | reflexivity] |].
      split; simpl; [| reflexivity].
      apply same_but_vars_add_clause.
      apply (same_but_vars_grow mv _ _ true M He).
    + intros [= <- <- <-]. eexists. split; [reflexivity |].
      split; simpl; [exact He | reflexivity].
Qed.

(** C8, as stated, fails: on a fresh solver [add_clauses([[1]], max_var=10)]
    ends with ten variables and [add_clauses([[1]])] with one, so the two
    engines differ ([nb_vars()] and the length of every dense solution
    tell them apart). *)
Lemma C8_counterexample :
  exists s_with s_without,
    add_clauses (mkSolver SATSolver.init []) (PyList [PyList [PyLong 1]]) 10
    = Some (Py_None, None, s_with) /\
    add_clauses (mkSolver SATSolver.init []) (PyList [PyList [PyLong 1]]) 0
    = Some (Py_None, None, s_without) /\
    SATSolver.nVars (cmsat s_with) = 10 /\
    SATSolver.nVars (cmsat s_without) = 1 /\
    cmsat s_with <> cmsat s_without.
Proof.
  do 2 eexists. split; [vm_compute; reflexivity |].
  split; [vm_compute; reflexivity |].
  split; [reflexivity |]. split; [reflexivity |]. discriminate.
Qed.

(** C8 (amended): for every clause input of either form, [add_clauses]
    with [max_var] returns and raises what it does without, and commits
    the same clauses; the engines agree on everything committed except
    that the variable space ends at the larger of [max_var] and the size
    reached without it.  When [max_var] does not exceed that size the
    variable space is the same too. *)
Theorem C8_max_var_pregrowth (self : Solver) (clauses : PyObject)
    (max_var : Z) :
  0 <= SATSolver.nVars (cmsat self) ->
  exists r err s_without s_with,
    add_clauses self clauses 0 = Some (r, err, s_without) /\
    add_clauses self clauses max_var = Some (r, err, s_with) /\
    SATSolver.clauses (cmsat s_with) = SATSolver.clauses (cmsat s_without) /\
    SATSolver.xor_clauses (cmsat s_with)
    = SATSolver.xor_clauses (cmsat s_without) /\
    tmp_cl_lits s_with = tmp_cl_lits s_without /\
    SATSolver.nVars (cmsat s_with)
    = Z.max (SATSolver.nVars (cmsat s_without)) max_var /\
    (max_var <= SATSolver.nVars (cmsat s_without) ->
     SATSolver.nVars (cmsat s_with) = SATSolver.nVars (cmsat s_without)).
Proof.
  intros Hn0.
  destruct (add_clauses_total self clauses 0) as [[[r err] s_without] H0].
  exists r, err, s_without.
  assert (Hstart : same_but_vars_solver max_var self
            (if max_var >? SATSolver.nVars (cmsat self)
             then set_cmsat
                    (SATSolver.new_vars (max_var - SATSolver.nVars (cmsat self))
                       (cmsat self)) self
             else self)).
  { destruct (Z.gtb_spec max_var (SATSolver.nVars (cmsat self)));
      repeat split; simpl; lia. }
  assert (Hgoal : exists s_with,
            add_clauses self clauses max_var = Some (r, err, s_with) /\
            same_but_vars_solver max_var s_without s_with).
  { revert H0. unfold add_clauses.
    destruct (Z.gtb_spec 0 (SATSolver.nVars (cmsat self))) as [Hneg | _];
      [lia |].
    set (s1 := if max_var >? SATSolver.nVars (cmsat self) then _ else self) in *.
    clearbody s1.
    assert (Hit : forall items,
              Some (add_clauses_items items self) = Some (r, err, s_without) ->
              exists s_with,
                Some (add_clauses_items items s1) = Some (r, err, s_with) /\
                same_but_vars_solver max_var s_without s_with).
    { intros items [= Hi].
      eapply add_clauses_items_same_but_vars in Hi as (s' & -> & HR);
        [| exact Hstart].
      exists s'. split; [reflexivity | exact HR]. }
    destruct clauses; simpl; try apply Hit;
      try (intros [= <- <- <-]; exists s1; split; [reflexivity | exact Hstart]).
    unfold add_clauses_array.
    destruct (_check_array_typecode typecode); cbn [negb];
      [| intros [= <- <- <-]; exists s1; split; [reflexivity | exact Hstart]].
    destruct (itemsize <? 0);
      [intros [= <- <- <-]; exists s1; split; [reflexivity | exact Hstart] |].
    destruct ((itemsize =? 4) || (itemsize =? 8));
      [| intros [= <- <- <-]; exists s1; split; [reflexivity | exact Hstart]].
    unfold _add_clauses_from_array.
    destruct (length data =? 0)%nat;
      [intros [= <- <- <-]; exists s1; split; [reflexivity | exact Hstart] |].
    destruct (negb _);
      [intros [= <- <- <-]; exists s1; split; [reflexivity | exact Hstart] |].
    destruct (array_clauses (length data) data self) as [[[ret s] e] |] eqn:Ha;
      [| discriminate].
    eapply array_clauses_same_but_vars in Ha as (s' & -> & HR); [| exact Hstart].
    destruct (negb ret || PyErr_Occurred e); intros [= <- <- <-];
      exists s'; split; try reflexivity; exact HR. }
  destruct Hgoal as (s_with & H1 & (Hn & Hc & Hx & _ & _) & Ht).
  exists s_with. repeat split; try assumption. lia.
Qed.

Lemma C8_max_var_pregrowth_witness :
  exists r err s_without s_with,
    add_clauses (mkSolver SATSolver.init [])
      (PyList [PyList [PyLong 1; PyLong (-2)]]) 0 = Some (r, err, s_without) /\
    add_clauses (mkSolver SATSolver.init [])
      (PyList [PyList [PyLong 1; PyLong (-2)]]) 5 = Some (r, err, s_with) /\
    SATSolver.clauses (cmsat s_with) = SATSolver.clauses (cmsat s_without) /\
    SATSolver.xor_clauses (cmsat s_with)
    = SATSolver.xor_clauses (cmsat s_without) /\
    tmp_cl_lits s_with = tmp_cl_lits s_without /\
    SATSolver.nVars (cmsat s_with)
    = Z.max (SATSolver.nVars (cmsat s_without)) 5 /\
    (5 <= SATSolver.nVars (cmsat s_without) ->
     SATSolver.nVars (cmsat s_with) = SATSolver.nVars (cmsat s_without)).
Proof.
  apply (C8_max_var_pregrowth (mkSolver SATSolver.init [])
           (PyList [PyList [PyLong 1; PyLong (-2)]]) 5).
  simpl. lia.
Defined.

(** ** Assumptions *)

(** An integer object is rejected by the codec only with ValueError. *)
Lemma convert_lit_int_fails lit e :
  IS_INT lit = true ->
  convert_lit_to_sign_and_var lit = (None, e) -> e = Some PyExc_ValueError.
Proof.
  intros Hint. unfold convert_lit_to_sign_and_var. rewrite Hint. cbn [negb].
  destruct (PyLong_AsLong lit) as [val o].
  destruct (val =? 0); [intros [= <-]; reflexivity |].
  destruct ((val >? lit_max) || (val <? lit_min)); [| discriminate].
  intros [= <-]. reflexivity.
Qed.

Lemma parse_assumption_items_unknown_var cmsat items :
  Forall (fun lit => IS_INT lit = true) items ->
  forall x v s e,
  In x items ->
  convert_lit_to_sign_and_var x = (Some (v, s), e) ->
  SATSolver.nVars cmsat <= v ->
  forall lits pending, exists lits',
    parse_assumption_items items cmsat lits pending
    = (false, lits', Some PyExc_ValueError).
Proof.
  induction 1 as [| lit items Hint _ IH]; intros x v s e Hin Hx Hv lits pending;
    [destruct Hin |].
  simpl.
  destruct (convert_lit_to_sign_and_var lit) as [[[v' s'] |] e'] eqn:Hlit.
  - destruct (Z.geb_spec v' (SATSolver.nVars cmsat)) as [_ | Hlt];
      [eexists; reflexivity |].
    destruct Hin as [-> | Hin].
    + rewrite Hx in Hlit. injection Hlit as -> _ _. lia.
    + eapply IH; eassumption.
  - apply convert_lit_int_fails in Hlit; [| exact Hint]. subst e'.
    eexists. reflexivity.
Qed.

Lemma parse_assumption_lits_total assumptions cmsat lits :
  exists ret lits' err,
    parse_assumption_lits assumptions cmsat lits = (ret, lits', err) /\
    (ret = true -> err = None).
Proof.
  unfold parse_assumption_lits.
  destruct (PyObject_GetIter assumptions) as [items |];
    [| do 3 eexists; split; [reflexivity | discriminate]].
  destruct (parse_assumption_items items cmsat lits None) as [[r ls] p].
  destruct r; cbn [negb]; [| do 3 eexists; split; [reflexivity | discriminate]].
  destruct p; simpl; do 3 eexists; (split; [reflexivity |]);
    [discriminate | reflexivity].
Qed.

(** The answer of [solve] depends on the engine only through what is
    committed: the variable count, the clauses and the XOR clauses. *)
Lemma solve_answer_committed search self self' assumptions :
  SATSolver.nVars (cmsat self') = SATSolver.nVars (cmsat self) ->
  SATSolver.clauses (cmsat self') = SATSolver.clauses (cmsat self) ->
  SATSolver.xor_clauses (cmsat self') = SATSolver.xor_clauses (cmsat self) ->
  fst (solve search self' assumptions) = fst (solve search self assumptions).
Proof.
  intros Hn Hc Hx. unfold solve.
  replace (parse_assumption_lits assumptions (cmsat self') [])
    with (parse_assumption_lits assumptions (cmsat self) []).
  2:{ unfold parse_assumption_lits.
      destruct (PyObject_GetIter assumptions) as [items |]; [| reflexivity].
      replace (parse_assumption_items items (cmsat self') [] None)
        with (parse_assumption_items items (cmsat self) [] None); [reflexivity |].
      generalize (@nil Lit) (@None PyExc).
      induction items as [| lit items IH]; intros ls p; simpl; [reflexivity |].
      destruct (convert_lit_to_sign_and_var lit) as [[[v s] |] e]; [| reflexivity].
      rewrite Hn. destruct (v >=? SATSolver.nVars (cmsat self)); [reflexivity |].
      apply IH. }
  destruct (match assumptions with NULL => _ | _ => _ end) as [[ret ls] e].
  destruct ret; cbn [negb]; [| reflexivity].
  unfold SATSolver.solve. rewrite Hn, Hc, Hx.
  destruct (search _ _ _ ls) as [res m].
  destruct res; reflexivity.
Qed.

(** C5: when every assumption is an integer object and one of them decodes
    to a variable index at or above [nVars()], [solve] returns the null
    pointer with ValueError raised and the solver untouched; whatever the
    assumptions and the outcome, [solve] leaves the size of the variable
    space as it was and makes no engine call other than one solve; and the
    result of a later [solve()] without assumptions is the one it would
    have been had the earlier call not been made. *)
Theorem C5_assumptions (search : SATSolver.search_t) (self : Solver)
    (assumptions : PyObject) (items : list PyObject) (x : PyObject)
    (v : Z) (s : bool) (e : option PyExc) :
  (Forall (fun lit => IS_INT lit = true) items ->
   In x items ->
   convert_lit_to_sign_and_var x = (Some (v, s), e) ->
   SATSolver.nVars (cmsat self) <= v ->
   solve search self (PyList items) = (NULL, Some PyExc_ValueError, self)) /\
  (exists r err self',
     solve search self assumptions = (r, err, self') /\
     SATSolver.nVars (cmsat self') = SATSolver.nVars (cmsat self) /\
     SATSolver.clauses (cmsat self') = SATSolver.clauses (cmsat self) /\
     (SATSolver.calls (cmsat self') = SATSolver.calls (cmsat self) \/
      exists lits,
        SATSolver.calls (cmsat self')
        = SATSolver.calls (cmsat self) ++ [SATSolver.call_solve lits]) /\
     fst (solve search self' NULL) = fst (solve search self NULL)).
Proof.
  split.
  - intros Hint Hin Hx Hv. unfold solve, parse_assumption_lits. cbn [PyObject_GetIter].
    destruct (parse_assumption_items_unknown_var (cmsat self) items Hint
                x v s e Hin Hx Hv [] None) as [lits' ->].
    reflexivity.
  - destruct (solve search self assumptions) as [[r err] self'] eqn:Hs.
    exists r, err, self'. split; [reflexivity |].
    assert (H : SATSolver.nVars (cmsat self') = SATSolver.nVars (cmsat self) /\
                SATSolver.clauses (cmsat self') = SATSolver.clauses (cmsat self) /\
                SATSolver.xor_clauses (cmsat self')
                = SATSolver.xor_clauses (cmsat self) /\
                (SATSolver.calls (cmsat self') = SATSolver.calls (cmsat self) \/
                 exists lits,
                   SATSolver.calls (cmsat self')
                   = SATSolver.calls (cmsat self) ++ [SATSolver.call_solve lits])).
    { revert Hs. unfold solve.
      destruct (match assumptions with NULL => _ | _ => _ end) as [[ret ls] e0].
      destruct ret; cbn [negb]; [| intros [= _ _ <-]; auto].
      destruct (SATSolver.solve search ls (cmsat self)) as [res e'] eqn:He.
      apply solve_nVars in He as (Hn & Hc & Hx & Hl).
      destruct res; intros [= _ _ <-]; simpl; eauto 6. }
    destruct H as (Hn & Hc & Hx & Hl).
    repeat split; try assumption.
    apply solve_answer_committed; assumption.
Qed.

Lemma C5_assumptions_witness :
  solve Reference.search
    (mkSolver (SATSolver.new_vars 2 SATSolver.init) [])
    (PyList [PyLong 1; PyLong (-3)])
  = (NULL, Some PyExc_ValueError,
     mkSolver (SATSolver.new_vars 2 SATSolver.init) []).
Proof.
  apply (proj1 (C5_assumptions Reference.search
                  (mkSolver (SATSolver.new_vars 2 SATSolver.init) [])
                  NULL [PyLong 1; PyLong (-3)] (PyLong (-3)) 2 true None)).
  - repeat constructor.
  - simpl. auto.
  - reflexivity.
  - simpl. lia.
Defined.

(** ** The empty clause *)

Lemma add_clause_empty self :
  add_clause self (PyList [])
  = (Py_None, None,
     mkSolver (SATSolver.add_clause [] (cmsat self)) []).
Proof. apply (add_clause_valid self []). constructor. Qed.

(** A sound engine that decides answers unsatisfiable when the empty clause
    is committed. *)
Lemma solve_refutes_empty_clause search e :
  SATSolver.sound search -> SATSolver.decides search ->
  In [] (SATSolver.clauses e) ->
  fst (SATSolver.solve search [] e) = l_False.
Proof.
  intros Hsound Hdec Hin. unfold SATSolver.solve.
  destruct (search (SATSolver.nVars e) (SATSolver.clauses e)
              (SATSolver.xor_clauses e) []) as [res m] eqn:Hs.
  destruct res; simpl.
  - apply Hsound in Hs as (_ & Hcls & _).
    rewrite forallb_forall in Hcls. specialize (Hcls [] Hin). discriminate.
  - reflexivity.
  - specialize (Hdec (SATSolver.nVars e) (SATSolver.clauses e)
                  (SATSolver.xor_clauses e) []).
    rewrite Hs in Hdec. contradiction.
Qed.

(** C4: [add_clause([])] commits the empty clause, without touching the
    variable space; after any further run of method calls on the
    instance, [solve()] without assumptions returns [(False, None)], for
    every engine that is sound and decides. *)
Theorem C4_empty_clause (search : SATSolver.search_t)
    (learnt : SATSolver.learnt_t) (self : Solver) (ms : list method) :
  SATSolver.sound search ->
  SATSolver.decides search ->
  exists self1 self2 self3,
    add_clause self (PyList []) = (Py_None, None, self1) /\
    SATSolver.clauses (cmsat self1) = SATSolver.clauses (cmsat self) ++ [[]] /\
    SATSolver.calls (cmsat self1)
    = SATSolver.calls (cmsat self) ++ [SATSolver.call_add_clause []] /\
    SATSolver.nVars (cmsat self1) = SATSolver.nVars (cmsat self) /\
    call_methods search learnt ms self1 = Some self2 /\
    solve search self2 NULL = (PyTuple [Py_False; Py_None], None, self3).
Proof.
  intros Hsound Hdec.
  destruct (call_methods_total search learnt ms
              (mkSolver (SATSolver.add_clause [] (cmsat self)) []))
    as [self2 Hrun].
  exists (mkSolver (SATSolver.add_clause [] (cmsat self)) []), self2.
  pose proof (extends_call_methods _ _ _ _ _ Hrun) as (_ & [more Hcls] & _).
  simpl in Hcls.
  assert (Hin : In [] (SATSolver.clauses (cmsat self2))).
  { rewrite Hcls. apply in_or_app. left. apply in_or_app. right. left. reflexivity. }
  pose proof (solve_refutes_empty_clause search (cmsat self2) Hsound Hdec Hin)
    as Hres.
  unfold solve.
  destruct (SATSolver.solve search [] (cmsat self2)) as [res e]. simpl in Hres.
  subst res. eexists. split; [apply add_clause_empty |].
  repeat split; try reflexivity. exact Hrun.
Qed.

(** The reference engine meets the contract. *)
Lemma reference_sound : SATSolver.sound Reference.search.
Proof.
  intros n cls xs assumptions m. unfold Reference.search.
  destruct (find _ _) as [m' |] eqn:Hf; [| discriminate].
  intros [= <-]. apply find_some in Hf as [Hin Hsat].
  apply andb_prop in Hsat as [Hsat Has]. apply andb_prop in Hsat as [Hcls _].
  split; [| split; assumption].
  clear - Hin. revert m' Hin.
  induction (Z.to_nat n) as [| k IH]; intros m Hin; simpl in Hin.
  - destruct Hin as [<- | []]. reflexivity.
  - apply in_flat_map in Hin as (m0 & Hm0 & Hin).
    destruct Hin as [<- | [<- | []]]; simpl; f_equal; apply IH, Hm0.
Qed.

Lemma reference_decides : SATSolver.decides Reference.search.
Proof.
  intros n cls xs assumptions. unfold Reference.search.
  destruct (find _ _); discriminate.
Qed.

Lemma C4_empty_clause_witness :
  exists self1 self2 self3,
    add_clause (mkSolver SATSolver.init []) (PyList [])
    = (Py_None, None, self1) /\
    SATSolver.clauses (cmsat self1) = SATSolver.clauses SATSolver.init ++ [[]] /\
    SATSolver.calls (cmsat self1)
    = SATSolver.calls SATSolver.init ++ [SATSolver.call_add_clause []] /\
    SATSolver.nVars (cmsat self1) = SATSolver.nVars SATSolver.init /\
    call_methods Reference.search Reference.learnt
      [method_add_clause (PyList [PyLong 1; PyLong 2]); method_is_satisfiable]
      self1 = Some self2 /\
    solve Reference.search self2 NULL
    = (PyTuple [Py_False; Py_None], None, self3).
Proof.
  apply (C4_empty_clause Reference.search Reference.learnt
           (mkSolver SATSolver.init [])
           [method_add_clause (PyList [PyLong 1; PyLong 2]);
            method_is_satisfiable]).
  - exact reference_sound.
  - exact reference_decides.
Defined.

(** ** Solution rendering *)

Lemma raw_fold_items model n k : (k <= n)%nat ->
  fold_left
    (fun tuple var =>
       if negb (lbool_eqb (model_at model var) l_Undef) then
         let sign := if lbool_eqb (model_at model var) l_True then 1 else -1 in
         let py_value := PyLong ((Z.of_nat var + 1) * sign) in
         <[var := py_value]> tuple
       else tuple)
    (seq 0 k) (replicate n NULL)
  = map (fun var => raw_value var (model_at model var)) (seq 0 k)
    ++ replicate (n - k) NULL.
Proof.
  induction k as [| k IH]; intros Hk.
  - simpl. rewrite Nat.sub_0_r. reflexivity.
  - rewrite seq_S, fold_left_app, map_app. rewrite IH by lia.
    cbn [fold_left map Nat.add]. rewrite <- app_assoc. cbn [app].
    replace (n - k)%nat with (S (n - S k)) by lia. cbn [replicate].
    assert (Hlen : length (map (fun var => raw_value var (model_at model var))
                             (seq 0 k)) = k).
    { rewrite length_map, length_seq. reflexivity. }
    destruct (model_at model k); cbn [lbool_eqb negb raw_value];
      [| | reflexivity];
      rewrite insert_app_r_alt by lia; rewrite Hlen, Nat.sub_diag;
      cbn [insert list_insert]; do 3 f_equal; lia.
Qed.

Lemma get_raw_solution_items e :
  get_raw_solution e
  = PyTuple (map (fun var => raw_value var (model_at (SATSolver.get_model e) var))
               (seq 0 (Z.to_nat (SATSolver.nVars e)))).
Proof.
  unfold get_raw_solution. rewrite raw_fold_items by lia.
  rewrite Nat.sub_diag. cbn [replicate]. rewrite app_nil_r. reflexivity.
Qed.

Lemma dense_fold_items model n k : (k <= n)%nat ->
  fold_left
    (fun tuple i =>
       let v := model_at model i in
       let py_value :=
         match v with
         | l_True => Py_True
         | l_False => Py_False
         | l_Undef => Py_None
         end in
       <[(i + 1)%nat := py_value]> tuple)
    (seq 0 k) (<[0%nat := Py_None]> (replicate (n + 1) NULL))
  = Py_None :: map (fun i => dense_value (model_at model i)) (seq 0 k)
    ++ replicate (n - k) NULL.
Proof.
  induction k as [| k IH]; intros Hk.
  - simpl. rewrite Nat.sub_0_r. rewrite Nat.add_1_r. reflexivity.
  - rewrite seq_S, fold_left_app, map_app. rewrite IH by lia.
    cbn [fold_left map Nat.add]. rewrite <- app_assoc. cbn [app].
    replace (n - k)%nat with (S (n - S k)) by lia. cbn [replicate].
    assert (Hlen : length (map (fun i => dense_value (model_at model i))
                             (seq 0 k)) = k).
    { rewrite length_map, length_seq. reflexivity. }
    rewrite Nat.add_1_r.
    match goal with
    | |- <[S k := ?x]> (Py_None :: ?l) = _ =>
      change (<[S k := x]> (Py_None :: l)) with (Py_None :: <[k := x]> l)
    end.
    rewrite insert_app_r_alt by lia. rewrite Hlen, Nat.sub_diag.
    reflexivity.
Qed.

Lemma get_solution_items e :
  get_solution e
  = PyTuple (Py_None ::
             map (fun i => dense_value (model_at (SATSolver.get_model e) i))
               (seq 0 (Z.to_nat (SATSolver.nVars e)))).
Proof.
  unfold get_solution. rewrite dense_fold_items by lia.
  rewrite Nat.sub_diag. cbn [replicate]. rewrite app_nil_r. reflexivity.
Qed.

(** ** The ban clause *)

Lemma ban_solution_acc model var_lits : forall ban,
  fold_left
    (fun ban l =>
       if negb (sign l)
       then ban ++ [mkLit (var l)
                      (lbool_eqb (SATSolver.value model (var l)) l_True)]
       else ban)
    var_lits ban
  = ban ++ map (fun l => mkLit (var l)
                           (lbool_eqb (SATSolver.value model (var l)) l_True))
             (List.filter (fun l => negb (sign l)) var_lits).
Proof.
  induction var_lits as [| l var_lits IH]; intros ban; simpl.
  - rewrite app_nil_r. reflexivity.
  - rewrite IH. destruct (sign l); simpl; [reflexivity |].
    rewrite <- app_assoc. reflexivity.
Qed.

(** The ban clause in terms of the selection as the caller gave it: one
    literal per positive entry, in order, and nothing for a negative one. *)
Lemma ban_solution_selection model vs : Forall valid_lit vs ->
  ban_solution (map decode vs) model
  = map (fun v => falsifying_lit v (SATSolver.value model (v - 1)))
      (List.filter (fun v => 0 <? v) vs).
Proof.
  intros Hv. unfold ban_solution. rewrite ban_solution_acc. cbn [app].
  induction Hv as [| v vs [Hnz _] _ IH]; [reflexivity |].
  cbn [map List.filter decode sign].
  destruct (Z.ltb_spec v 0), (Z.ltb_spec 0 v); try lia; cbn [negb map].
  - exact IH.
  - rewrite IH. unfold falsifying_lit. rewrite decode_var.
    replace (Z.abs v - 1) with (v - 1) by lia. reflexivity.
Qed.

(** A ban literal is false in the model it was built from whenever the
    variable has a definite value there. *)
Lemma falsifying_lit_false model v :
  SATSolver.value model (v - 1) <> l_Undef ->
  SATSolver.lit_true model
    (falsifying_lit v (SATSolver.value model (v - 1))) = false.
Proof.
  unfold SATSolver.lit_true, falsifying_lit. cbn [var sign].
  destruct (SATSolver.value model (v - 1)); [reflexivity | reflexivity |].
  intros H. contradiction.
Qed.

(** A model that makes the ban clause of another model true differs from
    it on a positively selected variable. *)
Lemma ban_solution_blocks vs m m' : Forall valid_lit vs ->
  SATSolver.clause_true m' (ban_solution (map decode vs) m) = true ->
  differs_on vs m m'.
Proof.
  intros Hv. rewrite (ban_solution_selection m vs Hv).
  unfold SATSolver.clause_true. rewrite existsb_exists.
  intros (l & Hl & Htrue).
  apply in_map_iff in Hl as (v & <- & Hin).
  apply filter_In in Hin as [Hin Hpos]. apply Z.ltb_lt in Hpos.
  exists v. split; [exact Hin |]. split; [exact Hpos |].
  revert Htrue. unfold SATSolver.lit_true, falsifying_lit. cbn [var sign].
  destruct (SATSolver.value m (v - 1)), (SATSolver.value m' (v - 1));
    simpl; intros H; congruence.
Qed.

(** The list the loop returns starts with the solutions gathered before. *)
Lemma msolve_loop_keeps_solutions search fuel :
  forall raw var_lits n cur res sols self r err self',
  msolve_loop search fuel raw var_lits n cur res sols self = Some (r, err, self') ->
  forall sols', r = PyList sols' -> exists more, sols' = sols ++ more.
Proof.
  induction fuel as [| fuel IH]; intros raw var_lits n cur res sols self r err self';
    cbn [msolve_loop].
  - destruct ((cur <? n) && lbool_eqb res l_True); [discriminate |].
    intros [= <- _ _] sols' [= <-]. exists []. rewrite app_nil_r. reflexivity.
  - destruct ((cur <? n) && lbool_eqb res l_True).
    2:{ intros [= <- _ _] sols' [= <-]. exists []. rewrite app_nil_r.
        reflexivity. }
    destruct (SATSolver.solve search [] (cmsat self)) as [res' e'].
    destruct res'.
    + intros Hloop sols' Hr.
      destruct (IH _ _ _ _ _ _ _ _ _ _ Hloop sols' Hr) as [more ->].
      rewrite <- app_assoc. eexists. reflexivity.
    + intros [= <- _ _] sols' [= <-]. exists []. rewrite app_nil_r.
      reflexivity.
    + intros [= <- _ _] sols' [=].
Qed.

(** C1: [msolve_selected] runs its loop on the decoded selection.  Take an
    iteration of that loop, in any state, where the engine answers
    satisfiable and the incremented counter is still below
    [max_nr_of_solutions].  The loop then completes, and in the engine it
    leaves the call that follows this iteration's solve is [add_clause] on
    [ban], which is committed right after the clauses that were there;
    when a list is returned it holds the solutions gathered before,
    then the rendering of this model.  [ban] has, for every positive
    entry [v] of the selection in order, the literal on variable [v] that
    is false under the value the model gives it: [-v] when the value is
    true, [+v] when it is false.  Every literal of [ban] comes from a
    positive entry, so negative entries contribute nothing. *)
Theorem C1_blocking_clause (search : SATSolver.search_t) (self0 self : Solver)
    (max_nr_of_solutions current_nr_of_solutions : Z) (vs : list Z)
    (raw : bool) (fuel : nat) (solutions : list PyObject) (e : SATSolver.t) :
  Forall valid_lit vs ->
  SATSolver.solve search [] (cmsat self) = (l_True, e) ->
  current_nr_of_solutions + 1 < max_nr_of_solutions ->
  max_nr_of_solutions - current_nr_of_solutions <= Z.of_nat (S fuel) ->
  let model := SATSolver.get_model e in
  let ban :=
    map (fun v => falsifying_lit v (SATSolver.value model (v - 1)))
      (List.filter (fun v => 0 <? v) vs) in
  msolve_selected search self0 max_nr_of_solutions (PyList (map PyLong vs)) raw
  = msolve_loop search (Z.to_nat max_nr_of_solutions) raw (map decode vs)
      max_nr_of_solutions 0 l_True []
      (set_cmsat (ensure_vars (map decode vs) (cmsat self0)) self0) /\
  (exists r err self' later_calls later_clauses,
     msolve_loop search (S fuel) raw (map decode vs) max_nr_of_solutions
       current_nr_of_solutions l_True solutions self
     = Some (r, err, self') /\
     SATSolver.calls (cmsat self')
     = SATSolver.calls (cmsat self)
       ++ SATSolver.call_solve [] :: SATSolver.call_add_clause ban
          :: later_calls /\
     SATSolver.clauses (cmsat self')
     = SATSolver.clauses (cmsat self) ++ ban :: later_clauses /\
     (forall sols, r = PyList sols ->
        exists more,
          sols = solutions ++ render_solution raw e :: more)) /\
  msolve_loop search (S fuel) raw (map decode vs) max_nr_of_solutions
    current_nr_of_solutions l_True solutions self
  = msolve_loop search fuel raw (map decode vs) max_nr_of_solutions
      (current_nr_of_solutions + 1) l_True
      (solutions ++ [render_solution raw e])
      (set_cmsat (SATSolver.add_clause ban e) self) /\
  (forall v, In v vs -> 0 < v ->
     SATSolver.value model (v - 1) <> l_Undef ->
     let l := falsifying_lit v (SATSolver.value model (v - 1)) in
     In l ban /\
     SATSolver.lit_true model l = false /\
     lit_to_long l
     = if lbool_eqb (SATSolver.value model (v - 1)) l_True then - v else v) /\
  (forall l, In l ban -> exists v, In v vs /\ 0 < v /\ var l = v - 1).
Proof.
  intros Hv Hsolve Hmore Hfuel model ban.
  assert (Hstep :
            msolve_loop search (S fuel) raw (map decode vs) max_nr_of_solutions
              current_nr_of_solutions l_True solutions self
            = msolve_loop search fuel raw (map decode vs) max_nr_of_solutions
                (current_nr_of_solutions + 1) l_True
                (solutions ++ [render_solution raw e])
                (set_cmsat (SATSolver.add_clause ban e) self)).
  { cbn [msolve_loop].
    destruct (Z.ltb_spec current_nr_of_solutions max_nr_of_solutions); [| lia].
    cbn [andb lbool_eqb]. rewrite Hsolve.
    destruct (Z.ltb_spec (current_nr_of_solutions + 1) max_nr_of_solutions);
      [| lia].
    rewrite (ban_solution_selection _ vs Hv). reflexivity. }
  split; [| split; [| split; [exact Hstep | split]]].
  - unfold msolve_selected. rewrite (parse_clause_valid self0 vs Hv).
    reflexivity.
  - destruct (msolve_loop_total search fuel raw (map decode vs)
                max_nr_of_solutions (current_nr_of_solutions + 1) l_True
                (solutions ++ [render_solution raw e])
                (set_cmsat (SATSolver.add_clause ban e) self))
      as [[[r err] self'] Hrest]; [lia |].
    pose proof (solve_nVars _ _ _ _ _ Hsolve) as (_ & Hcls & _ & Hcalls).
    pose proof (extends_msolve_loop _ _ _ _ _ _ _ _ _ _ _ _ Hrest)
      as (_ & [later_clauses Hc] & [later_calls Hl]).
    cbn [cmsat set_cmsat SATSolver.add_clause SATSolver.log SATSolver.clauses
           SATSolver.calls] in Hc, Hl.
    exists r, err, self', later_calls, later_clauses.
    split; [rewrite Hstep; exact Hrest |]. split; [| split].
    + rewrite Hl, Hcalls, <- !app_assoc. reflexivity.
    + rewrite Hc, Hcls, <- app_assoc. reflexivity.
    + intros sols Hr.
      destruct (msolve_loop_keeps_solutions _ _ _ _ _ _ _ _ _ _ _ _ Hrest
                  sols Hr) as [more ->].
      exists more. rewrite <- app_assoc. reflexivity.
  - intros v Hin Hpos Hdef l. split; [| split].
    + apply in_map_iff. exists v. split; [reflexivity |].
      apply filter_In. split; [exact Hin | apply Z.ltb_lt, Hpos].
    + apply falsifying_lit_false, Hdef.
    + unfold l, falsifying_lit, lit_to_long. cbn [var sign].
      destruct (lbool_eqb (SATSolver.value model (v - 1)) l_True); lia.
  - intros l Hl. apply in_map_iff in Hl as (v & <- & Hin).
    apply filter_In in Hin as [Hin Hpos]. apply Z.ltb_lt in Hpos.
    exists v. auto.
Qed.

Lemma C1_blocking_clause_witness :
  exists r err self' later_calls later_clauses,
    msolve_loop Reference.search 3 true (map decode [1; -2]) 3 0 l_True []
      (mkSolver (SATSolver.add_clause [mkLit 0 false; mkLit 1 false]
                   (SATSolver.new_vars 2 SATSolver.init)) [])
    = Some (r, err, self') /\
    SATSolver.calls (cmsat self')
    = [SATSolver.call_new_vars 2;
       SATSolver.call_add_clause [mkLit 0 false; mkLit 1 false]]
      ++ SATSolver.call_solve [] :: SATSolver.call_add_clause [mkLit 0 true]
         :: later_calls /\
    SATSolver.clauses (cmsat self')
    = [[mkLit 0 false; mkLit 1 false]] ++ [mkLit 0 true] :: later_clauses /\
    (forall sols, r = PyList sols ->
       exists more,
         sols = [] ++ PyTuple [PyLong 1; PyLong (-2)] :: more).
Proof.
  apply (proj1 (proj2 (C1_blocking_clause Reference.search
                         (mkSolver SATSolver.init [])
                         (mkSolver
                            (SATSolver.add_clause [mkLit 0 false; mkLit 1 false]
                               (SATSolver.new_vars 2 SATSolver.init)) [])
                         3 0 [1; -2] true 2 []
                         (snd (SATSolver.solve Reference.search []
                                 (SATSolver.add_clause
                                    [mkLit 0 false; mkLit 1 false]
                                    (SATSolver.new_vars 2 SATSolver.init))))
                         ltac:(valid_lits) ltac:(reflexivity) ltac:(lia)
                         ltac:(simpl; lia)))).
Defined.

(** ** Enumeration *)

Lemma render_solution_model raw e e' :
  SATSolver.nVars e' = SATSolver.nVars e ->
  SATSolver.get_model e' = SATSolver.get_model e ->
  render_solution raw e' = render_solution raw e.
Proof.
  intros Hn Hm. unfold render_solution.
  rewrite !get_solution_items, !get_raw_solution_items, Hn, Hm. reflexivity.
Qed.

Lemma nth_error_map_seq {A} (f : nat -> A) n i : (i < n)%nat ->
  nth_error (map f (seq 0 n)) i = Some (f i).
Proof.
  intros Hi. rewrite nth_error_map.
  rewrite (nth_error_nth' (seq 0 n) 0%nat) by (rewrite length_seq; exact Hi).
  rewrite seq_nth by exact Hi. reflexivity.
Qed.

(** The slot of a selected variable in a rendered solution shows the value
    the model gives it. *)
Lemma solution_slot_render raw e v :
  0 < v <= SATSolver.nVars e ->
  solution_slot raw (render_solution raw e) v
  = Some (if raw
          then raw_value (Z.to_nat (v - 1))
                 (SATSolver.value (SATSolver.get_model e) (v - 1))
          else dense_value (SATSolver.value (SATSolver.get_model e) (v - 1))).
Proof.
  intros Hv. unfold render_solution, solution_slot, SATSolver.value.
  destruct raw; cbn [negb].
  - rewrite get_raw_solution_items.
    apply (nth_error_map_seq (fun var => raw_value var (model_at _ var))). lia.
  - rewrite get_solution_items.
    replace (Z.to_nat v) with (S (Z.to_nat (v - 1))) by lia.
    cbn [nth_error]. apply (nth_error_map_seq (fun i => dense_value _)). lia.
Qed.

Lemma rendered_values_differ (raw : bool) (i : nat) (a b : lbool) : a <> b ->
  (if raw then raw_value i a else dense_value a)
  <> (if raw then raw_value i b else dense_value b).
Proof.
  intros Hab. destruct raw, a, b; simpl; try congruence;
    intros [= H]; lia.
Qed.

Lemma ForallOrdPairs_snoc {A} (R : A -> A -> Prop) l x :
  ForallOrdPairs R l -> (forall y, In y l -> R y x) ->
  ForallOrdPairs R (l ++ [x]).
Proof.
  induction 1 as [| y l Hy _ IH]; intros Hx; simpl.
  - constructor; constructor.
  - constructor.
    + apply Forall_app. split.
      * exact Hy.
      * constructor; [apply Hx; left; reflexivity | constructor].
    + apply IH. intros z Hz. apply Hx. right. exact Hz.
Qed.

Lemma ForallOrdPairs_nth_error {A} (R : A -> A -> Prop) l :
  ForallOrdPairs R l ->
  forall i j a b, (i < j)%nat ->
  nth_error l i = Some a -> nth_error l j = Some b -> R a b.
Proof.
  induction 1 as [| y l Hy _ IH]; intros i j a b Hij Ha Hb.
  - destruct i; discriminate.
  - destruct j as [| j]; [lia |]. cbn [nth_error] in Hb.
    destruct i as [| i]; cbn [nth_error] in Ha.
    + injection Ha as <-. apply nth_error_In in Hb.
      rewrite List.Forall_forall in Hy. apply Hy, Hb.
    + eapply IH; [| exact Ha | exact Hb]. lia.
Qed.

Lemma solve_sat_sound search assumptions e0 e :
  SATSolver.sound search ->
  SATSolver.solve search assumptions e0 = (l_True, e) ->
  forallb (SATSolver.clause_true (SATSolver.get_model e)) (SATSolver.clauses e0)
  = true.
Proof.
  intros Hsound. unfold SATSolver.solve.
  destruct (search _ _ _ _) as [res m] eqn:Hs. intros [= -> <-]. simpl.
  apply Hsound in Hs. apply Hs.
Qed.

Section Enumeration.

Variable search : SATSolver.search_t.
Hypothesis search_sound : SATSolver.sound search.
Variable raw : bool.
Variable vs : list Z.
Hypothesis vs_valid : Forall valid_lit vs.
Variable max_nr_of_solutions : Z.

(** The engines at the satisfiable answers of the loop so far: the
    solutions are their renderings, they have the loop's variable count,
    they differ pairwise on a selected variable, and while iterations
    remain the ban clause of each is committed. *)
Lemma msolve_loop_distinct fuel :
  forall cur res sols self es r err self',
  sols = map (render_solution raw) es ->
  Forall (fun e => SATSolver.nVars e = SATSolver.nVars (cmsat self)) es ->
  (cur < max_nr_of_solutions ->
   Forall (fun e => In (ban_solution (map decode vs) (SATSolver.get_model e))
                      (SATSolver.clauses (cmsat self))) es) ->
  ForallOrdPairs
    (fun e1 e2 =>
       differs_on vs (SATSolver.get_model e1) (SATSolver.get_model e2)) es ->
  msolve_loop search fuel raw (map decode vs) max_nr_of_solutions cur res sols
    self = Some (r, err, self') ->
  forall sols', r = PyList sols' ->
  exists es',
    sols' = map (render_solution raw) es' /\
    Forall (fun e => SATSolver.nVars e = SATSolver.nVars (cmsat self)) es' /\
    ForallOrdPairs
      (fun e1 e2 =>
         differs_on vs (SATSolver.get_model e1) (SATSolver.get_model e2)) es' /\
    Z.of_nat (length es')
    <= Z.of_nat (length es) + Z.max 0 (max_nr_of_solutions - cur).
Proof.
  induction fuel as [| fuel IH];
    intros cur res sols self es r err self' Hsols Hn Hban Hpairs; cbn [msolve_loop].
  - destruct ((cur <? max_nr_of_solutions) && lbool_eqb res l_True);
      [discriminate |].
    intros [= <- _ _] sols' [= <-]. exists es. repeat split; try assumption. lia.
  - destruct (Z.ltb_spec cur max_nr_of_solutions) as [Hlt | Hge]; cbn [andb].
    2:{ intros [= <- _ _] sols' [= <-]. exists es.
        repeat split; try assumption. lia. }
    destruct (lbool_eqb res l_True).
    2:{ intros [= <- _ _] sols' [= <-]. exists es.
        repeat split; try assumption. lia. }
    destruct (SATSolver.solve search [] (cmsat self)) as [res' e'] eqn:Hsolve.
    pose proof (solve_nVars _ _ _ _ _ Hsolve) as (Hn' & Hc' & _ & _).
    destruct res'.
    + pose proof (solve_sat_sound _ _ _ _ search_sound Hsolve) as Hsat.
      rewrite forallb_forall in Hsat.
      intros Hloop sols' ->.
      eapply (IH _ _ _ _ (es ++ [e'])) in Hloop; [| | | | | reflexivity].
      * destruct Hloop as (es' & Hs' & Hn'' & Hp' & Hlen).
        exists es'. split; [exact Hs' |]. split.
        { revert Hn''. apply List.Forall_impl. intros e0 He0. rewrite He0.
          cbn [cmsat set_cmsat].
          destruct (cur + 1 <? max_nr_of_solutions); simpl; exact Hn'. }
        split; [exact Hp' |].
        rewrite length_app in Hlen. simpl in Hlen. lia.
      * rewrite Hsols, map_app. reflexivity.
      * assert (Hnn : SATSolver.nVars
                        (cmsat (set_cmsat
                                  (if cur + 1 <? max_nr_of_solutions
                                   then SATSolver.add_clause
                                          (ban_solution (map decode vs)
                                             (SATSolver.get_model e')) e'
                                   else e') self))
                      = SATSolver.nVars (cmsat self)).
        { cbn [cmsat set_cmsat].
          destruct (cur + 1 <? max_nr_of_solutions); simpl; exact Hn'. }
        rewrite Hnn. apply Forall_app. split; [exact Hn |].
        constructor; [exact Hn' | constructor].
      * intros Hmore. cbn [cmsat set_cmsat].
        destruct (Z.ltb_spec (cur + 1) max_nr_of_solutions); [| lia].
        cbn [SATSolver.add_clause SATSolver.log SATSolver.clauses].
        rewrite Hc'. apply Forall_app. split.
        { specialize (Hban Hlt). revert Hban. apply List.Forall_impl.
          intros e0 He0. apply in_or_app. left. exact He0. }
        { constructor; [| constructor]. apply in_or_app. right. left.
          reflexivity. }
      * apply ForallOrdPairs_snoc; [exact Hpairs |].
        intros e0 He0. specialize (Hban Hlt).
        rewrite List.Forall_forall in Hban.
        apply (ban_solution_blocks vs _ _ vs_valid).
        apply Hsat, Hban, He0.
    + intros [= <- _ _] sols' [= <-]. exists es.
      repeat split; try assumption. lia.
    + intros [= <- _ _] sols' [=].
Qed.

End Enumeration.

Lemma ensure_vars_calls lits e c :
  In c (SATSolver.calls (ensure_vars lits e)) ->
  In c (SATSolver.calls e) \/ exists n, c = SATSolver.call_new_vars n.
Proof.
  unfold ensure_vars. destruct (negb (empty lits) && _); simpl; [| auto].
  intros H. apply in_app_or in H as [H | [<- | []]]; eauto.
Qed.

(** C9: on a selection of valid literals [msolve_selected] completes.
    When it returns a list, the list has at most [max_nr_of_solutions]
    entries, and any two of them hold different objects in the slot of
    some variable the selection names by a positive literal, for every
    sound engine.  With [max_nr_of_solutions = 0] it returns the empty
    list and the engine's solve is not called. *)
Theorem C9_enumeration (search : SATSolver.search_t) (self : Solver)
    (max_nr_of_solutions : Z) (vs : list Z) (raw : bool) :
  SATSolver.sound search ->
  Forall valid_lit vs ->
  exists r err self',
    msolve_selected search self max_nr_of_solutions (PyList (map PyLong vs)) raw
    = Some (r, err, self') /\
    (forall sols, r = PyList sols ->
       Z.of_nat (length sols) <= Z.max 0 max_nr_of_solutions /\
       forall i j a b, (i < j)%nat ->
         nth_error sols i = Some a -> nth_error sols j = Some b ->
         exists v x y,
           In v vs /\ 0 < v /\
           solution_slot raw a v = Some x /\
           solution_slot raw b v = Some y /\
           x <> y) /\
    (max_nr_of_solutions = 0 ->
     r = PyList [] /\ err = None /\
     forall assumptions,
       In (SATSolver.call_solve assumptions) (SATSolver.calls (cmsat self')) ->
       In (SATSolver.call_solve assumptions) (SATSolver.calls (cmsat self))).
Proof.
  intros Hsound Hv.
  destruct (msolve_selected_total search self max_nr_of_solutions
              (PyList (map PyLong vs)) raw) as [[[r err] self'] Hm].
  exists r, err, self'. split; [exact Hm |].
  unfold msolve_selected in Hm. rewrite (parse_clause_valid self vs Hv) in Hm.
  cbn [negb] in Hm. split.
  - intros sols ->.
    eapply (msolve_loop_distinct search Hsound raw vs Hv _ _ _ _ _ _ [])
      in Hm; [| reflexivity | constructor | intros _; constructor
              | constructor | reflexivity].
    destruct Hm as (es & -> & Hn & Hpairs & Hlen).
    split; [rewrite length_map; simpl in Hlen; lia |].
    intros i j a b Hij Ha Hb.
    rewrite nth_error_map in Ha, Hb.
    destruct (nth_error es i) as [e1 |] eqn:H1; [| discriminate].
    destruct (nth_error es j) as [e2 |] eqn:H2; [| discriminate].
    injection Ha as <-. injection Hb as <-.
    destruct (ForallOrdPairs_nth_error _ _ Hpairs i j e1 e2 Hij H1 H2)
      as (v & Hin & Hpos & Hdiff).
    rewrite List.Forall_forall in Hn.
    pose proof (Hn e1 (nth_error_In _ _ H1)) as Hn1.
    pose proof (Hn e2 (nth_error_In _ _ H2)) as Hn2.
    cbn [cmsat set_cmsat] in Hn1, Hn2.
    pose proof (ensure_vars_covers (map decode vs) (cmsat self) (decode v)
                  (in_map decode vs v Hin)) as Hcov.
    rewrite decode_var in Hcov.
    exists v. do 2 eexists. split; [exact Hin |]. split; [exact Hpos |].
    split; [apply solution_slot_render; lia |].
    split; [apply solution_slot_render; lia |].
    apply rendered_values_differ, Hdiff.
  - intros ->. cbn [Z.to_nat msolve_loop Z.ltb Z.compare andb] in Hm.
    injection Hm as <- <- <-. split; [reflexivity |]. split; [reflexivity |].
    intros assumptions Hin. cbn [cmsat set_cmsat] in Hin.
    apply ensure_vars_calls in Hin as [Hin | [n Hn]]; [exact Hin | discriminate].
Qed.

Lemma C9_enumeration_witness :
  exists r err self',
    msolve_selected Reference.search
      (mkSolver (SATSolver.add_clause [mkLit 0 false; mkLit 1 false]
                   (SATSolver.new_vars 2 SATSolver.init)) [])
      2 (PyList (map PyLong [1; 2])) true
    = Some (r, err, self') /\
    (forall sols, r = PyList sols ->
       Z.of_nat (length sols) <= Z.max 0 2 /\
       forall i j a b, (i < j)%nat ->
         nth_error sols i = Some a -> nth_error sols j = Some b ->
         exists v x y,
           In v [1; 2] /\ 0 < v /\
           solution_slot true a v = Some x /\
           solution_slot true b v = Some y /\
           x <> y) /\
    (2 = 0 ->
     r = PyList [] /\ err = None /\
     forall assumptions,
       In (SATSolver.call_solve assumptions) (SATSolver.calls (cmsat self')) ->
       In (SATSolver.call_solve assumptions)
         (SATSolver.calls
            (cmsat (mkSolver (SATSolver.add_clause [mkLit 0 false; mkLit 1 false]
                                (SATSolver.new_vars 2 SATSolver.init)) [])))).
Proof.
  apply (C9_enumeration Reference.search
           (mkSolver (SATSolver.add_clause [mkLit 0 false; mkLit 1 false]
                        (SATSolver.new_vars 2 SATSolver.init)) [])
           2 [1; 2] true).
  - exact reference_sound.
  - valid_lits.
Defined.

(** ** Dense and raw renderings *)

(** On assigned variables the two renderings agree: slot [i] of the dense
    tuple is [True] exactly when the raw tuple holds [+i], and [False]
    exactly when it holds [-i]. *)
Lemma dense_raw_agree e i :
  1 <= i <= SATSolver.nVars e ->
  (solution_slot false (get_solution e) i = Some Py_True <->
   In (PyLong i) (tuple_items (get_raw_solution e))) /\
  (solution_slot false (get_solution e) i = Some Py_False <->
   In (PyLong (- i)) (tuple_items (get_raw_solution e))).
Proof.
  intros Hi.
  pose proof (solution_slot_render false e i ltac:(lia)) as Hd.
  unfold render_solution in Hd. cbn [negb] in Hd. rewrite Hd. clear Hd.
  rewrite get_raw_solution_items. cbn [tuple_items].
  unfold SATSolver.value.
  assert (Hraw : forall z, In (PyLong z)
                   (map (fun var => raw_value var
                                      (model_at (SATSolver.get_model e) var))
                      (seq 0 (Z.to_nat (SATSolver.nVars e)))) <->
                 exists var, (var < Z.to_nat (SATSolver.nVars e))%nat /\
                   raw_value var (model_at (SATSolver.get_model e) var)
                   = PyLong z).
  { intros z. rewrite in_map_iff. split.
    - intros (var & Hv & Hin). apply in_seq in Hin. exists var. split; [lia | exact Hv].
    - intros (var & Hlt & Hv). exists var. split; [exact Hv |].
      apply in_seq. lia. }
  rewrite !Hraw. clear Hraw. fold (model_at (SATSolver.get_model e) (Z.to_nat (i - 1))).
  split; split.
  - intros Hv. exists (Z.to_nat (i - 1)). split; [lia |].
    destruct (model_at _ _); try discriminate. simpl. f_equal. lia.
  - intros (var & Hlt & Hv).
    destruct (model_at (SATSolver.get_model e) var) eqn:Hm; simpl in Hv;
      try discriminate; injection Hv as Hv; try lia.
    replace (Z.to_nat (i - 1)) with var by lia. rewrite Hm. reflexivity.
  - intros Hv. exists (Z.to_nat (i - 1)). split; [lia |].
    destruct (model_at _ _); try discriminate. simpl. f_equal. lia.
  - intros (var & Hlt & Hv).
    destruct (model_at (SATSolver.get_model e) var) eqn:Hm; simpl in Hv;
      try discriminate; injection Hv as Hv; try lia.
    replace (Z.to_nat (i - 1)) with var by lia. rewrite Hm. reflexivity.
Qed.

(** C2 at a failing input: with three variables of which the first is
    unassigned, the dense tuple marks it [None], and the raw tuple still
    has three slots, the first being the null pointer that [PyTuple_New]
    left there; a raw tuple always has [nVars()] slots, whatever is
    assigned. *)
Theorem C2_raw_solution_unassigned_slot :
  let e := SATSolver.mk 3 [] [] [l_Undef; l_True; l_False] [] [] in
  get_solution e = PyTuple [Py_None; Py_None; Py_True; Py_False] /\
  get_raw_solution e = PyTuple [NULL; PyLong 2; PyLong (-3)] /\
  get_raw_solution e <> PyTuple [PyLong 2; PyLong (-3)] /\
  forall e' : SATSolver.t,
    length (tuple_items (get_raw_solution e'))
    = Z.to_nat (SATSolver.nVars e').
Proof.
  intros e. split; [reflexivity |]. split; [reflexivity |].
  split; [discriminate |].
  intros e'. rewrite get_raw_solution_items. cbn [tuple_items].
  rewrite length_map, length_seq. reflexivity.
Qed.

(** ** The example of the [solve] docstring *)

Example solve_docstring_example :
  exists s,
    call_methods Reference.search Reference.learnt
      [method_add_clause (PyList [PyLong 1]);
       method_add_clause (PyList [PyLong (-2)]);
       method_add_clause (PyList [PyLong 3]);
       method_add_clause (PyList [PyLong (-1); PyLong 2; PyLong 3])]
      (mkSolver SATSolver.init []) = Some s /\
    fst (solve Reference.search s NULL)
    = (PyTuple [Py_True; PyTuple [Py_None; Py_True; Py_False; Py_True]], None) /\
    fst (solve Reference.search s (PyList [PyLong (-3)]))
    = (PyTuple [Py_False; Py_None], None) /\
    fst (solve Reference.search
           (snd (solve Reference.search s (PyList [PyLong (-3)]))) NULL)
    = (PyTuple [Py_True; PyTuple [Py_None; Py_True; Py_False; Py_True]], None).
Proof. eexists. repeat split; vm_compute; reflexivity. Qed.


(** * Further properties of the front end *)

(** ** XOR clauses *)

Lemma iter_new_var k : forall e,
  SATSolver.nVars (Nat.iter k SATSolver.new_var e)
  = SATSolver.nVars e + Z.of_nat k /\
  SATSolver.clauses (Nat.iter k SATSolver.new_var e) = SATSolver.clauses e /\
  SATSolver.xor_clauses (Nat.iter k SATSolver.new_var e)
  = SATSolver.xor_clauses e /\
  SATSolver.calls (Nat.iter k SATSolver.new_var e)
  = SATSolver.calls e ++ repeat SATSolver.call_new_var k.
Proof.
  induction k as [| k IH]; intros e.
  - simpl. rewrite app_nil_r. repeat split; lia.
  - destruct (IH e) as (Hn & Hc & Hx & Hl).
    change (Nat.iter (S k) SATSolver.new_var e)
      with (SATSolver.new_var (Nat.iter k SATSolver.new_var e)).
    set (x := Nat.iter k SATSolver.new_var e) in *.
    unfold SATSolver.new_var, SATSolver.log.
    cbn [SATSolver.nVars SATSolver.clauses SATSolver.xor_clauses SATSolver.calls].
    rewrite Hn, Hc, Hx, Hl. repeat split; try lia.
    rewrite <- app_assoc. f_equal. cbn [repeat]. symmetry. apply repeat_cons.
Qed.

Lemma xor_grow_var_spec e var :
  let e' := xor_grow_var e var in
  SATSolver.nVars e' = Z.max (SATSolver.nVars e) (var + 1) /\
  SATSolver.clauses e' = SATSolver.clauses e /\
  SATSolver.xor_clauses e' = SATSolver.xor_clauses e /\
  SATSolver.calls e'
  = SATSolver.calls e
    ++ repeat SATSolver.call_new_var
         (Z.to_nat (SATSolver.nVars e' - SATSolver.nVars e)).
Proof.
  unfold xor_grow_var.
  destruct (Z.geb_spec var (SATSolver.nVars e)) as [Hge | Hlt]; cbn zeta.
  - destruct (iter_new_var (Z.to_nat (var - SATSolver.nVars e + 1)) e)
      as (Hn & Hc & Hx & Hl).
    rewrite Hn, Hl. repeat split; try assumption; try lia.
    do 2 f_equal. lia.
  - replace (SATSolver.nVars e - SATSolver.nVars e) with 0 by lia.
    simpl. rewrite app_nil_r. repeat split. lia.
Qed.

Lemma xor_grow_spec vs : forall e,
  let e' := xor_grow vs e in
  SATSolver.nVars e <= SATSolver.nVars e' /\
  (forall v, In v vs -> v <= SATSolver.nVars e') /\
  (SATSolver.nVars e' = SATSolver.nVars e \/
   exists v, In v vs /\ SATSolver.nVars e' = v) /\
  SATSolver.clauses e' = SATSolver.clauses e /\
  SATSolver.xor_clauses e' = SATSolver.xor_clauses e /\
  SATSolver.calls e'
  = SATSolver.calls e
    ++ repeat SATSolver.call_new_var
         (Z.to_nat (SATSolver.nVars e' - SATSolver.nVars e)).
Proof.
  induction vs as [| v vs IH]; intros e; cbn zeta.
  - simpl. rewrite Z.sub_diag. simpl. rewrite app_nil_r.
    repeat split; try lia; intros v [].
  - unfold xor_grow. cbn [fold_left]. fold (xor_grow vs (xor_grow_var e (v - 1))).
    pose proof (xor_grow_var_spec e (v - 1)) as (Hn1 & Hc1 & Hx1 & Hl1).
    pose proof (IH (xor_grow_var e (v - 1))) as (Hn & Hin & Hat & Hc & Hx & Hl).
    cbn zeta in *.
    set (e1 := xor_grow_var e (v - 1)) in *.
    set (e' := xor_grow vs e1) in *.
    split; [lia |]. split; [| split; [| split; [| split]]].
    + intros w [<- | Hw]; [lia | apply Hin, Hw].
    + destruct Hat as [Hat | (w & Hw & Hat)].
      * destruct (Z.max_spec (SATSolver.nVars e) (v - 1 + 1)) as [[_ Hm] | [_ Hm]].
        { right. exists v. split; [left; reflexivity | lia]. }
        { left. lia. }
      * right. exists w. split; [right; exact Hw | exact Hat].
    + congruence.
    + congruence.
    + rewrite Hl, Hl1, <- app_assoc, <- repeat_app. do 2 f_equal. lia.
Qed.

Lemma convert_valid_var v : valid_var v ->
  convert_lit_to_sign_and_var (PyLong v) = (Some (v - 1, false), None).
Proof.
  intros [Hpos Hmax]. rewrite convert_lit_ok.
  - destruct (Z.ltb_spec v 0); [lia |]. do 3 f_equal. lia.
  - lia.
  - rewrite lit_min_eq. lia.
Qed.

Lemma parse_xor_clause_items_valid vs : Forall valid_var vs ->
  forall rest self vars pending,
  parse_xor_clause_items (map PyLong vs ++ rest) self vars pending
  = parse_xor_clause_items rest (set_cmsat (xor_grow vs (cmsat self)) self)
      (vars ++ map (fun v => v - 1) vs) pending.
Proof.
  induction 1 as [| v vs Hv _ IH]; intros rest self vars pending.
  - simpl. rewrite app_nil_r. destruct self; reflexivity.
  - cbn [map app parse_xor_clause_items]. rewrite (convert_valid_var v Hv).
    cbn [raised]. rewrite IH. rewrite <- app_assoc. cbn [app].
    f_equal. unfold xor_grow at 2. cbn [fold_left]. unfold xor_grow_var at 2.
    fold (xor_grow vs).
    destruct (v - 1 >=? SATSolver.nVars (cmsat self)); reflexivity.
Qed.

Ltac valid_vars :=
  repeat match goal with
         | |- Forall _ _ => constructor
         | |- valid_var _ => split; [lia | rewrite lit_max_eq; lia]
         end.

(** X1: [add_xor_clause] on positive literals commits one XOR constraint
    over the zero-based variables, in order, with the given right-hand
    side, and no clause.  The variable space ends at the larger of its
    previous size and the largest literal, reached by one [new_var()] call
    per missing variable. *)
Theorem add_xor_clause_commits (self : Solver) (vs : list Z) (rhs : bool) :
  Forall valid_var vs ->
  exists self',
    add_xor_clause self (py_clause vs) (if rhs then Py_True else Py_False)
    = (Py_None, None, self') /\
    SATSolver.xor_clauses (cmsat self')
    = SATSolver.xor_clauses (cmsat self) ++ [(map (fun v => v - 1) vs, rhs)] /\
    SATSolver.clauses (cmsat self') = SATSolver.clauses (cmsat self) /\
    SATSolver.nVars (cmsat self) <= SATSolver.nVars (cmsat self') /\
    (forall v, In v vs -> v <= SATSolver.nVars (cmsat self')) /\
    (SATSolver.nVars (cmsat self') = SATSolver.nVars (cmsat self) \/
     exists v, In v vs /\ SATSolver.nVars (cmsat self') = v) /\
    SATSolver.calls (cmsat self')
    = SATSolver.calls (cmsat self)
      ++ repeat SATSolver.call_new_var
           (Z.to_nat (SATSolver.nVars (cmsat self')
                      - SATSolver.nVars (cmsat self)))
      ++ [SATSolver.call_add_xor_clause (map (fun v => v - 1) vs) rhs].
Proof.
  intros Hv.
  pose proof (xor_grow_spec vs (cmsat self)) as (Hn & Hin & Hat & Hc & Hx & Hl).
  cbn zeta in *.
  assert (Hp : parse_xor_clause self (py_clause vs) []
               = (true, set_cmsat (xor_grow vs (cmsat self)) self,
                  map (fun v => v - 1) vs, None)).
  { unfold parse_xor_clause, py_clause. cbn [PyObject_GetIter].
    rewrite <- (app_nil_r (map PyLong vs)).
    rewrite (parse_xor_clause_items_valid vs Hv). reflexivity. }
  eexists. split.
  - unfold add_xor_clause. destruct rhs; rewrite Hp; reflexivity.
  - cbn [cmsat set_cmsat SATSolver.add_xor_clause SATSolver.log
           SATSolver.nVars SATSolver.clauses SATSolver.xor_clauses
           SATSolver.calls].
    rewrite Hx, Hl, <- app_assoc. repeat split; assumption.
Qed.

Lemma add_xor_clause_commits_witness :
  exists self',
    add_xor_clause (mkSolver SATSolver.init []) (py_clause [3; 1]) Py_True
    = (Py_None, None, self') /\
    SATSolver.xor_clauses (cmsat self') = [] ++ [([2; 0], true)] /\
    SATSolver.clauses (cmsat self') = [] /\
    0 <= SATSolver.nVars (cmsat self') /\
    (forall v, In v [3; 1] -> v <= SATSolver.nVars (cmsat self')) /\
    (SATSolver.nVars (cmsat self') = 0 \/
     exists v, In v [3; 1] /\ SATSolver.nVars (cmsat self') = v) /\
    SATSolver.calls (cmsat self')
    = [] ++ repeat SATSolver.call_new_var
              (Z.to_nat (SATSolver.nVars (cmsat self') - 0))
         ++ [SATSolver.call_add_xor_clause [2; 0] true].
Proof.
  apply (add_xor_clause_commits (mkSolver SATSolver.init []) [3; 1] true).
  valid_vars.
Defined.

(** X2: an XOR clause whose first offending element is a negated literal is
    rejected with ValueError; no XOR constraint and no clause is committed,
    and [rhs] is checked before the literals; the variables created for
    the literals before the negated one stay. *)
Theorem add_xor_clause_rejects_negated (self : Solver) (vs : list Z)
    (w : Z) (rest : list PyObject) (rhs : bool) (other : PyObject) :
  Forall valid_var vs ->
  valid_lit w ->
  w < 0 ->
  add_xor_clause self (PyList (map PyLong vs ++ PyLong w :: rest))
    (if rhs then Py_True else Py_False)
  = (NULL, Some PyExc_ValueError,
     set_cmsat (xor_grow vs (cmsat self)) self) /\
  SATSolver.xor_clauses (xor_grow vs (cmsat self))
  = SATSolver.xor_clauses (cmsat self) /\
  SATSolver.clauses (xor_grow vs (cmsat self))
  = SATSolver.clauses (cmsat self) /\
  (forall v, In v vs -> v <= SATSolver.nVars (xor_grow vs (cmsat self))) /\
  (other <> Py_True -> other <> Py_False ->
   add_xor_clause self (PyList (map PyLong vs ++ PyLong w :: rest)) other
   = (NULL, Some PyExc_TypeError, self)).
Proof.
  intros Hv [Hnz Hr] Hneg.
  pose proof (xor_grow_spec vs (cmsat self)) as (_ & Hin & _ & Hc & Hx & _).
  cbn zeta in *.
  assert (Hp : parse_xor_clause self
                 (PyList (map PyLong vs ++ PyLong w :: rest)) []
               = (false, set_cmsat (xor_grow vs (cmsat self)) self,
                  map (fun v => v - 1) vs, Some PyExc_ValueError)).
  { unfold parse_xor_clause. cbn [PyObject_GetIter].
    rewrite (parse_xor_clause_items_valid vs Hv).
    cbn [parse_xor_clause_items]. rewrite (convert_lit_ok w Hnz Hr).
    destruct (Z.ltb_spec w 0); [reflexivity | lia]. }
  split; [| split; [exact Hx | split; [exact Hc | split; [exact Hin |]]]].
  - unfold add_xor_clause. destruct rhs; rewrite Hp; reflexivity.
  - intros Ht Hf. unfold add_xor_clause.
    destruct other; try reflexivity; contradiction.
Qed.

Lemma add_xor_clause_rejects_negated_witness :
  add_xor_clause (mkSolver SATSolver.init [])
    (PyList (map PyLong [5] ++ PyLong (-1) :: [])) Py_True
  = (NULL, Some PyExc_ValueError,
     set_cmsat (xor_grow [5] SATSolver.init) (mkSolver SATSolver.init [])) /\
  SATSolver.nVars (xor_grow [5] SATSolver.init) = 5.
Proof.
  split; [| reflexivity].
  apply (proj1 (add_xor_clause_rejects_negated (mkSolver SATSolver.init [])
                  [5] (-1) [] true Py_None ltac:(valid_vars)
                  ltac:(valid_lits) ltac:(lia))).
Defined.

(** ** Rejected and bulk clause input *)

Lemma parse_clause_items_prefix vs : Forall valid_lit vs ->
  forall rest lits mv pending,
  parse_clause_items (map PyLong vs ++ rest) lits mv pending
  = parse_clause_items rest (lits ++ map decode vs)
      (fold_left (fun max_var l => Z.max (var l) max_var) (map decode vs) mv)
      pending.
Proof.
  induction 1 as [| v vs [Hnz Hr] _ IH]; intros rest lits mv pending; simpl.
  - rewrite app_nil_r. reflexivity.
  - rewrite (convert_lit_ok v Hnz Hr). rewrite IH.
    rewrite <- app_assoc. reflexivity.
Qed.

(** X3: a clause whose first offending element is one the codec rejects
    (not an integer, zero, or out of range) makes [add_clause] return the
    null pointer with that element's exception, and the engine is left
    exactly as it was: no clause is committed and no variable is created,
    although the literals before the offending one were already parsed. *)
Theorem add_clause_rejected_leaves_engine (self : Solver) (vs : list Z)
    (bad : PyObject) (rest : list PyObject) (e : PyExc) :
  Forall valid_lit vs ->
  convert_lit_to_sign_and_var bad = (None, Some e) ->
  add_clause self (PyList (map PyLong vs ++ bad :: rest))
  = (NULL, Some e, mkSolver (cmsat self) (map decode vs)).
Proof.
  intros Hv Hbad. unfold add_clause, _add_clause, parse_clause.
  cbn [PyObject_GetIter tmp_cl_lits set_tmp_cl_lits].
  rewrite (parse_clause_items_prefix vs Hv). cbn [parse_clause_items app].
  rewrite Hbad. reflexivity.
Qed.

Lemma add_clause_rejected_leaves_engine_witness :
  add_clause (mkSolver SATSolver.init [])
    (PyList (map PyLong [7; -2] ++ PyLong 0 :: [PyLong 9]))
  = (NULL, Some PyExc_ValueError,
     mkSolver SATSolver.init (map decode [7; -2])).
Proof.
  apply (add_clause_rejected_leaves_engine (mkSolver SATSolver.init [])
           [7; -2] (PyLong 0) [PyLong 9] PyExc_ValueError).
  - valid_lits.
  - reflexivity.
Defined.

(** X4: an integer that does not fit a [long] is not rejected by the codec
    but parsed as the literal [-1] with OverflowError pending.  A clause
    that is otherwise valid is then refused with OverflowError and not
    committed, yet the variable space has been grown as for the clause with
    [-1] in that place. *)
Theorem add_clause_overflow_grows (self : Solver) (vs ws : list Z) (z : Z) :
  Forall valid_lit vs ->
  Forall valid_lit ws ->
  z < LONG_MIN \/ LONG_MAX < z ->
  let lits := map decode (vs ++ -1 :: ws) in
  add_clause self (PyList (map PyLong vs ++ PyLong z :: map PyLong ws))
  = (NULL, Some PyExc_OverflowError,
     mkSolver (ensure_vars lits (cmsat self)) lits) /\
  SATSolver.clauses (ensure_vars lits (cmsat self))
  = SATSolver.clauses (cmsat self) /\
  (forall v, In v (vs ++ ws) ->
     Z.abs v <= SATSolver.nVars (ensure_vars lits (cmsat self))).
Proof.
  intros Hv Hw Hz lits. split; [| split].
  - unfold add_clause, _add_clause, parse_clause.
    cbn [PyObject_GetIter tmp_cl_lits set_tmp_cl_lits].
    rewrite (parse_clause_items_prefix vs Hv). cbn [parse_clause_items app].
    rewrite (convert_lit_overflow z Hz). cbn [raised].
    rewrite <- (app_nil_r (map PyLong ws)).
    rewrite (parse_clause_items_prefix ws Hw). cbn [parse_clause_items].
    unfold ensure_vars, max_var_of, lits.
    rewrite !map_app. cbn [map]. rewrite fold_left_app. cbn [fold_left].
    rewrite <- !app_assoc. cbn [app].
    change (decode (-1)) with (mkLit 0 true).
    destruct (negb _ && _); reflexivity.
  - unfold ensure_vars. destruct (negb _ && _); reflexivity.
  - intros v Hin.
    pose proof (ensure_vars_covers lits (cmsat self) (decode v)) as Hc.
    rewrite decode_var in Hc. unfold lits in *.
    assert (In (decode v) (map decode (vs ++ -1 :: ws))).
    { apply in_map. apply in_app_or in Hin. apply in_or_app.
      destruct Hin; [left | right; right]; assumption. }
    specialize (Hc H). lia.
Qed.

Lemma add_clause_overflow_grows_witness :
  add_clause (mkSolver SATSolver.init [])
    (PyList (map PyLong [5] ++ PyLong 9223372036854775808 :: map PyLong []))
  = (NULL, Some PyExc_OverflowError,
     mkSolver (ensure_vars (map decode ([5] ++ -1 :: [])) SATSolver.init)
       (map decode ([5] ++ -1 :: []))) /\
  SATSolver.nVars (ensure_vars (map decode ([5] ++ -1 :: [])) SATSolver.init)
  = 5.
Proof.
  split; [| reflexivity].
  apply (proj1 (add_clause_overflow_grows (mkSolver SATSolver.init [])
                  [5] [] 9223372036854775808 ltac:(valid_lits)
                  ltac:(valid_lits)
                  ltac:(right; unfold LONG_MAX; lia))).
Defined.

Lemma added_is_add_clause self c : Forall valid_lit c ->
  add_clause self (py_clause c) = (Py_None, None, added self c).
Proof. intros Hc. apply (add_clause_valid self c Hc). Qed.

Lemma add_clauses_items_prefix cs : Forall (Forall valid_lit) cs ->
  forall rest self,
  add_clauses_items (map py_clause cs ++ rest) self
  = add_clauses_items rest (fold_left added cs self).
Proof.
  induction 1 as [| c cs Hc _ IH]; intros rest self; [reflexivity |].
  cbn [map app add_clauses_items fold_left]. unfold py_clause at 1.
  rewrite (_add_clause_valid self c Hc). cbn [negb]. apply IH.
Qed.

Lemma added_clauses cs : forall self,
  SATSolver.clauses (cmsat (fold_left added cs self))
  = SATSolver.clauses (cmsat self) ++ map (map decode) cs.
Proof.
  induction cs as [| c cs IH]; intros self; cbn [fold_left map].
  - rewrite app_nil_r. reflexivity.
  - rewrite IH. unfold added. cbn [cmsat]. unfold ensure_vars.
    destruct (negb _ && _); simpl; rewrite <- app_assoc; reflexivity.
Qed.

(** X5: the bulk [add_clauses] on a list of valid clauses, with [max_var]
    not above [nVars()], is the same as calling [add_clause] on each
    clause in turn: same result, same solver, and the clauses are appended
    to the committed ones in order. *)
Theorem add_clauses_is_sequential (self : Solver) (cs : list (list Z))
    (max_var : Z) :
  Forall (Forall valid_lit) cs ->
  max_var <= SATSolver.nVars (cmsat self) ->
  let self' :=
    fold_left (fun s c => snd (add_clause s (py_clause c))) cs self in
  add_clauses self (PyList (map py_clause cs)) max_var
  = Some (Py_None, None, self') /\
  SATSolver.clauses (cmsat self')
  = SATSolver.clauses (cmsat self) ++ map (map decode) cs.
Proof.
  intros Hcs Hmv self'. subst self'.
  assert (Hseq : fold_left (fun s c => snd (add_clause s (py_clause c))) cs self
                 = fold_left added cs self).
  { clear Hmv. revert self.
    induction Hcs as [| c cs Hc _ IH]; intros self; [reflexivity |].
    cbn [fold_left]. rewrite (added_is_add_clause self c Hc). apply IH. }
  rewrite Hseq. split; [| apply added_clauses].
  unfold add_clauses.
  destruct (Z.gtb_spec max_var (SATSolver.nVars (cmsat self))); [lia |].
  cbn [PyObject_GetIter]. rewrite <- (app_nil_r (map py_clause cs)).
  rewrite (add_clauses_items_prefix cs Hcs). reflexivity.
Qed.

Lemma add_clauses_is_sequential_witness :
  add_clauses (mkSolver SATSolver.init [])
    (PyList (map py_clause [[1; -2]; []; [3]])) 0
  = Some (Py_None, None,
          fold_left (fun s c => snd (add_clause s (py_clause c)))
            [[1; -2]; []; [3]] (mkSolver SATSolver.init [])) /\
  SATSolver.clauses
    (cmsat (fold_left (fun s c => snd (add_clause s (py_clause c)))
              [[1; -2]; []; [3]] (mkSolver SATSolver.init [])))
  = [] ++ map (map decode) [[1; -2]; []; [3]].
Proof.
  apply (add_clauses_is_sequential (mkSolver SATSolver.init [])
           [[1; -2]; []; [3]] 0).
  - valid_lits.
  - simpl. lia.
Defined.

(** X6: the bulk [add_clauses] does not roll back.  When the clauses
    before clause [k] are valid and clause [k] holds an element the codec
    rejects, the call raises that element's exception, the clauses before
    [k] stay committed, and neither clause [k] nor any later clause is
    ingested. *)
Theorem add_clauses_no_rollback (self : Solver) (cs : list (list Z))
    (us : list Z) (bad : PyObject) (more later : list PyObject) (e : PyExc)
    (max_var : Z) :
  Forall (Forall valid_lit) cs ->
  Forall valid_lit us ->
  convert_lit_to_sign_and_var bad = (None, Some e) ->
  max_var <= SATSolver.nVars (cmsat self) ->
  exists self',
    add_clauses self
      (PyList (map py_clause cs
               ++ PyList (map PyLong us ++ bad :: more) :: later)) max_var
    = Some (NULL, Some e, self') /\
    cmsat self' = cmsat (fold_left added cs self) /\
    SATSolver.clauses (cmsat self')
    = SATSolver.clauses (cmsat self) ++ map (map decode) cs.
Proof.
  intros Hcs Hus Hbad Hmv. eexists. split; [| split].
  - unfold add_clauses.
    destruct (Z.gtb_spec max_var (SATSolver.nVars (cmsat self))); [lia |].
    cbn [PyObject_GetIter]. rewrite (add_clauses_items_prefix cs Hcs).
    cbn [add_clauses_items]. unfold _add_clause, parse_clause.
    cbn [PyObject_GetIter tmp_cl_lits set_tmp_cl_lits].
    rewrite (parse_clause_items_prefix us Hus). cbn [parse_clause_items app].
    rewrite Hbad. reflexivity.
  - reflexivity.
  - cbn [cmsat set_cmsat set_tmp_cl_lits]. apply added_clauses.
Qed.

Lemma add_clauses_no_rollback_witness :
  exists self',
    add_clauses (mkSolver SATSolver.init [])
      (PyList (map py_clause [[1; 2]]
               ++ PyList (map PyLong [4] ++ PyOther :: []) :: [py_clause [5]]))
      0
    = Some (NULL, Some PyExc_TypeError, self') /\
    cmsat self' = cmsat (fold_left added [[1; 2]] (mkSolver SATSolver.init [])) /\
    SATSolver.clauses (cmsat self') = [] ++ map (map decode) [[1; 2]].
Proof.
  apply (add_clauses_no_rollback (mkSolver SATSolver.init []) [[1; 2]] [4]
           PyOther [] [py_clause [5]] PyExc_TypeError 0).
  - valid_lits.
  - valid_lits.
  - reflexivity.
  - simpl. lia.
Defined.

(** ** The two bulk formats *)

Lemma added_commit_runs runs : forall self,
  cmsat (fold_left added (List.filter nonempty_run runs) self)
  = fold_left commit_run runs (cmsat self).
Proof.
  induction runs as [| run runs IH]; intros self; [reflexivity |].
  destruct run as [| v run]; cbn [List.filter nonempty_run fold_left commit_run].
  - apply IH.
  - rewrite IH. reflexivity.
Qed.

(** X7: the flat-buffer form and the list form of [add_clauses] agree on
    runs of valid literals: ingesting the zero-separated buffer leaves the
    engine, with its record of calls, exactly as ingesting the list of the
    non-empty runs does, for each accepted type code and item size and any
    [max_var].  The empty runs are where the two forms part: the buffer
    skips them, the list form commits an empty clause for each. *)
Theorem flat_buffer_agrees_with_list (self : Solver) (runs : list (list Z))
    (typecode : ascii) (itemsize max_var : Z) :
  Forall (Forall valid_lit) runs ->
  _check_array_typecode typecode = true ->
  itemsize = 4 \/ itemsize = 8 ->
  exists s_array s_list,
    add_clauses self (PyArray typecode itemsize (flat_buffer runs)) max_var
    = Some (Py_None, None, s_array) /\
    add_clauses self
      (PyList (map py_clause (List.filter nonempty_run runs))) max_var
    = Some (Py_None, None, s_list) /\
    cmsat s_array = cmsat s_list.
Proof.
  intros Hv Htc Hsz. unfold add_clauses.
  set (self0 := if max_var >? SATSolver.nVars (cmsat self) then _ else self).
  clearbody self0.
  destruct (_add_clauses_from_array_runs self0 runs Hv) as (s_array & Hr & Hcm).
  exists s_array, (fold_left added (List.filter nonempty_run runs) self0).
  split; [| split].
  - unfold add_clauses_array. rewrite Htc. cbn [negb].
    destruct Hsz as [-> | ->]; cbn [Z.ltb Z.compare Z.eqb orb];
      rewrite Hr; reflexivity.
  - cbn [PyObject_GetIter].
    rewrite <- (app_nil_r (map py_clause (List.filter nonempty_run runs))).
    rewrite add_clauses_items_prefix; [reflexivity |].
    rewrite List.Forall_forall in *. intros c Hc.
    apply filter_In in Hc as [Hc _]. apply Hv, Hc.
  - rewrite Hcm. symmetry. apply added_commit_runs.
Qed.

Lemma flat_buffer_agrees_with_list_witness :
  exists s_array s_list,
    add_clauses (mkSolver SATSolver.init [])
      (PyArray "q" 8 (flat_buffer [[1; -2]; []; [3]])) 2
    = Some (Py_None, None, s_array) /\
    add_clauses (mkSolver SATSolver.init [])
      (PyList (map py_clause (List.filter nonempty_run [[1; -2]; []; [3]]))) 2
    = Some (Py_None, None, s_list) /\
    cmsat s_array = cmsat s_list.
Proof.
  apply (flat_buffer_agrees_with_list (mkSolver SATSolver.init [])
           [[1; -2]; []; [3]] "q" 8 2).
  - valid_lits.
  - reflexivity.
  - right. reflexivity.
Defined.

Lemma array_clause_out_of_range run bad rest :
  Forall valid_lit run ->
  bad > lit_max \/ bad < lit_min ->
  forall lits mv,
  array_clause (run ++ bad :: rest) lits mv
  = (false, bad :: rest, lits ++ map decode run,
     fold_left (fun max_var l => Z.max (var l) max_var) (map decode run) mv).
Proof.
  intros Hrun Hbad. induction Hrun as [| v run [Hnz Hr] _ IH]; intros lits mv.
  - cbn [app array_clause map fold_left]. rewrite app_nil_r.
    rewrite lit_max_eq, lit_min_eq in Hbad.
    destruct (Z.eqb_spec bad 0); [lia |].
    destruct (Z.gtb_spec bad lit_max), (Z.ltb_spec bad lit_min);
      try reflexivity.
    rewrite lit_max_eq, lit_min_eq in *. lia.
  - cbn [app array_clause].
    destruct (Z.eqb_spec v 0); [contradiction |].
    destruct (Z.gtb_spec v lit_max); [lia |].
    destruct (Z.ltb_spec v lit_min); [lia |].
    cbn [orb]. rewrite IH. rewrite <- app_assoc. reflexivity.
Qed.

Lemma array_clauses_runs_then runs :
  Forall (Forall valid_lit) runs ->
  forall after fuel self,
  exists self',
    array_clauses (length runs + fuel) (flat_buffer runs ++ after) self
    = array_clauses fuel after self' /\
    cmsat self' = fold_left commit_run runs (cmsat self).
Proof.
  induction 1 as [| run runs Hrun _ IH]; intros after fuel self.
  - exists self. split; reflexivity.
  - unfold flat_buffer. cbn [map concat length Nat.add].
    rewrite <- !app_assoc. fold (flat_buffer runs). cbn [app].
    assert (Hne : exists x rest',
              run ++ 0 :: flat_buffer runs ++ after = x :: rest').
    { destruct run; simpl; eauto. }
    destruct Hne as (x & rest' & Hne).
    cbn [array_clauses]. rewrite Hne. rewrite <- Hne. clear x rest' Hne.
    rewrite (array_clause_run run (flat_buffer runs ++ after) Hrun [] 0).
    cbn [negb app tail]. fold (max_var_of (map decode run)).
    match goal with
    | |- context [array_clauses (length runs + fuel)
                    (flat_buffer runs ++ after) ?s] =>
      destruct (IH after fuel s) as (self' & Hloop & Hcm)
    end.
    exists self'. split; [exact Hloop |]. rewrite Hcm. cbn [fold_left].
    f_equal. destruct run as [| v run]; [reflexivity |].
    cbn [map empty negb]. cbn [set_cmsat set_tmp_cl_lits cmsat tmp_cl_lits].
    unfold commit_run, ensure_vars. cbn [map empty negb andb].
    destruct (max_var_of (decode v :: map decode run)
              >=? SATSolver.nVars (cmsat self)); reflexivity.
Qed.

(** X8: the flat-buffer form does not roll back either.  When the buffer
    starts with runs of valid literals and a later run holds a value
    outside the codec range, the call returns 0 with ValueError; the
    clauses of the runs before it stay committed, the run with the bad
    value is not committed, and nothing after it is read. *)
Theorem flat_buffer_no_rollback (self : Solver) (runs : list (list Z))
    (run : list Z) (bad : Z) (rest : list Z) :
  Forall (Forall valid_lit) runs ->
  Forall valid_lit run ->
  bad > lit_max \/ bad < lit_min ->
  exists self',
    _add_clauses_from_array self
      (flat_buffer runs ++ run ++ bad :: rest ++ [0])
    = Some (false, self', Some PyExc_ValueError) /\
    cmsat self' = fold_left commit_run runs (cmsat self) /\
    tmp_cl_lits self' = map decode run /\
    SATSolver.clauses (cmsat self')
    = SATSolver.clauses (cmsat self)
      ++ map (map decode) (List.filter nonempty_run runs).
Proof.
  intros Hv Hrun Hbad. unfold _add_clauses_from_array.
  set (array := flat_buffer runs ++ run ++ bad :: rest ++ [0]).
  assert (Hsnoc : array = (flat_buffer runs ++ run ++ bad :: rest) ++ [0]).
  { unfold array. rewrite <- !app_assoc. reflexivity. }
  assert (Hlen : exists f, length array = (length runs + S f)%nat).
  { exists (length array - length runs - 1)%nat.
    pose proof (flat_buffer_length runs). unfold array.
    rewrite !length_app. cbn [length]. rewrite !length_app. cbn [length]. lia. }
  destruct Hlen as [f Hlen].
  destruct (Nat.eqb_spec (length array) 0) as [H0 | _]; [lia |].
  replace (nth (length array - 1) array 0) with 0.
  2:{ rewrite Hsnoc, length_app. cbn [length].
      rewrite app_nth2 by lia.
      match goal with
      | |- _ = nth ?i _ _ => replace i with 0%nat by lia
      end.
      reflexivity. }
  cbn [Z.eqb negb]. rewrite Hlen. unfold array.
  destruct (array_clauses_runs_then runs Hv (run ++ bad :: rest ++ [0])
              (S f) self) as (self1 & -> & Hcm).
  assert (Hne : exists x rest', run ++ bad :: rest ++ [0] = x :: rest').
  { destruct run; simpl; eauto. }
  destruct Hne as (x & rest' & Hne).
  cbn [array_clauses]. rewrite Hne. rewrite <- Hne. clear x rest' Hne.
  rewrite (array_clause_out_of_range run bad (rest ++ [0]) Hrun Hbad [] 0).
  cbn [negb app]. eexists. split; [reflexivity |].
  cbn [cmsat tmp_cl_lits set_tmp_cl_lits]. split; [exact Hcm |].
  split; [reflexivity |]. rewrite Hcm. apply commit_runs_clauses.
Qed.

Lemma flat_buffer_no_rollback_witness :
  exists self',
    _add_clauses_from_array (mkSolver SATSolver.init [])
      (flat_buffer [[1; -2]] ++ [3] ++ 2000000000 :: [4; 0; 5] ++ [0])
    = Some (false, self', Some PyExc_ValueError) /\
    cmsat self' = fold_left commit_run [[1; -2]] SATSolver.init /\
    tmp_cl_lits self' = map decode [3] /\
    SATSolver.clauses (cmsat self')
    = [] ++ map (map decode) (List.filter nonempty_run [[1; -2]]).
Proof.
  apply (flat_buffer_no_rollback (mkSolver SATSolver.init []) [[1; -2]] [3]
           2000000000 [4; 0; 5]).
  - valid_lits.
  - valid_lits.
  - left. rewrite lit_max_eq. lia.
Defined.

(** X9: after [add_clauses] with [max_var], whatever the clauses and
    whether or not the call raised, [nb_vars()] is at least [max_var] and
    at least what it was. *)
Theorem add_clauses_reaches_max_var (self : Solver) (clauses : PyObject)
    (max_var : Z) :
  exists r err self',
    add_clauses self clauses max_var = Some (r, err, self') /\
    max_var <= SATSolver.nVars (cmsat self') /\
    SATSolver.nVars (cmsat self) <= SATSolver.nVars (cmsat self').
Proof.
  destruct (add_clauses_total self clauses max_var) as [[[r err] self'] H].
  exists r, err, self'. split; [exact H |].
  pose proof (extends_add_clauses _ _ _ _ _ _ H) as (Hmono & _).
  split; [| exact Hmono].
  destruct (Z.gtb_spec max_var (SATSolver.nVars (cmsat self))) as [Hgt | Hle];
    [| lia].
  (* the call is the same call on the pre-grown solver *)
  set (self0 := set_cmsat
                  (SATSolver.new_vars (max_var - SATSolver.nVars (cmsat self))
                     (cmsat self)) self).
  assert (H0 : add_clauses self0 clauses max_var = Some (r, err, self')).
  { rewrite <- H. unfold add_clauses.
    destruct (Z.gtb_spec max_var (SATSolver.nVars (cmsat self))); [| lia].
    fold self0.
    destruct (Z.gtb_spec max_var (SATSolver.nVars (cmsat self0))) as [Hgt0 | _];
      [| reflexivity].
    unfold self0 in Hgt0. simpl in Hgt0. lia. }
  apply extends_add_clauses in H0 as (Hmono0 & _).
  unfold self0 in Hmono0. simpl in Hmono0. lia.
Qed.

(** ** Learnt clauses and solutions given back to the solver *)

Lemma decode_lit_to_long (l : Lit) :
  0 <= var l < lit_max ->
  valid_lit (lit_to_long l) /\ decode (lit_to_long l) = l.
Proof.
  intros Hv. rewrite lit_max_eq in Hv. destruct l as [v s]. cbn [var] in Hv.
  unfold lit_to_long, decode, valid_lit. cbn [var sign].
  rewrite lit_min_eq, lit_max_eq.
  destruct s.
  - split; [lia |]. destruct (Z.ltb_spec ((v + 1) * -1) 0); [| lia].
    f_equal. lia.
  - split; [lia |]. destruct (Z.ltb_spec (v + 1) 0); [lia |].
    f_equal. lia.
Qed.

(** X10: a learnt clause handed out by [get_next_small_clause] comes as
    the signed integers of its literals, the stream moves on by one
    clause, and giving that list back to [add_clause] commits the very
    literals the engine streamed. *)
Theorem learnt_clause_round_trip (self : Solver) (c : list Lit)
    (rest : list (list Lit)) :
  SATSolver.small_clauses (cmsat self) = c :: rest ->
  Forall (fun l => 0 <= var l < lit_max) c ->
  exists items self1,
    get_next_small_clause self = (PyList items, None, self1) /\
    items = map (fun l => PyLong (lit_to_long l)) c /\
    SATSolver.small_clauses (cmsat self1) = rest /\
    add_clause self1 (PyList items)
    = (Py_None, None,
       mkSolver (SATSolver.add_clause c (ensure_vars c (cmsat self1))) c).
Proof.
  intros Hstream Hc. unfold get_next_small_clause, SATSolver.get_next_small_clause.
  rewrite Hstream. do 2 eexists. split; [reflexivity |].
  split; [reflexivity |]. split; [reflexivity |].
  assert (Hdec : map decode (map lit_to_long c) = c
                 /\ Forall valid_lit (map lit_to_long c)).
  { clear Hstream. induction Hc as [| l c Hl _ [IH1 IH2]];
      [split; [reflexivity | constructor] |].
    destruct (decode_lit_to_long l Hl) as [Hvalid Hd]. cbn [map].
    rewrite Hd, IH1. split; [reflexivity | constructor; assumption]. }
  destruct Hdec as [Hdec Hvalid].
  rewrite <- (map_map lit_to_long PyLong).
  rewrite (add_clause_valid _ (map lit_to_long c) Hvalid). rewrite Hdec.
  reflexivity.
Qed.

Lemma learnt_clause_round_trip_witness :
  exists items self1,
    get_next_small_clause
      (mkSolver (SATSolver.mk 0 [] [] []
                   [[mkLit 0 true; mkLit 2 false]; [mkLit 1 false]] []) [])
    = (PyList items, None, self1) /\
    items = map (fun l => PyLong (lit_to_long l)) [mkLit 0 true; mkLit 2 false] /\
    SATSolver.small_clauses (cmsat self1) = [[mkLit 1 false]] /\
    add_clause self1 (PyList items)
    = (Py_None, None,
       mkSolver (SATSolver.add_clause [mkLit 0 true; mkLit 2 false]
                   (ensure_vars [mkLit 0 true; mkLit 2 false] (cmsat self1)))
         [mkLit 0 true; mkLit 2 false]).
Proof.
  apply (learnt_clause_round_trip
           (mkSolver (SATSolver.mk 0 [] [] []
                        [[mkLit 0 true; mkLit 2 false]; [mkLit 1 false]] []) [])
           [mkLit 0 true; mkLit 2 false] [[mkLit 1 false]]).
  - reflexivity.
  - repeat constructor; simpl; rewrite ?lit_max_eq; lia.
Defined.

(** X11: the dense solution has one slot more than there are variables,
    slot 0 is [None], the slot of variable [v] shows its value in the
    model, and no slot is the null pointer: every slot is [None], [True]
    or [False]. *)
Theorem get_solution_well_formed (e : SATSolver.t) (v : Z) :
  exists items,
    get_solution e = PyTuple items /\
    length items = S (Z.to_nat (SATSolver.nVars e)) /\
    nth_error items 0 = Some Py_None /\
    (forall x, In x items -> x = Py_None \/ x = Py_True \/ x = Py_False) /\
    (0 < v <= SATSolver.nVars e ->
     nth_error items (Z.to_nat v)
     = Some (dense_value (SATSolver.value (SATSolver.get_model e) (v - 1)))).
Proof.
  eexists. split; [apply get_solution_items |].
  split; [cbn [length]; rewrite length_map, length_seq; reflexivity |].
  split; [reflexivity |]. split.
  - intros x [<- | Hx]; [auto |].
    apply in_map_iff in Hx as (i & <- & _).
    destruct (model_at (SATSolver.get_model e) i); simpl; auto.
  - intros Hv.
    pose proof (solution_slot_render false e v Hv) as H.
    unfold render_solution, solution_slot in H. cbn [negb] in H.
    rewrite get_solution_items in H. exact H.
Qed.

Lemma get_solution_well_formed_witness :
  nth_error
    [Py_None;
     dense_value (model_at [l_True; l_Undef] 0);
     dense_value (model_at [l_True; l_Undef] 1)] (Z.to_nat 2)
  = Some (dense_value (SATSolver.value [l_True; l_Undef] (2 - 1))).
Proof.
  destruct (get_solution_well_formed
              (SATSolver.mk 2 [] [] [l_True; l_Undef] [] []) 2)
    as (items & Hitems & _ & _ & _ & Hslot).
  injection Hitems as <-. apply Hslot. simpl. lia.
Defined.

(** X12: in a raw solution the slot of an assigned variable holds an
    integer that the literal codec decodes to that same variable, with the
    polarity that makes the literal true in the model: a raw solution of a
    fully assigned model can be given back as a clause or as
    assumptions. *)
Theorem raw_solution_decodes (e : SATSolver.t) (i : nat) :
  (i < Z.to_nat (SATSolver.nVars e))%nat ->
  Z.of_nat i < lit_max ->
  model_at (SATSolver.get_model e) i <> l_Undef ->
  exists x s,
    nth_error (tuple_items (get_raw_solution e)) i = Some x /\
    convert_lit_to_sign_and_var x = (Some (Z.of_nat i, s), None) /\
    SATSolver.lit_true (SATSolver.get_model e) (mkLit (Z.of_nat i) s) = true.
Proof.
  intros Hi Hmax Hdef. rewrite get_raw_solution_items. cbn [tuple_items].
  rewrite (nth_error_map_seq
             (fun var => raw_value var (model_at (SATSolver.get_model e) var)))
    by exact Hi.
  unfold SATSolver.lit_true, SATSolver.value. cbn [var sign].
  rewrite Nat2Z.id. rewrite lit_max_eq in Hmax.
  destruct (model_at (SATSolver.get_model e) i) eqn:Hm; [| | contradiction];
    cbn [raw_value]; do 2 eexists; (split; [reflexivity |]).
  - rewrite convert_lit_ok; [| lia | rewrite lit_min_eq, lit_max_eq; lia].
    destruct (Z.ltb_spec (Z.of_nat i + 1) 0); [lia |].
    split; [do 3 f_equal; lia |].
    change (nth i (SATSolver.get_model e) l_Undef)
      with (model_at (SATSolver.get_model e) i).
    rewrite Hm. reflexivity.
  - rewrite convert_lit_ok; [| lia | rewrite lit_min_eq, lit_max_eq; lia].
    destruct (Z.ltb_spec (- (Z.of_nat i + 1)) 0); [| lia].
    split; [do 3 f_equal; lia |].
    change (nth i (SATSolver.get_model e) l_Undef)
      with (model_at (SATSolver.get_model e) i).
    rewrite Hm. reflexivity.
Qed.

Lemma raw_solution_decodes_witness :
  exists x s,
    nth_error
      (tuple_items
         (get_raw_solution (SATSolver.mk 2 [] [] [l_True; l_False] [] [])))
      1%nat = Some x /\
    convert_lit_to_sign_and_var x = (Some (Z.of_nat 1, s), None) /\
    SATSolver.lit_true [l_True; l_False] (mkLit (Z.of_nat 1) s) = true.
Proof.
  apply (raw_solution_decodes (SATSolver.mk 2 [] [] [l_True; l_False] [] [])
           1%nat).
  - simpl. lia.
  - rewrite lit_max_eq. simpl. lia.
  - discriminate.
Defined.

(** ** Solving *)

(** X13: [is_satisfiable()] returns the first component of what [solve()]
    without assumptions returns, and leaves the solver in the same state. *)
Theorem is_satisfiable_is_solve (search : SATSolver.search_t) (self : Solver) :
  exists answer solution self',
    solve search self NULL = (PyTuple [answer; solution], None, self') /\
    is_satisfiable search self = (answer, None, self').
Proof.
  unfold solve, is_satisfiable.
  destruct (SATSolver.solve search [] (cmsat self)) as [res e].
  destruct res; do 3 eexists; split; reflexivity.
Qed.

Lemma parse_assumption_items_valid e vs : Forall valid_lit vs ->
  (forall v, In v vs -> Z.abs v <= SATSolver.nVars e) ->
  forall lits pending,
  parse_assumption_items (map PyLong vs) e lits pending
  = (true, lits ++ map decode vs, pending).
Proof.
  induction 1 as [| v vs [Hnz Hr] _ IH]; intros Hin lits pending; simpl.
  - rewrite app_nil_r. reflexivity.
  - rewrite (convert_lit_ok v Hnz Hr).
    pose proof (Hin v (or_introl eq_refl)) as Hv.
    destruct (Z.geb_spec (Z.abs v - 1) (SATSolver.nVars e)); [lia |].
    rewrite IH by (intros w Hw; apply Hin; right; exact Hw).
    rewrite <- app_assoc. reflexivity.
Qed.

(** X14: [solve] with assumptions that are valid literals on existing
    variables makes one engine call, a solve with exactly the decoded
    assumptions, and raises nothing.  When a sound engine answers
    satisfiable, the dense solution returned agrees with every
    assumption: slot [|v|] is [True] for an assumption [v > 0] and [False]
    for [v < 0]. *)
Theorem solve_honours_assumptions (search : SATSolver.search_t)
    (self : Solver) (vs : list Z) :
  SATSolver.sound search ->
  Forall valid_lit vs ->
  (forall v, In v vs -> Z.abs v <= SATSolver.nVars (cmsat self)) ->
  exists r self',
    solve search self (py_clause vs) = (r, None, self') /\
    SATSolver.calls (cmsat self')
    = SATSolver.calls (cmsat self) ++ [SATSolver.call_solve (map decode vs)] /\
    (forall solution, r = PyTuple [Py_True; solution] ->
     forall v, In v vs ->
       solution_slot false solution (Z.abs v)
       = Some (if 0 <? v then Py_True else Py_False)).
Proof.
  intros Hsound Hv Hin. unfold solve, py_clause, parse_assumption_lits.
  cbn [PyObject_GetIter].
  rewrite (parse_assumption_items_valid (cmsat self) vs Hv Hin). cbn [negb app PyErr_Occurred].
  destruct (SATSolver.solve search (map decode vs) (cmsat self)) as [res e] eqn:Hs.
  pose proof (solve_nVars _ _ _ _ _ Hs) as (Hn & _ & _ & Hl).
  assert (Htrue : res = l_True ->
            forallb (SATSolver.lit_true (SATSolver.get_model e)) (map decode vs)
            = true).
  { intros ->. revert Hs. unfold SATSolver.solve.
    destruct (search _ _ _ _) as [r0 m] eqn:Hsearch. intros [= -> <-].
    apply Hsound in Hsearch. apply Hsearch. }
  destruct res; do 2 eexists; (split; [reflexivity |]);
    (split; [exact Hl |]); intros solution [= <-].
  intros v Hvin. specialize (Htrue eq_refl). rewrite forallb_forall in Htrue.
  specialize (Htrue (decode v) (in_map decode vs v Hvin)).
  rewrite List.Forall_forall in Hv. destruct (Hv v Hvin) as [Hnz _].
  pose proof (solution_slot_render false e (Z.abs v)) as Hslot.
  unfold render_solution in Hslot. cbn [negb] in Hslot.
  rewrite Hslot by (specialize (Hin v Hvin); lia). f_equal.
  revert Htrue. unfold SATSolver.lit_true. rewrite decode_var. cbn [decode sign].
  destruct (Z.ltb_spec v 0), (Z.ltb_spec 0 v); try lia;
    destruct (SATSolver.value (SATSolver.get_model e) (Z.abs v - 1));
    simpl; congruence.
Qed.

Lemma solve_honours_assumptions_witness :
  exists r self',
    solve Reference.search
      (mkSolver (SATSolver.new_vars 2 SATSolver.init) []) (py_clause [-1; 2])
    = (r, None, self') /\
    SATSolver.calls (cmsat self')
    = SATSolver.calls (SATSolver.new_vars 2 SATSolver.init)
      ++ [SATSolver.call_solve (map decode [-1; 2])] /\
    (forall solution, r = PyTuple [Py_True; solution] ->
     forall v, In v [-1; 2] ->
       solution_slot false solution (Z.abs v)
       = Some (if 0 <? v then Py_True else Py_False)).
Proof.
  apply (solve_honours_assumptions Reference.search
           (mkSolver (SATSolver.new_vars 2 SATSolver.init) []) [-1; 2]).
  - exact reference_sound.
  - valid_lits.
  - simpl. intros v [<- | [<- | []]]; lia.
Defined.

(** ** Enumeration outcomes *)

Lemma msolve_loop_decides search fuel : SATSolver.decides search ->
  forall raw var_lits n cur res sols self,
  n - cur <= Z.of_nat fuel ->
  exists sols' self',
    msolve_loop search fuel raw var_lits n cur res sols self
    = Some (PyList sols', None, self').
Proof.
  intros Hdec.
  induction fuel as [| fuel IH]; intros raw var_lits n cur res sols self Hf;
    cbn [msolve_loop].
  - destruct (Z.ltb_spec cur n); cbn [andb]; [lia | eauto].
  - destruct ((cur <? n) && lbool_eqb res l_True); [| eauto].
    destruct (SATSolver.solve search [] (cmsat self)) as [res' e'] eqn:Hs.
    destruct res'.
    + apply IH. lia.
    + eauto.
    + exfalso. revert Hs. unfold SATSolver.solve.
      destruct (search _ _ _ _) as [r0 m] eqn:Hsearch. intros [= -> _].
      apply (Hdec (SATSolver.nVars (cmsat self)) (SATSolver.clauses (cmsat self))
               (SATSolver.xor_clauses (cmsat self)) []).
      rewrite Hsearch. reflexivity.
Qed.

(** X15: with an engine that always decides, [msolve_selected] on a
    selection of valid literals never raises: it returns a list.  When the
    engine answers unknown in an iteration, the call returns the null
    pointer with SystemError, whatever solutions were gathered before. *)
Theorem msolve_selected_outcomes (search : SATSolver.search_t)
    (self : Solver) (max_nr_of_solutions : Z) (vs : list Z) (raw : bool)
    (fuel : nat) (var_lits : list Lit) (current_nr_of_solutions : Z)
    (gathered : list PyObject) (e : SATSolver.t) :
  Forall valid_lit vs ->
  (SATSolver.decides search ->
   exists solutions self',
     msolve_selected search self max_nr_of_solutions (py_clause vs) raw
     = Some (PyList solutions, None, self')) /\
  (current_nr_of_solutions < max_nr_of_solutions ->
   SATSolver.solve search [] (cmsat self) = (l_Undef, e) ->
   msolve_loop search (S fuel) raw var_lits max_nr_of_solutions
     current_nr_of_solutions l_True gathered self
   = Some (NULL, Some PyExc_SystemError, set_cmsat e self)).
Proof.
  intros Hv. split.
  - intros Hdec. unfold msolve_selected, py_clause.
    rewrite (parse_clause_valid self vs Hv). cbn [negb].
    apply msolve_loop_decides; [exact Hdec | lia].
  - intros Hlt Hs. cbn [msolve_loop].
    destruct (Z.ltb_spec current_nr_of_solutions max_nr_of_solutions); [| lia].
    cbn [andb lbool_eqb]. rewrite Hs. reflexivity.
Qed.

Lemma msolve_selected_outcomes_witness :
  exists solutions self',
    msolve_selected Reference.search
      (mkSolver (SATSolver.new_vars 2 SATSolver.init) []) 3
      (py_clause [1; 2]) true
    = Some (PyList solutions, None, self').
Proof.
  apply (proj1 (msolve_selected_outcomes Reference.search
                  (mkSolver (SATSolver.new_vars 2 SATSolver.init) []) 3
                  [1; 2] true 0 [] 0 [] SATSolver.init ltac:(valid_lits))).
  exact reference_decides.
Defined.

Lemma ensure_vars_within lits e :
  (forall l, In l lits -> 0 <= var l < SATSolver.nVars e) ->
  ensure_vars lits e = e.
Proof.
  intros Hin. unfold ensure_vars.
  destruct lits as [| l lits]; [reflexivity |]. cbn [empty negb andb].
  destruct (Z.geb_spec (max_var_of (l :: lits)) (SATSolver.nVars e));
    [| reflexivity].
  pose proof (Hin l (or_introl eq_refl)).
  assert (max_var_of (l :: lits) < SATSolver.nVars e); [| lia].
  apply max_var_of_lt; [lia |]. intros l' Hl'. apply Hin, Hl'.
Qed.

(** X16: asking [msolve_selected] for one solution in the dense format,
    over a selection of existing variables, is [solve()] without
    assumptions: on a satisfiable answer the list holds exactly the
    solution [solve] returns, on an unsatisfiable one it is empty, and on
    unknown the call raises SystemError where [solve] returns
    [(None, None)]; both leave the solver in the same state and nothing is
    added to the engine. *)
Theorem msolve_one_is_solve (search : SATSolver.search_t) (self : Solver)
    (vs : list Z) :
  Forall valid_lit vs ->
  (forall v, In v vs -> Z.abs v <= SATSolver.nVars (cmsat self)) ->
  exists answer solution self',
    solve search self NULL = (PyTuple [answer; solution], None, self') /\
    SATSolver.clauses (cmsat self') = SATSolver.clauses (cmsat self) /\
    msolve_selected search self 1 (py_clause vs) false
    = Some (match answer with
            | Py_True => PyList [solution]
            | Py_False => PyList []
            | _ => NULL
            end,
            match answer with
            | Py_True | Py_False => None
            | _ => Some PyExc_SystemError
            end,
            self').
Proof.
  intros Hv Hin. unfold msolve_selected, py_clause.
  rewrite (parse_clause_valid self vs Hv). cbn [negb].
  rewrite ensure_vars_within.
  2:{ intros l Hl. apply in_map_iff in Hl as (v & <- & Hvin).
      rewrite decode_var. specialize (Hin v Hvin).
      rewrite List.Forall_forall in Hv. destruct (Hv v Hvin). lia. }
  replace (set_cmsat (cmsat self) self) with self by (destruct self; reflexivity).
  unfold solve. cbn [negb]. change (Z.to_nat 1) with 1%nat.
  cbn [msolve_loop]. cbn [Z.ltb Z.compare andb lbool_eqb].
  destruct (SATSolver.solve search [] (cmsat self)) as [res e] eqn:Hs.
  pose proof (solve_nVars _ _ _ _ _ Hs) as (_ & Hc & _).
  destruct res; do 3 eexists; (split; [reflexivity |]);
    (split; [exact Hc | reflexivity]).
Qed.

Lemma msolve_one_is_solve_witness :
  exists answer solution self',
    solve Reference.search
      (mkSolver (SATSolver.add_clause [mkLit 0 false]
                   (SATSolver.new_vars 2 SATSolver.init)) []) NULL
    = (PyTuple [answer; solution], None, self') /\
    SATSolver.clauses (cmsat self') = [[mkLit 0 false]] /\
    msolve_selected Reference.search
      (mkSolver (SATSolver.add_clause [mkLit 0 false]
                   (SATSolver.new_vars 2 SATSolver.init)) []) 1
      (py_clause [2; -1]) false
    = Some (match answer with
            | Py_True => PyList [solution]
            | Py_False => PyList []
            | _ => NULL
            end,
            match answer with
            | Py_True | Py_False => None
            | _ => Some PyExc_SystemError
            end,
            self').
Proof.
  apply (msolve_one_is_solve Reference.search
           (mkSolver (SATSolver.add_clause [mkLit 0 false]
                        (SATSolver.new_vars 2 SATSolver.init)) []) [2; -1]).
  - valid_lits.
  - simpl. intros v [<- | [<- | []]]; lia.
Defined.

(** X17: enumeration changes the problem.  When [msolve_selected] is asked
    for at least two solutions and the first answer is satisfiable, the
    ban clause of the first model is among the committed clauses when the
    call is over, whatever happens next; and when the selection names no
    positive literal that clause is empty, so the empty clause stays
    committed. *)
Theorem msolve_selected_keeps_ban (search : SATSolver.search_t)
    (self : Solver) (max_nr_of_solutions : Z) (vs : list Z) (raw : bool)
    (e : SATSolver.t) :
  Forall valid_lit vs ->
  2 <= max_nr_of_solutions ->
  SATSolver.solve search [] (ensure_vars (map decode vs) (cmsat self))
  = (l_True, e) ->
  exists r err self',
    msolve_selected search self max_nr_of_solutions (py_clause vs) raw
    = Some (r, err, self') /\
    In (ban_solution (map decode vs) (SATSolver.get_model e))
      (SATSolver.clauses (cmsat self')) /\
    (Forall (fun v => v < 0) vs -> In [] (SATSolver.clauses (cmsat self'))).
Proof.
  intros Hv Hmax Hs.
  destruct (msolve_selected_total search self max_nr_of_solutions
              (py_clause vs) raw) as [[[r err] self'] Hm].
  exists r, err, self'. split; [exact Hm |].
  assert (Hban : In (ban_solution (map decode vs) (SATSolver.get_model e))
                   (SATSolver.clauses (cmsat self'))).
  { revert Hm. unfold msolve_selected, py_clause.
    rewrite (parse_clause_valid self vs Hv). cbn [negb].
    destruct (Z.to_nat max_nr_of_solutions) as [| fuel] eqn:Hfuel; [lia |].
    cbn [msolve_loop].
    destruct (Z.ltb_spec 0 max_nr_of_solutions); [| lia].
    cbn [andb lbool_eqb cmsat set_cmsat]. rewrite Hs.
    destruct (Z.ltb_spec (0 + 1) max_nr_of_solutions); [| lia].
    intros Hloop. apply extends_msolve_loop in Hloop as (_ & [more Hcls] & _).
    rewrite Hcls. cbn [cmsat set_cmsat SATSolver.add_clause SATSolver.log
                         SATSolver.clauses].
    apply in_or_app. left. apply in_or_app. right. left. reflexivity. }
  split; [exact Hban |].
  intros Hneg. rewrite (ban_solution_selection _ vs Hv) in Hban.
  replace (List.filter (fun v => 0 <? v) vs) with (@nil Z) in Hban;
    [exact Hban |].
  clear - Hneg. induction Hneg as [| v vs Hlt _ IH]; [reflexivity |].
  cbn [List.filter]. destruct (Z.ltb_spec 0 v); [lia | exact IH].
Qed.

Lemma msolve_selected_keeps_ban_witness :
  exists r err self',
    msolve_selected Reference.search
      (mkSolver (SATSolver.new_vars 2 SATSolver.init) []) 2
      (py_clause [-1; -2]) true
    = Some (r, err, self') /\
    In (ban_solution (map decode [-1; -2])
          (SATSolver.get_model
             (snd (SATSolver.solve Reference.search []
                     (SATSolver.new_vars 2 SATSolver.init)))))
      (SATSolver.clauses (cmsat self')) /\
    (Forall (fun v => v < 0) [-1; -2] ->
     In [] (SATSolver.clauses (cmsat self'))).
Proof.
  apply (msolve_selected_keeps_ban Reference.search
           (mkSolver (SATSolver.new_vars 2 SATSolver.init) []) 2 [-1; -2] true
           (snd (SATSolver.solve Reference.search []
                   (SATSolver.new_vars 2 SATSolver.init)))).
  - valid_lits.
  - lia.
  - reflexivity.
Defined.

(** ** Rejected arrays and assumptions *)

(** X18: [add_clauses] on an array whose type code is not [i], [l] or [q],
    or whose item size is negative or neither 4 nor 8, raises ValueError
    without reading the buffer: nothing is ingested, and the solver is the
    one left by the [max_var] pre-growth. *)
Theorem add_clauses_rejects_array (self : Solver) (typecode : ascii)
    (itemsize : Z) (data : list Z) (max_var : Z) :
  _check_array_typecode typecode = false \/ (itemsize <> 4 /\ itemsize <> 8) ->
  exists self',
    add_clauses self (PyArray typecode itemsize data) max_var
    = Some (NULL, Some PyExc_ValueError, self') /\
    SATSolver.clauses (cmsat self') = SATSolver.clauses (cmsat self) /\
    tmp_cl_lits self' = tmp_cl_lits self /\
    SATSolver.nVars (cmsat self')
    = Z.max (SATSolver.nVars (cmsat self)) max_var.
Proof.
  intros Hbad. unfold add_clauses.
  set (self0 := if max_var >? SATSolver.nVars (cmsat self) then _ else self).
  exists self0. split.
  - unfold add_clauses_array.
    destruct (_check_array_typecode typecode); cbn [negb]; [| reflexivity].
    destruct Hbad as [Hbad | [H4 H8]]; [discriminate |].
    destruct (itemsize <? 0); [reflexivity |].
    destruct (Z.eqb_spec itemsize 4); [contradiction |].
    destruct (Z.eqb_spec itemsize 8); [contradiction |]. reflexivity.
  - subst self0.
    destruct (Z.gtb_spec max_var (SATSolver.nVars (cmsat self)));
      repeat split; simpl; lia.
Qed.

Lemma add_clauses_rejects_array_witness :
  exists self',
    add_clauses (mkSolver SATSolver.init []) (PyArray "h" 2 [1; 0]) 3
    = Some (NULL, Some PyExc_ValueError, self') /\
    SATSolver.clauses (cmsat self') = [] /\
    tmp_cl_lits self' = [] /\
    SATSolver.nVars (cmsat self') = Z.max 0 3.
Proof.
  apply (add_clauses_rejects_array (mkSolver SATSolver.init []) "h" 2 [1; 0] 3).
  left. reflexivity.
Defined.

Lemma parse_assumption_items_prefix e vs : Forall valid_lit vs ->
  (forall v, In v vs -> Z.abs v <= SATSolver.nVars e) ->
  forall rest lits pending,
  parse_assumption_items (map PyLong vs ++ rest) e lits pending
  = parse_assumption_items rest e (lits ++ map decode vs) pending.
Proof.
  induction 1 as [| v vs [Hnz Hr] _ IH]; intros Hin rest lits pending; simpl.
  - rewrite app_nil_r. reflexivity.
  - rewrite (convert_lit_ok v Hnz Hr).
    pose proof (Hin v (or_introl eq_refl)) as Hv.
    destruct (Z.geb_spec (Z.abs v - 1) (SATSolver.nVars e)); [lia |].
    rewrite IH by (intros w Hw; apply Hin; right; exact Hw).
    rewrite <- app_assoc. reflexivity.
Qed.

(** X19: a [solve] call whose assumptions are rejected does nothing else:
    when the object given is not iterable the call raises TypeError, and
    when the first offending assumption is one the codec rejects it raises
    that element's exception; in both cases the engine is not called and
    the solver is returned as it was. *)
Theorem solve_rejected_leaves_solver (search : SATSolver.search_t)
    (self : Solver) (assumptions : PyObject) (vs : list Z) (bad : PyObject)
    (rest : list PyObject) (e : PyExc) :
  (assumptions <> NULL -> PyObject_GetIter assumptions = None ->
   solve search self assumptions = (NULL, Some PyExc_TypeError, self)) /\
  (Forall valid_lit vs ->
   (forall v, In v vs -> Z.abs v <= SATSolver.nVars (cmsat self)) ->
   convert_lit_to_sign_and_var bad = (None, Some e) ->
   solve search self (PyList (map PyLong vs ++ bad :: rest))
   = (NULL, Some e, self)).
Proof.
  split.
  - intros Hnn Hit. unfold solve, parse_assumption_lits.
    destruct assumptions; try contradiction; try discriminate;
      cbn [PyObject_GetIter] in *; reflexivity.
  - intros Hv Hin Hbad. unfold solve, parse_assumption_lits.
    cbn [PyObject_GetIter].
    rewrite (parse_assumption_items_prefix (cmsat self) vs Hv Hin).
    cbn [parse_assumption_items]. rewrite Hbad. reflexivity.
Qed.

Lemma solve_rejected_leaves_solver_witness :
  solve Reference.search (mkSolver (SATSolver.new_vars 2 SATSolver.init) [])
    Py_None
  = (NULL, Some PyExc_TypeError,
     mkSolver (SATSolver.new_vars 2 SATSolver.init) []) /\
  solve Reference.search (mkSolver (SATSolver.new_vars 2 SATSolver.init) [])
    (PyList (map PyLong [2] ++ PyLong 0 :: [PyLong 1]))
  = (NULL, Some PyExc_ValueError,
     mkSolver (SATSolver.new_vars 2 SATSolver.init) []).
Proof.
  split.
  - apply (proj1 (solve_rejected_leaves_solver Reference.search
                    (mkSolver (SATSolver.new_vars 2 SATSolver.init) [])
                    Py_None [] PyOther [] PyExc_TypeError));
      [discriminate | reflexivity].
  - apply (proj2 (solve_rejected_leaves_solver Reference.search
                    (mkSolver (SATSolver.new_vars 2 SATSolver.init) [])
                    NULL [2] (PyLong 0) [PyLong 1] PyExc_ValueError)).
    + valid_lits.
    + simpl. intros v [<- | []]. lia.
    + reflexivity.
Defined.
